(** * remotePlusPlus: the connection store and the remote service

    A shallow embedding of [addon/globalPlugins/remotePlusPlus/service.py]:
    the [ConnectionManager] class (the persisted store of connection groups)
    and the [RemoteService] class (decisions over the live remote client).

    Python values are embedded as a small universe of JSON-shaped values,
    dictionaries as insertion-ordered association lists, exceptions as an
    error result, and [self.data] together with the two files of the
    atomic save as explicit state. *)

From Stdlib Require Import String Ascii ZArith List Bool Lia.
From stdpp Require Import base tactics option list strings pretty.

Local Open Scope string_scope.
Local Open Scope list_scope.
Local Open Scope Z_scope.

Set Warnings "-register-all".

(** ** Python values, dictionaries and exceptions *)

Module Py.

(** The values [json.load] produces (numbers are the integers). *)
Inductive value :=
| VNone
| VBool (b : bool)
| VInt (z : Z)
| VStr (s : string)
| VList (l : list value)
| VDict (d : list (string * value)).

(** A [dict] with [str] keys: bindings in insertion order. *)
Definition dict (A : Type) := list (string * A).

Section Dict.
Context {A : Type}.

Fixpoint dict_get (k : string) (d : dict A) : option A :=
  match d with
  | [] => None
  | (k', v) :: r => if String.eqb k' k then Some v else dict_get k r
  end.

Definition dict_mem (k : string) (d : dict A) : bool :=
  match dict_get k d with Some _ => true | None => false end.

(** [d[k] = v]: an existing key keeps its place, a new key goes last. *)
Fixpoint dict_set (k : string) (v : A) (d : dict A) : dict A :=
  match d with
  | [] => [(k, v)]
  | (k', v') :: r =>
      if String.eqb k' k then (k', v) :: r else (k', v') :: dict_set k v r
  end.

(** [del d[k]] *)
Definition dict_del (k : string) (d : dict A) : dict A :=
  List.filter (fun p => negb (String.eqb (fst p) k)) d.

Definition dict_keys (d : dict A) : list string := map fst d.

(** [d.update(other)] for a dictionary [other]. *)
Definition dict_update (d other : dict A) : dict A :=
  fold_left (fun acc p => dict_set (fst p) (snd p) acc) other d.

Definition dict_wf (d : dict A) : Prop := NoDup (dict_keys d).
End Dict.

Inductive exn :=
| OSError
| JSONDecodeError
| UnicodeDecodeError
| KeyError
| TypeError
| AttributeError
| IndexError
| ValueError.

(** The outcome of evaluating an expression: a value or a raised exception. *)
Inductive res (A : Type) :=
| Ret (a : A)
| Raise (e : exn).
Arguments Ret {A} a.
Arguments Raise {A} e.

Definition rbind {A B} (m : res A) (k : A -> res B) : res B :=
  match m with
  | Ret a => k a
  | Raise e => Raise e
  end.

(** [v == s] for a [str] [s] *)
Definition eq_str (v : value) (s : string) : bool :=
  match v with
  | VStr s' => String.eqb s' s
  | _ => false
  end.

(** [a == b]; [True] and [False] compare as [1] and [0], dictionaries
    compare by content whatever their order. *)
Fixpoint py_eq (a b : value) {struct a} : bool :=
  match a, b with
  | VNone, VNone => true
  | VBool x, VBool y => Bool.eqb x y
  | VBool x, VInt y => (if x then 1 else 0) =? y
  | VInt x, VBool y => x =? (if y then 1 else 0)
  | VInt x, VInt y => x =? y
  | VStr x, VStr y => String.eqb x y
  | VList la, VList lb =>
      (fix go (la lb : list value) {struct la} : bool :=
         match la, lb with
         | [], [] => true
         | x :: xs, y :: ys => py_eq x y && go xs ys
         | _, _ => false
         end) la lb
  | VDict da, VDict db =>
      Nat.eqb (length da) (length db) &&
      (fix go (da : list (string * value)) {struct da} : bool :=
         match da with
         | [] => true
         | (k, v) :: r =>
             match dict_get k db with
             | Some v' => py_eq v v'
             | None => false
             end && go r
         end) da
  | _, _ => false
  end.

Definition chars (s : string) : list value :=
  map (fun c => VStr (String c EmptyString)) (list_ascii_of_string s).

(** Substring test, [sub in s]. *)
Definition str_contains (sub s : string) : bool :=
  match String.index 0 sub s with Some _ => true | None => false end.

(** [x in v] *)
Definition contains (x v : value) : res bool :=
  match v with
  | VDict d =>
      match x with
      | VStr k => Ret (dict_mem k d)
      | VList _ | VDict _ => Raise TypeError
      | _ => Ret false
      end
  | VList l => Ret (existsb (py_eq x) l)
  | VStr s =>
      match x with
      | VStr sub => Ret (str_contains sub s)
      | _ => Raise TypeError
      end
  | _ => Raise TypeError
  end.

(** [v[k]] for a [str] [k] *)
Definition getitem (v : value) (k : string) : res value :=
  match v with
  | VDict d => match dict_get k d with Some x => Ret x | None => Raise KeyError end
  | _ => Raise TypeError
  end.

(** [v[k] = x] for a [str] [k]; the result is the container afterwards. *)
Definition setitem (v : value) (k : string) (x : value) : res value :=
  match v with
  | VDict d => Ret (VDict (dict_set k x d))
  | _ => Raise TypeError
  end.

(** [del v[k]] for a [str] [k] *)
Definition delitem (v : value) (k : string) : res value :=
  match v with
  | VDict d => if dict_mem k d then Ret (VDict (dict_del k d)) else Raise KeyError
  | _ => Raise TypeError
  end.

(** [v.pop(k)] for a [str] [k]: the popped value and the container afterwards. *)
Definition pop (v : value) (k : string) : res (value * value) :=
  match v with
  | VDict d =>
      match dict_get k d with
      | Some x => Ret (x, VDict (dict_del k d))
      | None => Raise KeyError
      end
  | VList _ => Raise TypeError
  | _ => Raise AttributeError
  end.

(** [v.get(k, default)] *)
Definition get (v : value) (k : string) (default : value) : res value :=
  match v with
  | VDict d => Ret (match dict_get k d with Some x => x | None => default end)
  | _ => Raise AttributeError
  end.

(** [list(v.keys())] *)
Definition keys (v : value) : res (list string) :=
  match v with
  | VDict d => Ret (dict_keys d)
  | _ => Raise AttributeError
  end.

(** The elements [for x in v] visits. *)
Definition iter (v : value) : res (list value) :=
  match v with
  | VList l => Ret l
  | VDict d => Ret (map VStr (dict_keys d))
  | VStr s => Ret (chars s)
  | _ => Raise TypeError
  end.

(** [v.extend(items)] *)
Definition extend (v items : value) : res value :=
  match v with
  | VList l => rbind (iter items) (fun xs => Ret (VList (l ++ xs)))
  | _ => Raise AttributeError
  end.

(** [v.append(x)] *)
Definition append (v x : value) : res value :=
  match v with
  | VList l => Ret (VList (l ++ [x]))
  | _ => Raise AttributeError
  end.

(** [v.update(kwargs)] *)
Definition update (v : value) (kwargs : dict value) : res value :=
  match v with
  | VDict d => Ret (VDict (dict_update d kwargs))
  | _ => Raise AttributeError
  end.

(** [len(v)] *)
Definition len (v : value) : res Z :=
  match v with
  | VList l => Ret (Z.of_nat (length l))
  | VDict d => Ret (Z.of_nat (length d))
  | VStr s => Ret (Z.of_nat (String.length s))
  | _ => Raise TypeError
  end.

(** [v[i]] for an [int] [i]; a negative index counts from the end. *)
Definition getindex (v : value) (i : Z) : res value :=
  match v with
  | VList l =>
      let n := Z.of_nat (length l) in
      let j := if i <? 0 then i + n else i in
      if (0 <=? j) && (j <? n)
      then match l !! Z.to_nat j with Some x => Ret x | None => Raise IndexError end
      else Raise IndexError
  | VStr s =>
      let n := Z.of_nat (String.length s) in
      let j := if i <? 0 then i + n else i in
      if (0 <=? j) && (j <? n)
      then match chars s !! Z.to_nat j with Some x => Ret x | None => Raise IndexError end
      else Raise IndexError
  | VDict _ => Raise KeyError
  | _ => Raise TypeError
  end.

(** [v[i], v[j] = v[j], v[i]]: both reads, then the two writes in order. *)
Definition swap_items (v : value) (i j : Z) : res value :=
  rbind (getindex v j) (fun a =>
  rbind (getindex v i) (fun b =>
  match v with
  | VList l =>
      let n := Z.of_nat (length l) in
      let i' := Z.to_nat (if i <? 0 then i + n else i) in
      let j' := Z.to_nat (if j <? 0 then j + n else j) in
      Ret (VList (<[j' := b]> (<[i' := a]> l)))
  | _ => Raise TypeError
  end)).

(** [del v[i]] for an [int] [i] that is not negative *)
Definition delindex (v : value) (i : nat) : res value :=
  match v with
  | VList l => if (i <? length l)%nat then Ret (VList (delete i l)) else Raise IndexError
  | VDict _ => Raise KeyError
  | _ => Raise TypeError
  end.

(** Computations over a state of type [S] that may raise; the state at
    the point of a raise is kept, as a Python object keeps the mutations
    made before an exception. *)
Definition StateExn (S A : Type) := S -> res A * S.

Definition ret {S A} (a : A) : StateExn S A := fun s => (Ret a, s).
Definition lift {S A} (r : res A) : StateExn S A := fun s => (r, s).
Definition bind {S A B} (m : StateExn S A) (k : A -> StateExn S B) : StateExn S B :=
  fun s =>
    match m s with
    | (Ret a, s') => k a s'
    | (Raise e, s') => (Raise e, s')
    end.

(** [try: body except (caught): handler] *)
Definition try_except {S A} (body : StateExn S A) (caught : exn -> bool)
    (handler : StateExn S A) : StateExn S A :=
  fun s =>
    match body s with
    | (Raise e, s') => if caught e then handler s' else (Raise e, s')
    | r => r
    end.

End Py.

Notation "x <- m ;; k" := (Py.bind m (fun x => k))
  (at level 100, m at next level, right associativity).
Notation "m ;;; k" := (Py.bind m (fun _ => k))
  (at level 100, right associativity).

(** ** The connection store: [class ConnectionManager] *)

Module ConnectionManager.
Import Py.

(** The parsed top level of a persisted file. A top-level array is left
    out: [dict.update] would read it as a sequence of key/value pairs,
    whose keys need not be strings. *)
Inductive document :=
| DObject (o : dict value)
| DNull
| DBool (b : bool)
| DInt (z : Z)
| DStr (s : string).

(** What a file on disk holds, as [open] and [json.load] see it. *)
Inductive fcontent :=
| Unreadable                 (* [open] or [read] fails with [OSError] *)
| BadEncoding                (* the bytes are not UTF-8 *)
| Malformed                  (* the text is not JSON *)
| Parsed (doc : document).

(** The two paths [saveConfig] touches: [_configPath] and [_configPath + ".tmp"]. *)
Record disk := { config_file : option fcontent; tmp_file : option fcontent }.

(** A [ConnectionManager] instance and the disk under it. *)
Record store := { data : dict value; files : disk }.

(** Computations on the store that may raise. *)
Definition M (A : Type) := StateExn store A.

Definition get_data : M (dict value) := fun s => (Ret (data s), s).
Definition set_data (d : dict value) : M unit :=
  fun s => (Ret tt, {| data := d; files := files s |}).

(** [self.data[k]] *)
Definition self_data (k : string) : M value :=
  d <- get_data ;; lift (getitem (VDict d) k).

(** [self.data[k] = v]; also how a mutation of the object under key [k]
    shows in [self.data]. *)
Definition set_self_data (k : string) (v : value) : M unit :=
  d <- get_data ;; set_data (dict_set k v d).

Definition DEFAULT_GROUP : string := "Default".

Definition _getDefaultData : dict value :=
  [ ("active_group", VStr DEFAULT_GROUP);
    ("close_on_connect", VBool true);
    ("groups", VDict [ (DEFAULT_GROUP, VList []) ]) ].

(** [with open(...) as f: json.load(f)] *)
Definition json_load (c : fcontent) : res document :=
  match c with
  | Unreadable => Raise OSError
  | BadEncoding => Raise UnicodeDecodeError
  | Malformed => Raise JSONDecodeError
  | Parsed doc => Ret doc
  end.

(** [d.update(loaded)] *)
Definition update_from (d : dict value) (loaded : document) : res (dict value) :=
  match loaded with
  | DObject o => Ret (dict_update d o)
  | DStr s => if String.eqb s "" then Ret d else Raise ValueError
  | DNull | DBool _ | DInt _ => Raise TypeError
  end.

Definition loadConfig : M unit :=
  fun s =>
    match config_file (files s) with
    | None => (Ret tt, s)
    | Some content =>
        try_except
          (loaded <- lift (json_load content) ;;
           d <- get_data ;;
           d' <- lift (update_from d loaded) ;;
           set_data d' ;;;
           groups <- self_data "groups" ;;
           present <- lift (contains (VStr DEFAULT_GROUP) groups) ;;
           if negb present then
             groups <- self_data "groups" ;;
             groups' <- lift (setitem groups DEFAULT_GROUP (VList [])) ;;
             set_self_data "groups" groups'
           else ret tt)
          (fun e => match e with OSError | JSONDecodeError => true | _ => false end)
          (ret tt)
          s
    end.

(** [ConnectionManager()]: the default skeleton, then [loadConfig]. *)
Definition init (fs : disk) : res unit * store :=
  loadConfig {| data := _getDefaultData; files := fs |}.

(** How the writes of one [saveConfig] go: all succeed, or one of them
    fails with [OSError]; [remove_ok] tells whether the clean-up
    [os.remove] of the temporary file then succeeds. *)
Inductive save_io :=
| SaveOk
| OpenFails (remove_ok : bool)
| WriteFails (remove_ok : bool)
| ReplaceFails (remove_ok : bool).

Definition cleanup (remove_ok : bool) (tmp : option fcontent) : option fcontent :=
  match tmp with
  | Some t => if remove_ok then None else Some t
  | None => None
  end.

Definition saveConfig (io : save_io) : M unit :=
  fun s =>
    let written := Parsed (DObject (data s)) in
    let after (tmp : option fcontent) (rm : bool) :=
      {| data := data s;
         files := {| config_file := config_file (files s);
                     tmp_file := cleanup rm tmp |} |} in
    match io with
    | SaveOk =>
        (Ret tt, {| data := data s;
                    files := {| config_file := Some written; tmp_file := None |} |})
    | OpenFails rm => (Ret tt, after (tmp_file (files s)) rm)
    | WriteFails rm => (Ret tt, after (Some Malformed) rm)
    | ReplaceFails rm => (Ret tt, after (Some written) rm)
    end.

Definition getCloseOnConnect : M value :=
  d <- get_data ;; lift (get (VDict d) "close_on_connect" (VBool true)).

Definition setCloseOnConnect (io : save_io) (value : bool) : M unit :=
  set_self_data "close_on_connect" (VBool value) ;;;
  saveConfig io.

Definition getGroups : M (list string) :=
  groups <- self_data "groups" ;; lift (keys groups).

Definition getActiveGroup : M value :=
  d <- get_data ;;
  group <- lift (get (VDict d) "active_group" (VStr DEFAULT_GROUP)) ;;
  groups <- self_data "groups" ;;
  present <- lift (contains group groups) ;;
  if negb present then ret (VStr DEFAULT_GROUP) else ret group.

Definition setActiveGroup (io : save_io) (groupName : string) : M unit :=
  groups <- self_data "groups" ;;
  present <- lift (contains (VStr groupName) groups) ;;
  if present then
    set_self_data "active_group" (VStr groupName) ;;;
    saveConfig io
  else ret tt.

Definition createGroup (io : save_io) (groupName : string) : M bool :=
  groups <- self_data "groups" ;;
  present <- lift (contains (VStr groupName) groups) ;;
  if present then ret false
  else
    groups <- self_data "groups" ;;
    groups' <- lift (setitem groups groupName (VList [])) ;;
    set_self_data "groups" groups' ;;;
    saveConfig io ;;;
    ret true.

Definition renameGroup (io : save_io) (oldName newName : string) : M bool :=
  if String.eqb oldName DEFAULT_GROUP then ret false
  else
    groups <- self_data "groups" ;;
    oldPresent <- lift (contains (VStr oldName) groups) ;;
    refuse <- (if negb oldPresent then ret true
               else groups <- self_data "groups" ;;
                    lift (contains (VStr newName) groups)) ;;
    if refuse then ret false
    else
      groups <- self_data "groups" ;;
      popped <- lift (pop groups oldName) ;;
      set_self_data "groups" (snd popped) ;;;
      groups <- self_data "groups" ;;
      groups' <- lift (setitem groups newName (fst popped)) ;;
      set_self_data "groups" groups' ;;;
      active <- self_data "active_group" ;;
      (if eq_str active oldName
       then set_self_data "active_group" (VStr newName)
       else ret tt) ;;;
      saveConfig io ;;;
      ret true.

Definition deleteGroup (io : save_io) (groupName : string) (moveItemsToDefault : bool)
  : M bool :=
  if String.eqb groupName DEFAULT_GROUP then ret false
  else
    groups <- self_data "groups" ;;
    present <- lift (contains (VStr groupName) groups) ;;
    if negb present then ret false
    else
      (if moveItemsToDefault then
         groups <- self_data "groups" ;;
         items <- lift (getitem groups groupName) ;;
         groups <- self_data "groups" ;;
         dflt <- lift (getitem groups DEFAULT_GROUP) ;;
         dflt' <- lift (extend dflt items) ;;
         groups' <- lift (setitem groups DEFAULT_GROUP dflt') ;;
         set_self_data "groups" groups'
       else ret tt) ;;;
      groups <- self_data "groups" ;;
      groups' <- lift (delitem groups groupName) ;;
      set_self_data "groups" groups' ;;;
      active <- self_data "active_group" ;;
      (if eq_str active groupName
       then set_self_data "active_group" (VStr DEFAULT_GROUP)
       else ret tt) ;;;
      saveConfig io ;;;
      ret true.

Definition getConnections (groupName : string) : M value :=
  groups <- self_data "groups" ;;
  lift (get groups groupName (VList [])).

(** [newId] is the string [str(uuid.uuid4())] drew. *)
Definition addConnection (io : save_io) (newId : string)
    (groupName name host key : string) (port : Z) (mode : string) (selfHosted : bool)
  : M (option string) :=
  groups <- self_data "groups" ;;
  present <- lift (contains (VStr groupName) groups) ;;
  if negb present then ret None
  else
    let entry := VDict [ ("id", VStr newId); ("name", VStr name); ("host", VStr host);
                         ("key", VStr key); ("port", VInt port); ("mode", VStr mode);
                         ("selfHosted", VBool selfHosted) ] in
    groups <- self_data "groups" ;;
    connections <- lift (getitem groups groupName) ;;
    connections' <- lift (append connections entry) ;;
    groups' <- lift (setitem groups groupName connections') ;;
    set_self_data "groups" groups' ;;;
    saveConfig io ;;;
    ret (Some newId).

(** The first position [i >= start] whose element [c] has [c["id"] == connId],
    looking at the elements in order. *)
Fixpoint find_conn (connId : string) (conns : list value) (start : nat)
  : res (option nat) :=
  match conns with
  | [] => Ret None
  | c :: rest =>
      rbind (getitem c "id") (fun cid =>
        if eq_str cid connId then Ret (Some start)
        else find_conn connId rest (S start))
  end.

(** The list [self.data["groups"][groupName]] after its object was mutated. *)
Definition set_connections (groupName : string) (connections : value) : M unit :=
  groups <- self_data "groups" ;;
  groups' <- lift (setitem groups groupName connections) ;;
  set_self_data "groups" groups'.

(** The container after the element visited at position [i] was mutated
    into [x]: only a list holds the objects its iteration hands out. *)
Definition with_element (connections : value) (i : nat) (x : value) : value :=
  match connections with
  | VList l => VList (<[i := x]> l)
  | other => other
  end.

Definition updateConnection (io : save_io) (groupName connId : string)
    (kwargs : dict value) : M bool :=
  groups <- self_data "groups" ;;
  present <- lift (contains (VStr groupName) groups) ;;
  if negb present then ret false
  else
    groups <- self_data "groups" ;;
    connections <- lift (getitem groups groupName) ;;
    elements <- lift (iter connections) ;;
    found <- lift (find_conn connId elements 0) ;;
    match found with
    | Some i =>
        conn <- lift (getindex (VList elements) (Z.of_nat i)) ;;
        conn' <- lift (update conn kwargs) ;;
        set_connections groupName (with_element connections i conn') ;;;
        saveConfig io ;;;
        ret true
    | None => ret false
    end.

Definition deleteConnection (io : save_io) (groupName connId : string) : M bool :=
  groups <- self_data "groups" ;;
  present <- lift (contains (VStr groupName) groups) ;;
  if negb present then ret false
  else
    groups <- self_data "groups" ;;
    connections <- lift (getitem groups groupName) ;;
    elements <- lift (iter connections) ;;
    found <- lift (find_conn connId elements 0) ;;
    match found with
    | Some i =>
        connections' <- lift (delindex connections i) ;;
        set_connections groupName connections' ;;;
        saveConfig io ;;;
        ret true
    | None => ret false
    end.

Definition moveConnection (io : save_io) (groupName connId : string) (direction : Z)
  : M bool :=
  groups <- self_data "groups" ;;
  present <- lift (contains (VStr groupName) groups) ;;
  if negb present then ret false
  else
    groups <- self_data "groups" ;;
    connections <- lift (getitem groups groupName) ;;
    elements <- lift (iter connections) ;;
    found <- lift (find_conn connId elements 0) ;;
    let idx := match found with Some i => Z.of_nat i | None => -1 end in
    if idx =? -1 then ret false
    else
      let newIdx := idx + direction in
      inRange <- (if 0 <=? newIdx
                  then n <- lift (len connections) ;; ret (newIdx <? n)
                  else ret false) ;;
      if negb inRange then ret false
      else
        connections' <- lift (swap_items connections idx newIdx) ;;
        set_connections groupName connections' ;;;
        saveConfig io ;;;
        ret true.

(** One mutating call on the store, with the outcome of its save. *)
Inductive call :=
| SetCloseOnConnect (value : bool)
| SetActiveGroup (groupName : string)
| CreateGroup (groupName : string)
| RenameGroup (oldName newName : string)
| DeleteGroup (groupName : string) (moveItemsToDefault : bool)
| AddConnection (newId groupName name host key : string) (port : Z)
    (mode : string) (selfHosted : bool)
| UpdateConnection (groupName connId : string) (kwargs : dict value)
| DeleteConnection (groupName connId : string)
| MoveConnection (groupName connId : string) (direction : Z).

Definition exec (io : save_io) (c : call) : M unit :=
  match c with
  | SetCloseOnConnect v => setCloseOnConnect io v
  | SetActiveGroup g => setActiveGroup io g
  | CreateGroup g => createGroup io g ;;; ret tt
  | RenameGroup o n => renameGroup io o n ;;; ret tt
  | DeleteGroup g mv => deleteGroup io g mv ;;; ret tt
  | AddConnection i g n h k p m sh => addConnection io i g n h k p m sh ;;; ret tt
  | UpdateConnection g i kw => updateConnection io g i kw ;;; ret tt
  | DeleteConnection g i => deleteConnection io g i ;;; ret tt
  | MoveConnection g i dir => moveConnection io g i dir ;;; ret tt
  end.

(** A sequence of calls, stopping at the first that raises. *)
Fixpoint run (calls : list (save_io * call)) : M unit :=
  match calls with
  | [] => ret tt
  | (io, c) :: rest => exec io c ;;; run rest
  end.

(** The shape the operations expect of [self.data]: the entries of the
    default skeleton are there, and [groups] maps names, "Default" among
    them, to lists of connection dictionaries that carry an [id]. *)
Definition is_connection (v : value) : bool :=
  match v with
  | VDict c => dict_mem "id" c
  | _ => false
  end.

Definition is_connection_list (v : value) : bool :=
  match v with
  | VList l => forallb is_connection l
  | _ => false
  end.

(** Every group of [gs] is a list of connections. *)
Definition groups_ok (gs : dict value) : bool :=
  forallb (fun p => is_connection_list (snd p)) gs.

Definition well_formed (d : dict value) : bool :=
  dict_mem "active_group" d && dict_mem "close_on_connect" d &&
  match dict_get "groups" d with
  | Some (VDict gs) => dict_mem DEFAULT_GROUP gs && groups_ok gs
  | _ => false
  end.

(** Whether the check for "Default", and its creation when missing, go
    through on the value found under [groups]. *)
Definition accepts_default (gv : value) : bool :=
  match gv with
  | VDict _ => true
  | VList l => existsb (py_eq (VStr DEFAULT_GROUP)) l
  | VStr s => str_contains DEFAULT_GROUP s
  | _ => false
  end.

(** Whether [loadConfig] returns normally, by what the file holds and the
    data [d] it is merged into. *)
Definition load_returns (d : dict value) (content : option fcontent) : bool :=
  match content with
  | None | Some Unreadable | Some Malformed => true
  | Some BadEncoding => false
  | Some (Parsed (DObject o)) =>
      match dict_get "groups" (dict_update d o) with
      | Some gv => accepts_default gv
      | None => false
      end
  | Some (Parsed (DStr s)) =>
      String.eqb s "" &&
      match dict_get "groups" d with
      | Some gv => accepts_default gv
      | None => false
      end
  | Some (Parsed _) => false
  end.

(** [d'] is well formed and has the top-level keys of [d], in their order. *)
Definition well_formed_like (d d' : dict value) : Prop :=
  well_formed d' = true /\ dict_keys d' = dict_keys d.

(** The store left by a [saveConfig] on data [d] over the files [f]. *)
Definition saved (io : save_io) (d : dict value) (f : disk) : store :=
  snd (saveConfig io {| data := d; files := f |}).

(** The store after the list of group [g] became [l'] and was saved. *)
Definition with_connections (io : save_io) (d : dict value) (f : disk)
    (gs : dict value) (g : string) (l' : list value) : store :=
  saved io (dict_set "groups" (VDict (dict_set g (VList l') gs)) d) f.

(** [c["id"] == connId], false when [c] has no such entry *)
Definition has_id (connId : string) (c : value) : bool :=
  match getitem c "id" with
  | Ret cid => eq_str cid connId
  | Raise _ => false
  end.

(** The list with the elements at [i] and [j] exchanged. *)
Definition exchanged (i j : nat) (l : list value) : list value :=
  match l !! i, l !! j with
  | Some a, Some b => <[j := a]> (<[i := b]> l)
  | _, _ => l
  end.

End ConnectionManager.

(** ** The remote service: [class RemoteService] *)

Module RemoteService.
Import Py.

(** [_remoteClient.connectionInfo]: the host's connection descriptor. *)
Inductive ConnectionMode := LEADER | FOLLOWER.

Record ConnectionInfo := {
  hostname : string;
  mode : ConnectionMode;
  key : string;
  port : Z;
  insecure : bool
}.

(** A session of the host client: what [getConnectionInfo()] answers and
    the [insecure] flag of its transport. *)
Record Session := {
  getConnectionInfo : ConnectionInfo;
  transport_insecure : bool
}.

(** The host's [RemoteClient] object, as far as the service looks at it. *)
Record RemoteClient := {
  leaderSession : option Session;
  followerSession : option Session;
  client_isConnected : bool
}.

(** The section [config.conf["remote"]["controlServer"]]: a dictionary
    with these keys, each of which may be missing. *)
Record ControlServer := {
  cs_autoconnect : option bool;
  cs_selfHosted : option bool;
  cs_connectionMode : option Z;
  cs_host : option string;
  cs_port : option Z;
  cs_key : option string
}.

(** A connection dictionary handed over by the connection manager, with
    the fields at the types of [addConnection]'s signature. *)
Record Connection := {
  conn_host : option string;
  conn_key : option string;
  conn_port : option Z;
  conn_mode : option string;
  conn_selfHosted : option bool
}.

(** The host side the service reads: the answer of
    [_remoteClient.remoteRunning()], the module variable
    [_remoteClient._remoteClient], and the remote configuration's
    [controlServer] section. *)
Record Host := {
  remoteRunning : bool;
  _remoteClient : option RemoteClient;
  controlServer : option ControlServer
}.

(** How the dialogs read a connection's [mode] string
    ([interface.py], [_get_connection_info_from_selection]). *)
Definition mode_enum (m : string) : ConnectionMode :=
  if String.eqb m "leader" then LEADER else FOLLOWER.

(** [d[k]] on an optional entry *)
Definition subscript {A} (entry : option A) : res A :=
  match entry with
  | Some x => Ret x
  | None => Raise KeyError
  end.

(** [d.get(k, default)] on an optional entry *)
Definition get_or {A} (entry : option A) (default : A) : A :=
  match entry with
  | Some x => x
  | None => default
  end.

(** [bool(conf)] for the section read with [.get("controlServer")] *)
Definition conf_truthy (conf : option ControlServer) : bool :=
  match conf with
  | None => false
  | Some c =>
      match cs_autoconnect c, cs_selfHosted c, cs_connectionMode c,
            cs_host c, cs_port c, cs_key c with
      | None, None, None, None, None, None => false
      | _, _, _, _, _, _ => true
      end
  end.

(** The host's [RemoteConnectionMode(n).toConnectionMode()]
    ([config.configFlags], outside this repository): 0 is the follower
    and 1 the leader, the numbering [setAsAutoConnect] writes; any other
    number is not a member of the enumeration. *)
Definition toConnectionMode (n : Z) : res ConnectionMode :=
  if n =? 1 then Ret LEADER
  else if n =? 0 then Ret FOLLOWER
  else Raise ValueError.

Definition mode_eqb (a b : ConnectionMode) : bool :=
  match a, b with
  | LEADER, LEADER | FOLLOWER, FOLLOWER => true
  | _, _ => false
  end.

Definition isRunning (h : Host) : bool := remoteRunning h.

Definition isConnected (h : Host) : res bool :=
  if negb (isRunning h) then Ret false
  else
    match _remoteClient h with
    | Some client => Ret (client_isConnected client)
    | None => Raise AttributeError
    end.

Definition getClient (h : Host) : option RemoteClient :=
  if isRunning h then _remoteClient h else None.

Definition getCurrentConnectionInfo (h : Host) : option ConnectionInfo :=
  match getClient h with
  | None => None
  | Some client =>
      let session :=
        match leaderSession client with
        | Some s => Some s
        | None => followerSession client
        end in
      match session with
      | None => None
      | Some session =>
          let info := getConnectionInfo session in
          Some {| hostname := hostname info; mode := mode info; key := key info;
                  port := port info; insecure := transport_insecure session |}
      end
  end.

Definition getControlServerConfig (h : Host) : option ControlServer :=
  controlServer h.

Section Parser.
(** The host's [addressToHostPort] ([_remoteClient.protocol], outside
    this repository): the host name and port of an address string, or
    nothing when it raises [ValueError]. *)
Variable addressToHostPort : string -> option (string * Z).

Definition isCurrentConnectionDefault (h : Host) : res bool :=
  rbind (isConnected h) (fun connected =>
  if negb connected then Ret false
  else
    let conf := getControlServerConfig h in
    match conf with
    | Some conf' =>
      if negb (conf_truthy conf) then Ret false
      else
        match getCurrentConnectionInfo h with
        | None => Ret false
        | Some currentInfo =>
            let configHostname := "localhost" in
            let configPort := get_or (cs_port conf') 6837 in
            let finish (configHostname : string) (configPort : Z) : res bool :=
              rbind (subscript (cs_connectionMode conf')) (fun n =>
              rbind (toConnectionMode n) (fun configMode =>
              if negb (String.eqb (hostname currentInfo) configHostname) then Ret false
              else if negb (port currentInfo =? configPort) then Ret false
              else
                rbind (subscript (cs_key conf')) (fun k =>
                if negb (String.eqb (key currentInfo) k) then Ret false
                else Ret (mode_eqb (mode currentInfo) configMode)))) in
            if negb (get_or (cs_selfHosted conf') false) then
              rbind (subscript (cs_host conf')) (fun host =>
              match addressToHostPort host with
              | Some (configHostname, configPort) => finish configHostname configPort
              | None => Ret false
              end)
            else finish configHostname configPort
        end
    | None => Ret false
    end).

(** The connection the auto-connect record stands for, in the words of
    the specification: the host and port parsed from its [host] string,
    or [localhost] with the stored port (6837 when none is stored) if
    the record is self-hosted, together with its key and its mode. *)
Definition auto_connect_target (conf : ControlServer)
  : option (string * Z * string * ConnectionMode) :=
  match (if get_or (cs_selfHosted conf) false
         then Some ("localhost", get_or (cs_port conf) 6837)
         else match cs_host conf with
              | Some host => addressToHostPort host
              | None => None
              end),
        cs_key conf, cs_connectionMode conf with
  | Some (hostname, port), Some key, Some n =>
      match toConnectionMode n with
      | Ret mode => Some (hostname, port, key, mode)
      | Raise _ => None
      end
  | _, _, _ => None
  end.
End Parser.

Definition getSwapTargetInfo (h : Host)
  : option ConnectionInfo * option ConnectionMode :=
  match getClient h with
  | None => (None, None)
  | Some client =>
      let '(currentInfo, newMode) :=
        match leaderSession client with
        | Some _ => (getCurrentConnectionInfo h, Some FOLLOWER)
        | None =>
            match followerSession client with
            | Some _ => (getCurrentConnectionInfo h, Some LEADER)
            | None => (None, None)
            end
        end in
      match currentInfo, newMode with
      | Some currentInfo, Some newMode =>
          let targetInfo :=
            {| hostname := hostname currentInfo; port := port currentInfo;
               key := key currentInfo; mode := newMode;
               insecure := insecure currentInfo |} in
          (Some targetInfo, Some newMode)
      | _, _ => (None, None)
      end
  end.

(** Assignments to the keys of the [controlServer] section. *)
Definition set_autoconnect (v : bool) (c : ControlServer) : ControlServer :=
  {| cs_autoconnect := Some v; cs_selfHosted := cs_selfHosted c;
     cs_connectionMode := cs_connectionMode c; cs_host := cs_host c;
     cs_port := cs_port c; cs_key := cs_key c |}.
Definition set_selfHosted (v : bool) (c : ControlServer) : ControlServer :=
  {| cs_autoconnect := cs_autoconnect c; cs_selfHosted := Some v;
     cs_connectionMode := cs_connectionMode c; cs_host := cs_host c;
     cs_port := cs_port c; cs_key := cs_key c |}.
Definition set_connectionMode (v : Z) (c : ControlServer) : ControlServer :=
  {| cs_autoconnect := cs_autoconnect c; cs_selfHosted := cs_selfHosted c;
     cs_connectionMode := Some v; cs_host := cs_host c;
     cs_port := cs_port c; cs_key := cs_key c |}.
Definition set_host (v : string) (c : ControlServer) : ControlServer :=
  {| cs_autoconnect := cs_autoconnect c; cs_selfHosted := cs_selfHosted c;
     cs_connectionMode := cs_connectionMode c; cs_host := Some v;
     cs_port := cs_port c; cs_key := cs_key c |}.
Definition set_port (v : Z) (c : ControlServer) : ControlServer :=
  {| cs_autoconnect := cs_autoconnect c; cs_selfHosted := cs_selfHosted c;
     cs_connectionMode := cs_connectionMode c; cs_host := cs_host c;
     cs_port := Some v; cs_key := cs_key c |}.
Definition set_key (v : string) (c : ControlServer) : ControlServer :=
  {| cs_autoconnect := cs_autoconnect c; cs_selfHosted := cs_selfHosted c;
     cs_connectionMode := cs_connectionMode c; cs_host := cs_host c;
     cs_port := cs_port c; cs_key := Some v |}.

(** [controlServer[...] = ...] as a step on the section *)
Definition assign (f : ControlServer -> ControlServer) : StateExn ControlServer unit :=
  fun c => (Ret tt, f c).

(** [f"{host}:{port}"] *)
Definition format_host_port (host : string) (port : Z) : string :=
  host +:+ ":" +:+ pretty port.

(** The body of [setAsAutoConnect], on the section it obtained. *)
Definition write_autoconnect (conn : Connection) : StateExn ControlServer unit :=
  assign (set_autoconnect true) ;;;
  assign (set_selfHosted (get_or (conn_selfHosted conn) false)) ;;;
  m <- lift (subscript (conn_mode conn)) ;;
  assign (set_connectionMode (if String.eqb m "leader" then 1 else 0)) ;;;
  k <- lift (subscript (conn_key conn)) ;;
  assign (set_key k) ;;;
  if get_or (conn_selfHosted conn) false then
    p <- lift (subscript (conn_port conn)) ;;
    assign (set_port p)
  else
    host <- lift (subscript (conn_host conn)) ;;
    p <- lift (subscript (conn_port conn)) ;;
    let host := if negb (p =? 6837)
                then format_host_port host p
                else host in
    assign (set_host host).

Definition setAsAutoConnect (conn : Connection) : StateExn Host unit :=
  fun h =>
    match controlServer h with
    | None => (Raise KeyError, h)
    | Some section =>
        let '(r, section') := write_autoconnect conn section in
        (r, {| remoteRunning := remoteRunning h; _remoteClient := _remoteClient h;
               controlServer := Some section' |})
    end.

(** The descriptor [target] names the endpoint of [info]. *)
Definition same_endpoint (target info : ConnectionInfo) : Prop :=
  hostname target = hostname info /\ port target = port info /\
  key target = key info /\ insecure target = insecure info.

(** The fields [setAsAutoConnect] leaves alone. *)
Definition same_host_besides_section (h h' : Host) : Prop :=
  remoteRunning h' = remoteRunning h /\ _remoteClient h' = _remoteClient h.

End RemoteService.

(** ** Sample data *)

Module Examples.
Import Py ConnectionManager RemoteService.

(** A store with three groups, "Work" being the active one. *)
Definition example_store : store :=
  {| data := [ ("active_group", VStr "Work");
               ("close_on_connect", VBool true);
               ("groups", VDict [ ("Default", VList [VDict [("id", VStr "z0")]]);
                                  ("Work", VList [VDict [("id", VStr "a1")];
                                                  VDict [("id", VStr "b2")];
                                                  VDict [("id", VStr "c3")]]);
                                  ("Home", VList [VDict [("id", VStr "d4")]]) ]) ];
     files := {| config_file := None; tmp_file := None |} |}.

(** A parser that knows the addresses used in the examples. *)
Definition sample_addressToHostPort (addr : string) : option (string * Z) :=
  if String.eqb addr "example.org:7000" then Some ("example.org", 7000)
  else if String.eqb addr "example.org" then Some ("example.org", 6837)
  else None.

Definition sample_session (p : Z) : Session :=
  {| getConnectionInfo := {| hostname := "example.org"; mode := LEADER; key := "abc";
                             port := p; insecure := false |};
     transport_insecure := false |}.

(** A running host with a leader session to [example.org] on port [p]
    and the auto-connect record of the specification's scenario. *)
Definition sample_host (p : Z) : Host :=
  {| remoteRunning := true;
     _remoteClient := Some {| leaderSession := Some (sample_session p);
                              followerSession := None;
                              client_isConnected := true |};
     controlServer := Some {| cs_autoconnect := Some true; cs_selfHosted := None;
                              cs_connectionMode := Some 1;
                              cs_host := Some "example.org:7000";
                              cs_port := None; cs_key := Some "abc" |} |}.

Definition sample_connection : Connection :=
  {| conn_host := Some "example.org"; conn_key := Some "abc"; conn_port := Some 7000;
     conn_mode := Some "leader"; conn_selfHosted := Some false |}.

(** The sample host with the host string of its record replaced. *)
Definition sample_host_with (host : string) : Host :=
  {| remoteRunning := true;
     _remoteClient := _remoteClient (sample_host 7000);
     controlServer := Some {| cs_autoconnect := Some true; cs_selfHosted := None;
                              cs_connectionMode := Some 1;
                              cs_host := Some host;
                              cs_port := None; cs_key := Some "abc" |} |}.

End Examples.

(** ** The connection store: views used to state further properties *)

Module StoreViews.
Import Py ConnectionManager.

(** The dictionary [addConnection] builds for a new connection. *)
Definition new_entry (newId name host key : string) (port : Z) (mode : string)
    (selfHosted : bool) : value :=
  VDict [ ("id", VStr newId); ("name", VStr name); ("host", VStr host);
          ("key", VStr key); ("port", VInt port); ("mode", VStr mode);
          ("selfHosted", VBool selfHosted) ].

(** No connection of [l] answers to [connId]. *)
Definition id_free (connId : string) (l : list value) : Prop :=
  forall c, In c l -> has_id connId c = false.

(** The answers of the read-only methods on two stores agree. *)
Definition same_answers (s s' : store) : Prop :=
  fst (getGroups s') = fst (getGroups s) /\
  (forall g, fst (getConnections g s') = fst (getConnections g s)) /\
  fst (getActiveGroup s') = fst (getActiveGroup s) /\
  fst (getCloseOnConnect s') = fst (getCloseOnConnect s).

(** The file holds what the data is, and no temporary file is left. *)
Definition mirrored (s : store) : Prop :=
  config_file (files s) = Some (Parsed (DObject (data s))) /\ tmp_file (files s) = None.

(** All the saves of the calls succeed. *)
Definition all_saved (calls : list (save_io * call)) : Prop :=
  Forall (fun p => fst p = SaveOk) calls.

(** The connections a group value holds. *)
Definition connections_of (v : value) : list value :=
  match v with
  | VList l => l
  | _ => []
  end.

(** The connections of all the groups, group after group. *)
Definition all_connections (gs : dict value) : list value :=
  flat_map (fun p => connections_of (snd p)) gs.

(** The connections a store holds. *)
Definition stored_connections (s : store) : list value :=
  match dict_get "groups" (data s) with
  | Some (VDict gs) => all_connections gs
  | _ => []
  end.

(** No group name occurs twice in the store. *)
Definition groups_wf (s : store) : Prop :=
  exists gs, dict_get "groups" (data s) = Some (VDict gs) /\ dict_wf gs.

(** The calls that only arrange groups and connections: they add,
    remove or change no connection. *)
Definition regroups (c : call) : bool :=
  match c with
  | SetCloseOnConnect _ | SetActiveGroup _ | CreateGroup _ | RenameGroup _ _
  | DeleteGroup _ true | MoveConnection _ _ _ => true
  | _ => false
  end.

End StoreViews.

(** ** The service's actions on the client, the plugin's handlers and the dialogs *)

Module Actions.
Import Py RemoteService.

(** The values [isAutoConnectConfigured] can hand back: its [and]/[or]
    chain answers with one of its operands. *)
Inductive answer :=
| ABool (b : bool)
| AStr (s : string)
| ANone.

(** [bool(a)] *)
Definition truthy (a : answer) : bool :=
  match a with
  | ABool b => b
  | AStr s => negb (String.eqb s "")
  | ANone => false
  end.

(** [conf.get(k)] for a flag of the section *)
Definition get_flag (entry : option bool) : answer :=
  match entry with
  | Some b => ABool b
  | None => ANone
  end.

(** [conf.get(k)] for a string of the section *)
Definition get_str (entry : option string) : answer :=
  match entry with
  | Some s => AStr s
  | None => ANone
  end.

(** [a and b] *)
Definition py_and (a b : answer) : answer := if truthy a then b else a.

(** [a or b] *)
Definition py_or (a b : answer) : answer := if truthy a then a else b.

Definition isAutoConnectConfigured (h : Host) : answer :=
  let conf := getControlServerConfig h in
  match conf with
  | Some conf' =>
      if negb (conf_truthy conf) then ABool false
      else
        py_and (ABool (get_or (cs_autoconnect conf') false))
          (py_and (get_str (cs_key conf'))
             (py_or (get_str (cs_host conf')) (get_flag (cs_selfHosted conf'))))
  | None => ABool false
  end.

Definition isSelfHostedConnection (info : ConnectionInfo) : bool :=
  insecure info && String.eqb (hostname info) "localhost".

Definition isAutoConnectEnabled (h : Host) : bool :=
  let conf := getControlServerConfig h in
  match conf with
  | Some conf' => if conf_truthy conf then get_or (cs_autoconnect conf') false else false
  | None => false
  end.

(** The section [config.conf["remote"]["ui"]], as far as the service
    reads it. *)
Record UiSection := {
  ui_confirmDisconnectAsFollower : option bool
}.

(** The methods of the host's client object the service calls. *)
Inductive client_call :=
| client_disconnect (_silent : bool)
| client_connect (info : ConnectionInfo)
| client_startControlServer (port : Z) (key : string).

(** What a handler does to the outside, in the order it does it. *)
Inductive event :=
| Called (c : client_call)
| ui_message (text : string)
| log_error (text : string)
| focusBlockingInstances
| ShowModal (title : string)
| Close.

(** The host as the plugin meets it: what the service reads, the [ui]
    section of the remote configuration, and the record of what has
    been done to the outside so far. *)
Record World := {
  remote : Host;
  ui_conf : option UiSection;
  trace : list event
}.

Definition emit (e : event) : StateExn World unit :=
  fun w => (Ret tt, {| remote := remote w; ui_conf := ui_conf w;
                       trace := trace w ++ [e] |}).

(** The client calls among the events. *)
Definition client_calls (evs : list event) : list client_call :=
  flat_map (fun e => match e with Called c => [c] | _ => [] end) evs.

Definition shouldConfirmDisconnectAsFollower (w : World) : bool :=
  match ui_conf w with
  | Some conf => get_or (ui_confirmDisconnectAsFollower conf) true
  | None => true
  end.

Section Outside.
(** The host's address parser, as in [isCurrentConnectionDefault]. *)
Variable addressToHostPort : string -> option (string * Z).

(** What a method of the client object does: it returns or raises, and
    leaves the client object in some state.  The client's code is outside
    this repository; nothing is assumed about it beyond its acting on the
    client object. *)
Variable react : client_call -> RemoteClient -> res unit * RemoteClient.

(** [MessageDialog.blockingInstancesExist()] at the time a dialog is
    asked for, and whether the user answers a dialog with Yes. *)
Variable blockingInstancesExist : bool.
Variable answers_yes : bool.

(** [client = self.getClient(); if client: client.<method>(...)] *)
Definition on_client (c : client_call) : StateExn World unit :=
  fun w =>
    match getClient (remote w) with
    | Some client =>
        let '(r, client') := react c client in
        (r, {| remote := {| remoteRunning := remoteRunning (remote w);
                            _remoteClient := Some client';
                            controlServer := controlServer (remote w) |};
               ui_conf := ui_conf w;
               trace := trace w ++ [Called c] |})
    | None => (Ret tt, w)
    end.

Definition disconnect (silent : bool) : StateExn World unit :=
  on_client (client_disconnect silent).

Definition connect (info : ConnectionInfo) : StateExn World unit :=
  on_client (client_connect info).

Definition startLocalServer (port : Z) (key : string) : StateExn World unit :=
  on_client (client_startControlServer port key).

Definition performAutoConnect : StateExn World unit :=
  fun w =>
    let conf := getControlServerConfig (remote w) in
    match conf with
    | Some conf' =>
        if negb (conf_truthy conf) then (Ret tt, w)
        else
          let finish (hostname : string) (port : Z) (key : string) (insecure : bool)
              : StateExn World unit :=
            n <- lift (subscript (cs_connectionMode conf')) ;;
            mode <- lift (toConnectionMode n) ;;
            connect {| hostname := hostname; mode := mode; key := key;
                       port := port; insecure := insecure |} in
          (key <- lift (subscript (cs_key conf')) ;;
           if get_or (cs_selfHosted conf') false then
             let port := get_or (cs_port conf') 6837 in
             startLocalServer port key ;;;
             finish "localhost" port key true
           else
             host <- lift (subscript (cs_host conf')) ;;
             match addressToHostPort host with
             | Some (hostname, port) => finish hostname port key false
             | None =>
                 emit (log_error "Invalid host in auto-connect config, cannot connect.")
             end) w
    | None => (Ret tt, w)
    end.

(** [interface.show_swap_confirmation_dialog] *)
Definition show_swap_confirmation_dialog : StateExn World bool :=
  if blockingInstancesExist then
    emit focusBlockingInstances ;;; ret false
  else
    emit (ShowModal "Confirm Disconnection") ;;; ret answers_yes.

(** [GlobalPlugin._performSwap] *)
Definition _performSwap : StateExn World unit :=
  fun w =>
    if negb (isRunning (remote w)) then
      emit (ui_message "Action unavailable when Remote Access is disabled") w
    else
      (connected <- lift (isConnected (remote w)) ;;
       if negb connected then emit (ui_message "Not connected")
       else
         fun w =>
           let targetInfo := fst (getSwapTargetInfo (remote w)) in
           let currentInfo := getCurrentConnectionInfo (remote w) in
           (go_on <-
              match currentInfo with
              | Some currentInfo =>
                  if mode_eqb (mode currentInfo) FOLLOWER then
                    if shouldConfirmDisconnectAsFollower w then
                      show_swap_confirmation_dialog
                    else ret true
                  else ret true
              | None => ret true
              end ;;
            if negb go_on then ret tt
            else
              match targetInfo with
              | Some targetInfo => disconnect true ;;; connect targetInfo
              | None => ret tt
              end) w) w.

(** What a handler can end with: an exception of the kinds the service
    raises, or the [NameError] of a name that is not bound. *)
Inductive error :=
| Builtin (e : exn)
| NameError (name : string).

Inductive outcome (A : Type) :=
| Done (a : A)
| Failed (e : error).
Arguments Done {A} a.
Arguments Failed {A} e.

Definition Handler (A : Type) := World -> outcome A * World.

(** A computation of the service, inside a handler. *)
Definition service {A} (m : StateExn World A) : Handler A :=
  fun w =>
    match m w with
    | (Ret a, w') => (Done a, w')
    | (Raise e, w') => (Failed (Builtin e), w')
    end.

(** [interface.show_switch_to_default_dialog]: the name [current_info]
    read for [currentMode] is bound nowhere, in the function or in the
    module (the local variable is [currentInfo]). *)
Definition show_switch_to_default_dialog : Handler bool :=
  fun w =>
    if blockingInstancesExist then
      service (emit focusBlockingInstances ;;; ret false) w
    else
      let conf := getControlServerConfig (remote w) in
      let currentInfo := getCurrentConnectionInfo (remote w) in
      match conf, currentInfo with
      | Some conf', Some currentInfo =>
          if negb (conf_truthy conf) then (Done false, w)
          else
            match
              rbind (subscript (cs_connectionMode conf')) (fun n =>
              rbind (toConnectionMode n) (fun targetMode =>
              rbind (subscript (cs_selfHosted conf')) (fun selfHosted =>
              rbind (if selfHosted then Ret "Local Server"
                     else subscript (cs_host conf')) (fun targetHost =>
              Ret (targetMode, targetHost)))))
            with
            | Ret _ => (Failed (NameError "current_info"), w)
            | Raise e => (Failed (Builtin e), w)
            end
      | _, _ => (Done false, w)
      end.

(** [GlobalPlugin._performConnectToDefault] *)
Definition _performConnectToDefault : Handler unit :=
  fun w =>
    if negb (isRunning (remote w)) then
      service (emit (ui_message "Action unavailable when Remote Access is disabled")) w
    else if negb (truthy (isAutoConnectConfigured (remote w))) then
      service (emit (ui_message "Auto-connect parameters not configured.")) w
    else
      match isConnected (remote w) with
      | Raise e => (Failed (Builtin e), w)
      | Ret false => service performAutoConnect w
      | Ret true =>
          match isCurrentConnectionDefault addressToHostPort (remote w) with
          | Raise e => (Failed (Builtin e), w)
          | Ret true =>
              service (emit (ui_message "Already connected to default server.")) w
          | Ret false =>
              match show_switch_to_default_dialog w with
              | (Done true, w') => service (disconnect true ;;; performAutoConnect) w'
              | (Done false, w') => (Done tt, w')
              | (Failed e, w') => (Failed e, w')
              end
          end
      end.

(** [ConnectionManagerDialog._get_connection_info_from_selection], for
    the selected connection [conn]. *)
Definition _get_connection_info_from_selection (conn : Connection)
  : res ConnectionInfo :=
  rbind (subscript (conn_mode conn)) (fun m =>
  let mode_enum := if String.eqb m "leader" then LEADER else FOLLOWER in
  let insecure := get_or (conn_selfHosted conn) false in
  rbind (subscript (conn_host conn)) (fun host =>
  rbind (subscript (conn_port conn)) (fun port =>
  rbind (subscript (conn_key conn)) (fun key =>
  Ret {| mode := mode_enum; hostname := host; port := port; key := key;
         insecure := insecure |})))).

(** [ConnectionManagerDialog._doConnect]; [closeOnConnectChk] is the
    state of the dialog's check box. *)
Definition _doConnect (closeOnConnectChk : bool) (info : ConnectionInfo)
    (conn : Connection) : StateExn World unit :=
  connected <- (fun w => lift (isConnected (remote w)) w) ;;
  (if connected then disconnect true else ret tt) ;;;
  (if get_or (conn_selfHosted conn) false then
     port <- lift (subscript (conn_port conn)) ;;
     key <- lift (subscript (conn_key conn)) ;;
     startLocalServer port key
   else ret tt) ;;;
  connect info ;;;
  if closeOnConnectChk then emit Close else ret tt.

(** [ConnectionManagerDialog.on_connect], for the selected connection
    [conn]. *)
Definition on_connect (closeOnConnectChk : bool) (conn : Connection)
  : StateExn World unit :=
  info <- lift (_get_connection_info_from_selection conn) ;;
  _doConnect closeOnConnectChk info conn.

(** [ConnectionManagerDialog.on_connect_reversed], for the selected
    connection [conn]. *)
Definition on_connect_reversed (closeOnConnectChk : bool) (conn : Connection)
  : StateExn World unit :=
  m <- lift (subscript (conn_mode conn)) ;;
  let reversed_mode := if String.eqb m "leader" then FOLLOWER else LEADER in
  host <- lift (subscript (conn_host conn)) ;;
  port <- lift (subscript (conn_port conn)) ;;
  key <- lift (subscript (conn_key conn)) ;;
  _doConnect closeOnConnectChk
    {| mode := reversed_mode; hostname := host; port := port; key := key;
       insecure := get_or (conn_selfHosted conn) false |}
    conn.

(** The world once the call [c] has been made on [client]. *)
Definition after_call (c : client_call) (client : RemoteClient) (w : World) : World :=
  {| remote := {| remoteRunning := remoteRunning (remote w);
                  _remoteClient := Some (snd (react c client));
                  controlServer := controlServer (remote w) |};
     ui_conf := ui_conf w;
     trace := trace w ++ [Called c] |}.

(** Every method of the client returns. *)
Definition client_returns : Prop :=
  forall c client, fst (react c client) = Ret tt.

End Outside.

(** Between [w] and [w'] the host is the same and the client was not
    called. *)
Definition untouched (w w' : World) : Prop :=
  remote w' = remote w /\ client_calls (trace w') = client_calls (trace w).

(** The session [getCurrentConnectionInfo] reads. *)
Definition current_session (client : RemoteClient) : option Session :=
  match leaderSession client with
  | Some s => Some s
  | None => followerSession client
  end.

(** A client that, asked to connect, is connected with a session for the
    connection it was asked for. *)
Definition connects_as_asked
    (react : client_call -> RemoteClient -> res unit * RemoteClient) : Prop :=
  forall info client,
    let client' := snd (react (client_connect info) client) in
    client_isConnected client' = true /\
    exists s, current_session client' = Some s /\ getConnectionInfo s = info.

(** The connection with the mode turned round. *)
Definition reversed (info : ConnectionInfo) : ConnectionInfo :=
  {| hostname := hostname info;
     mode := match mode info with LEADER => FOLLOWER | FOLLOWER => LEADER end;
     key := key info; port := port info; insecure := insecure info |}.

(** A client that holds one session, as asked for by the last [connect],
    and none after [disconnect]. *)
Definition sample_react (c : client_call) (client : RemoteClient)
  : res unit * RemoteClient :=
  match c with
  | client_disconnect _ =>
      (Ret tt, {| leaderSession := None; followerSession := None;
                  client_isConnected := false |})
  | client_connect info =>
      let session := {| getConnectionInfo := info;
                        transport_insecure := insecure info |} in
      (Ret tt,
       match mode info with
       | LEADER => {| leaderSession := Some session; followerSession := None;
                      client_isConnected := true |}
       | FOLLOWER => {| leaderSession := None; followerSession := Some session;
                        client_isConnected := true |}
       end)
  | client_startControlServer _ _ => (Ret tt, client)
  end.

Definition idle_client : RemoteClient :=
  {| leaderSession := None; followerSession := None; client_isConnected := false |}.

(** A running, idle host with the given auto-connect record. *)
Definition idle_world (conf : option ControlServer) : World :=
  {| remote := {| remoteRunning := true; _remoteClient := Some idle_client;
                  controlServer := conf |};
     ui_conf := None;
     trace := [] |}.

(** A host whose remote client is switched off. *)
Definition stopped_world : World :=
  {| remote := {| remoteRunning := false; _remoteClient := None;
                  controlServer := None |};
     ui_conf := None;
     trace := [] |}.

(** A running host connected to [example.org] in the given mode, with
    the given confirmation setting and auto-connect record. *)
Definition connected_world (m : ConnectionMode) (confirm : option bool)
    (conf : option ControlServer) : World :=
  let session :=
    {| getConnectionInfo := {| hostname := "example.org"; mode := m; key := "abc";
                               port := 6837; insecure := false |};
       transport_insecure := false |} in
  {| remote := {| remoteRunning := true;
                  _remoteClient :=
                    Some match m with
                         | LEADER => {| leaderSession := Some session;
                                        followerSession := None;
                                        client_isConnected := true |}
                         | FOLLOWER => {| leaderSession := None;
                                          followerSession := Some session;
                                          client_isConnected := true |}
                         end;
                  controlServer := conf |};
     ui_conf := Some {| ui_confirmDisconnectAsFollower := confirm |};
     trace := [] |}.

Definition remote_record : ControlServer :=
  {| cs_autoconnect := Some true; cs_selfHosted := Some false;
     cs_connectionMode := Some 1; cs_host := Some "example.org:7000";
     cs_port := None; cs_key := Some "abc" |}.

Definition local_record (n : option Z) : ControlServer :=
  {| cs_autoconnect := Some true; cs_selfHosted := Some true;
     cs_connectionMode := n; cs_host := None;
     cs_port := Some 7001; cs_key := Some "abc" |}.

Arguments Done {A} a.
Arguments Failed {A} e.

End Actions.

(** ** The group manager dialog *)

Module GroupManagerDialog.
Import Py ConnectionManager StoreViews.

(** The selected names the dialog is ready to delete. *)
Definition groups_to_delete (selected : list string) : list string :=
  List.filter (fun g => negb (String.eqb g DEFAULT_GROUP)) selected.

(** [for group in groups_to_delete: self.manager.deleteGroup(group)];
    [io group] is how the save of that call goes. *)
Fixpoint delete_each (io : string -> save_io) (groups : list string) : M unit :=
  match groups with
  | [] => ret tt
  | group :: rest => deleteGroup (io group) group true ;;; delete_each io rest
  end.

(** [GroupManagerDialog.on_delete] for the names [selected] in the list
    box, in the order of the list; [answers_yes] is the user's answer to
    the confirmation. *)
Definition on_delete (io : string -> save_io) (selected : list string)
    (answers_yes : bool) : M unit :=
  let groups := groups_to_delete selected in
  match groups with
  | [] => ret tt
  | _ :: _ => if answers_yes then delete_each io groups else ret tt
  end.

(** The connections the group [g] holds in [gs]. *)
Definition items_of (gs : dict value) (g : string) : list value :=
  match dict_get g gs with
  | Some v => connections_of v
  | None => []
  end.

End GroupManagerDialog.

(** ** Facts about dictionaries *)

Module DictFacts.
Import Py.

Section Facts.
Context {A : Type}.
Implicit Types (d o : dict A) (k : string) (v : A).

Lemma dict_mem_get k d : dict_mem k d = true <-> exists v, dict_get k d = Some v.
Proof.
  unfold dict_mem. destruct (dict_get k d) as [v|]; split; eauto.
  - discriminate.
  - intros [v Hv]. discriminate.
Qed.

Lemma dict_mem_false k d : dict_mem k d = false <-> dict_get k d = None.
Proof. unfold dict_mem. destruct (dict_get k d); split; congruence. Qed.

Lemma dict_mem_keys k d : dict_mem k d = true <-> In k (dict_keys d).
Proof.
  unfold dict_mem, dict_keys. induction d as [|[k' v'] r IH]; simpl.
  - split; [discriminate | tauto].
  - destruct (String.eqb_spec k' k) as [->|Hne].
    + split; auto.
    + rewrite IH. split; [auto | intros [?|?]; congruence].
Qed.

Lemma dict_get_set_eq k v d : dict_get k (dict_set k v d) = Some v.
Proof.
  induction d as [|[k' v'] r IH]; simpl.
  - now rewrite String.eqb_refl.
  - destruct (String.eqb_spec k' k) as [->|Hne]; simpl.
    + now rewrite String.eqb_refl.
    + destruct (String.eqb_spec k' k); [congruence | exact IH].
Qed.

Lemma dict_get_set_ne k k' v d : k <> k' -> dict_get k' (dict_set k v d) = dict_get k' d.
Proof.
  intros Hne. induction d as [|[k0 v0] r IH]; simpl.
  - destruct (String.eqb_spec k k'); [congruence | reflexivity].
  - destruct (String.eqb_spec k0 k) as [->|Hk]; simpl.
    + destruct (String.eqb_spec k k'); [congruence | reflexivity].
    + destruct (String.eqb_spec k0 k'); [reflexivity | exact IH].
Qed.

Lemma dict_mem_set k k' v d :
  dict_mem k' (dict_set k v d) = String.eqb k k' || dict_mem k' d.
Proof.
  unfold dict_mem. destruct (String.eqb_spec k k') as [->|Hne]; simpl.
  - now rewrite dict_get_set_eq.
  - now rewrite dict_get_set_ne.
Qed.

(** Assigning to a key that is there keeps the order of the keys. *)
Lemma dict_keys_set_present k v d :
  dict_mem k d = true -> dict_keys (dict_set k v d) = dict_keys d.
Proof.
  unfold dict_mem, dict_keys. induction d as [|[k' v'] r IH]; simpl.
  - discriminate.
  - destruct (String.eqb_spec k' k) as [->|Hne]; simpl; [reflexivity|].
    intros H. now rewrite IH.
Qed.

(** Assigning to a new key puts it last. *)
Lemma dict_set_fresh k v d : dict_mem k d = false -> dict_set k v d = d ++ [(k, v)].
Proof.
  unfold dict_mem. induction d as [|[k' v'] r IH]; simpl; [reflexivity|].
  destruct (String.eqb_spec k' k) as [->|Hne]; [discriminate|].
  intros H. now rewrite IH.
Qed.

Lemma dict_keys_del k d :
  dict_keys (dict_del k d) = List.filter (fun k' => negb (String.eqb k' k)) (dict_keys d).
Proof.
  unfold dict_keys, dict_del. induction d as [|[k' v'] r IH]; simpl; [reflexivity|].
  destruct (String.eqb k' k); simpl; now rewrite IH.
Qed.

Lemma dict_get_del_eq k d : dict_get k (dict_del k d) = None.
Proof.
  unfold dict_del. induction d as [|[k' v'] r IH]; simpl; [reflexivity|].
  destruct (String.eqb_spec k' k) as [->|Hne]; simpl; [exact IH|].
  destruct (String.eqb_spec k' k); [congruence | exact IH].
Qed.

Lemma dict_get_del_ne k k' d : k <> k' -> dict_get k' (dict_del k d) = dict_get k' d.
Proof.
  intros Hne. unfold dict_del. induction d as [|[k0 v0] r IH]; simpl; [reflexivity|].
  destruct (String.eqb_spec k0 k) as [->|Hk]; simpl.
  - destruct (String.eqb_spec k k'); [congruence | exact IH].
  - destruct (String.eqb_spec k0 k'); [reflexivity | exact IH].
Qed.

Lemma dict_mem_del k k' d :
  dict_mem k' (dict_del k d) = negb (String.eqb k k') && dict_mem k' d.
Proof.
  unfold dict_mem. destruct (String.eqb_spec k k') as [->|Hne]; simpl.
  - now rewrite dict_get_del_eq.
  - now rewrite dict_get_del_ne.
Qed.

Lemma dict_del_absent k d : ~ In k (dict_keys (dict_del k d)).
Proof.
  intros H. apply dict_mem_keys in H. rewrite dict_mem_del, String.eqb_refl in H.
  discriminate.
Qed.

(** Keys the other dictionary lacks keep their value under [update]. *)
Lemma dict_get_update_absent k d o :
  dict_mem k o = false -> dict_get k (dict_update d o) = dict_get k d.
Proof.
  unfold dict_update. revert d. induction o as [|[k' v'] r IH]; intros d; simpl.
  - reflexivity.
  - unfold dict_mem. simpl. destruct (String.eqb_spec k' k) as [->|Hne]; [discriminate|].
    intros H. rewrite IH by exact H. now apply dict_get_set_ne.
Qed.

(** Keys of the other dictionary take its value, when it is a proper
    dictionary (no key twice). *)
Lemma dict_get_update_present k v d o :
  dict_wf o -> dict_get k o = Some v -> dict_get k (dict_update d o) = Some v.
Proof.
  unfold dict_update, dict_wf, dict_keys. revert d.
  induction o as [|[k' v'] r IH]; intros d Hwf; simpl; [discriminate|].
  inversion Hwf as [|? ? Hnotin Hwf']; subst.
  destruct (String.eqb_spec k' k) as [->|Hne].
  - intros [= ->].
    assert (Hm : dict_mem k r = false).
    { destruct (dict_mem k r) eqn:E; [|reflexivity].
      apply dict_mem_keys in E. exfalso. apply Hnotin.
      apply list_elem_of_In. exact E. }
    change (fold_left _ r (dict_set k v d)) with (dict_update (dict_set k v d) r).
    rewrite dict_get_update_absent by exact Hm. apply dict_get_set_eq.
  - intros H. now apply IH.
Qed.

Lemma dict_mem_update k d o :
  dict_mem k (dict_update d o) = dict_mem k d || dict_mem k o.
Proof.
  unfold dict_update. revert d. induction o as [|[k' v'] r IH]; intros d; simpl.
  - now rewrite orb_false_r.
  - rewrite IH, dict_mem_set. unfold dict_mem at 4. simpl.
    destruct (String.eqb k' k); simpl.
    + now rewrite !orb_true_r.
    + reflexivity.
Qed.

Lemma dict_wf_set k v d : dict_wf d -> dict_wf (dict_set k v d).
Proof.
  unfold dict_wf. intros Hwf.
  destruct (dict_mem k d) eqn:E.
  - now rewrite dict_keys_set_present.
  - rewrite dict_set_fresh by exact E. unfold dict_keys. rewrite map_app. simpl.
    apply NoDup_app. split; [exact Hwf|]. split.
    + intros x Hx Hx'. apply list_elem_of_In in Hx, Hx'. destruct Hx' as [<-|[]].
      apply dict_mem_keys in Hx. congruence.
    + apply NoDup_singleton.
Qed.

Lemma dict_wf_update d o : dict_wf d -> dict_wf (dict_update d o).
Proof.
  unfold dict_update. revert d. induction o as [|[k v] r IH]; intros d Hwf; simpl.
  - exact Hwf.
  - apply IH. now apply dict_wf_set.
Qed.

Lemma dict_wf_del k d : dict_wf d -> dict_wf (dict_del k d).
Proof.
  unfold dict_wf. rewrite dict_keys_del. intros H.
  apply NoDup_ListNoDup. apply List.NoDup_filter. now apply NoDup_ListNoDup.
Qed.

End Facts.

Lemma dict_set_set {A} k (v1 v2 : A) d : dict_set k v2 (dict_set k v1 d) = dict_set k v2 d.
Proof.
  induction d as [|[k' v'] r IH]; simpl.
  - now rewrite String.eqb_refl.
  - destruct (String.eqb_spec k' k) as [->|Hne]; simpl.
    + now rewrite String.eqb_refl.
    + destruct (String.eqb_spec k' k); [congruence|]. now rewrite IH.
Qed.

Lemma dict_get_update {A} k (d o : dict A) :
  dict_wf o ->
  dict_get k (dict_update d o) =
    match dict_get k o with Some v => Some v | None => dict_get k d end.
Proof.
  intros Hwf. destruct (dict_get k o) as [v|] eqn:E.
  - now apply dict_get_update_present.
  - apply dict_get_update_absent. now apply dict_mem_false.
Qed.

(** Updating with entries under new keys appends them in their order. *)
Lemma dict_update_fresh {A} (p r : dict A) : dict_wf (p ++ r) -> dict_update p r = p ++ r.
Proof.
  unfold dict_update. revert p. induction r as [|[k v] r IH]; intros p Hwf; simpl.
  - now rewrite app_nil_r.
  - assert (Hk : dict_mem k p = false).
    { destruct (dict_mem k p) eqn:E; [|reflexivity]. exfalso.
      apply dict_mem_keys in E. unfold dict_wf, dict_keys in Hwf.
      rewrite map_app in Hwf. apply NoDup_app in Hwf as (_ & Hdisj & _).
      apply (Hdisj k); [now apply list_elem_of_In | simpl; left]. }
    rewrite dict_set_fresh by exact Hk.
    rewrite IH; [now rewrite <- app_assoc|]. now rewrite <- app_assoc.
Qed.

End DictFacts.

(** ** Running the store operations *)

Module StoreFacts.
Import Py ConnectionManager DictFacts.

Section Run.
Context {S A B : Type}.
Lemma bind_run (m : StateExn S A) (k : A -> StateExn S B) s :
  Py.bind m k s =
    match m s with
    | (Ret a, s') => k a s'
    | (Raise e, s') => (Raise e, s')
    end.
Proof. reflexivity. Qed.
Lemma lift_run (r : res A) (s : S) : lift r s = (r, s).
Proof. reflexivity. Qed.
Lemma ret_run (a : A) (s : S) : ret a s = (Ret a, s).
Proof. reflexivity. Qed.
End Run.

Lemma self_data_run k s :
  self_data k s =
    (match dict_get k (data s) with Some x => Ret x | None => Raise KeyError end, s).
Proof. reflexivity. Qed.

Lemma set_self_data_run k v s :
  set_self_data k v s = (Ret tt, {| data := dict_set k v (data s); files := files s |}).
Proof. reflexivity. Qed.

Lemma get_data_run s : get_data s = (Ret (data s), s).
Proof. reflexivity. Qed.

Lemma set_data_run d s : set_data d s = (Ret tt, {| data := d; files := files s |}).
Proof. reflexivity. Qed.

Lemma saveConfig_run io s : saveConfig io s = (Ret tt, saved io (data s) (files s)).
Proof. destruct s, io; reflexivity. Qed.

Ltac mrun :=
  repeat first
    [ rewrite bind_run
    | rewrite self_data_run
    | rewrite set_self_data_run
    | rewrite lift_run
    | rewrite ret_run
    | rewrite get_data_run
    | rewrite set_data_run
    | rewrite saveConfig_run
    | rewrite dict_get_set_eq
    | rewrite dict_get_set_ne by (discriminate || congruence)
    | rewrite dict_set_set
    | progress cbn [data files fst snd negb getitem contains setitem pop delitem
                    extend append iter rbind keys get Py.update]
    | match goal with H : ?x = _ |- context [?x] => rewrite H end
    | progress cbv beta iota ].

Section GroupOps.
Variables (io : save_io) (d : dict value) (f : disk) (gs : dict value).
Hypothesis Hgroups : dict_get "groups" d = Some (VDict gs).

Let s := {| data := d; files := f |}.

Lemma getGroups_ok : getGroups s = (Ret (dict_keys gs), s).
Proof. unfold getGroups, s. now mrun. Qed.

Lemma getConnections_ok g :
  getConnections g s =
    (Ret (match dict_get g gs with Some l => l | None => VList [] end), s).
Proof. unfold getConnections, s. now mrun. Qed.

Lemma setActiveGroup_ok g :
  setActiveGroup io g s =
    (Ret tt,
     if dict_mem g gs then saved io (dict_set "active_group" (VStr g) d) f else s).
Proof. unfold setActiveGroup, s. mrun. destruct (dict_mem g gs); now mrun. Qed.

Lemma createGroup_ok g :
  createGroup io g s =
    if dict_mem g gs then (Ret false, s)
    else (Ret true,
          saved io (dict_set "groups" (VDict (dict_set g (VList []) gs)) d) f).
Proof. unfold createGroup, s. mrun. destruct (dict_mem g gs); now mrun. Qed.

Lemma renameGroup_refused old new :
  old = DEFAULT_GROUP \/ dict_mem old gs = false \/ dict_mem new gs = true ->
  renameGroup io old new s = (Ret false, s).
Proof.
  intros H. unfold renameGroup, s.
  destruct (String.eqb_spec old DEFAULT_GROUP) as [|Hne]; [reflexivity|].
  destruct H as [H|[H|H]]; [congruence| |].
  - now mrun.
  - mrun. destruct (dict_mem old gs); now mrun.
Qed.

Lemma renameGroup_ok old new a x :
  old <> DEFAULT_GROUP ->
  dict_get old gs = Some x ->
  dict_mem new gs = false ->
  dict_get "active_group" d = Some a ->
  renameGroup io old new s =
    (Ret true,
     saved io
       (let d1 := dict_set "groups" (VDict (dict_set new x (dict_del old gs))) d in
        if eq_str a old then dict_set "active_group" (VStr new) d1 else d1) f).
Proof.
  intros Hne Hold Hnew Ha.
  assert (Hm : dict_mem old gs = true) by (apply dict_mem_get; eauto).
  unfold renameGroup, s.
  destruct (String.eqb_spec old DEFAULT_GROUP) as [|_]; [congruence|].
  mrun. destruct (eq_str a old); now mrun.
Qed.

Lemma deleteGroup_refused g mv :
  g = DEFAULT_GROUP \/ dict_mem g gs = false ->
  deleteGroup io g mv s = (Ret false, s).
Proof.
  intros H. unfold deleteGroup, s.
  destruct (String.eqb_spec g DEFAULT_GROUP) as [|Hne]; [reflexivity|].
  destruct H as [H|H]; [congruence|]. now mrun.
Qed.

Lemma deleteGroup_move_ok g items dflt a :
  g <> DEFAULT_GROUP ->
  dict_get g gs = Some (VList items) ->
  dict_get DEFAULT_GROUP gs = Some (VList dflt) ->
  dict_get "active_group" d = Some a ->
  deleteGroup io g true s =
    (Ret true,
     saved io
       (let gs' := dict_del g (dict_set DEFAULT_GROUP (VList (dflt ++ items)) gs) in
        let d1 := dict_set "groups" (VDict gs') d in
        if eq_str a g then dict_set "active_group" (VStr DEFAULT_GROUP) d1 else d1) f).
Proof.
  intros Hne Hg Hd Ha.
  assert (Hm : dict_mem g gs = true) by (apply dict_mem_get; eauto).
  unfold deleteGroup, s.
  destruct (String.eqb_spec g DEFAULT_GROUP) as [|_]; [congruence|].
  mrun. rewrite dict_mem_set, Hm, orb_true_r. mrun.
  destruct (eq_str a g); now mrun.
Qed.

Lemma deleteGroup_discard_ok g a :
  g <> DEFAULT_GROUP ->
  dict_mem g gs = true ->
  dict_get "active_group" d = Some a ->
  deleteGroup io g false s =
    (Ret true,
     saved io
       (let d1 := dict_set "groups" (VDict (dict_del g gs)) d in
        if eq_str a g then dict_set "active_group" (VStr DEFAULT_GROUP) d1 else d1) f).
Proof.
  intros Hne Hm Ha. unfold deleteGroup, s.
  destruct (String.eqb_spec g DEFAULT_GROUP) as [|_]; [congruence|].
  mrun. destruct (eq_str a g); now mrun.
Qed.
End GroupOps.

Lemma is_connection_getitem c :
  is_connection c = true -> exists cd cid, c = VDict cd /\ getitem c "id" = Ret cid.
Proof.
  destruct c as [| | | | |cd]; simpl; try discriminate.
  unfold dict_mem. destruct (dict_get "id" cd) as [cid|]; [|discriminate]. eauto.
Qed.

Lemma find_conn_absent connId l start :
  forallb is_connection l = true ->
  (forall c, In c l -> has_id connId c = false) ->
  find_conn connId l start = Ret None.
Proof.
  revert start. induction l as [|c r IH]; intros start Hwf Habs; [reflexivity|].
  simpl in Hwf. apply andb_true_iff in Hwf as [Hc Hr].
  destruct (is_connection_getitem c Hc) as (cd & cid & -> & Hid).
  pose proof (Habs (VDict cd) (or_introl eq_refl)) as Hno. unfold has_id in Hno.
  cbn [find_conn]. rewrite Hid in *. cbn [rbind]. rewrite Hno. apply IH; [exact Hr|].
  intros c' Hin. apply Habs. now right.
Qed.

Lemma find_conn_found connId l start i c :
  forallb is_connection l = true ->
  l !! i = Some c ->
  has_id connId c = true ->
  (forall j c', (j < i)%nat -> l !! j = Some c' -> has_id connId c' = false) ->
  find_conn connId l start = Ret (Some (start + i)%nat).
Proof.
  revert start i. induction l as [|c0 r IH]; intros start i Hwf Hi Hc Hbefore; [discriminate|].
  simpl in Hwf. apply andb_true_iff in Hwf as [Hc0 Hr].
  destruct (is_connection_getitem c0 Hc0) as (cd & cid & -> & Hid).
  cbn [find_conn]. rewrite Hid. cbn [rbind].
  destruct i as [|i]; simpl in Hi.
  - injection Hi as <-. unfold has_id in Hc. rewrite Hid in Hc. rewrite Hc.
    now rewrite Nat.add_0_r.
  - pose proof (Hbefore 0%nat (VDict cd) ltac:(lia) eq_refl) as Hno.
    unfold has_id in Hno. rewrite Hid in Hno. rewrite Hno.
    rewrite (IH (S start) i Hr Hi Hc).
    + now rewrite Nat.add_succ_comm.
    + intros j c' Hj Hl. apply (Hbefore (S j) c'); [lia | exact Hl].
Qed.

(** On a list of connections the search either fails because no element
    has the id, or stops at the first element that has it. *)
Lemma find_conn_cases connId l :
  forallb is_connection l = true ->
  (find_conn connId l 0 = Ret None /\ forall c, In c l -> has_id connId c = false) \/
  (exists i c, find_conn connId l 0 = Ret (Some i) /\ l !! i = Some c /\
               has_id connId c = true /\
               forall j c', (j < i)%nat -> l !! j = Some c' -> has_id connId c' = false).
Proof.
  intros Hwf.
  destruct (list_find (fun c => has_id connId c = true) l) as [[i c]|] eqn:E.
  - apply list_find_Some in E as (Hi & Hc & Hbefore). right. exists i, c.
    split; [|split; [exact Hi|split; [exact Hc|]]].
    + apply (find_conn_found connId l 0 i c Hwf Hi Hc).
      intros j c' Hj Hl. specialize (Hbefore j c' Hl Hj).
      now destruct (has_id connId c').
    + intros j c' Hj Hl. specialize (Hbefore j c' Hl Hj).
      now destruct (has_id connId c').
  - left. apply list_find_None in E.
    assert (Habs : forall c, In c l -> has_id connId c = false).
    { intros c Hin. apply list_elem_of_In in Hin. rewrite Forall_forall in E.
      specialize (E c Hin). now destruct (has_id connId c). }
    split; [|exact Habs]. now apply find_conn_absent.
Qed.

(** Decide the integer tests of the goal from the arithmetic at hand. *)
Ltac ztests :=
  repeat match goal with
    | |- context [Z.ltb ?a ?b] => destruct (Z.ltb_spec a b); try lia
    | |- context [Z.leb ?a ?b] => destruct (Z.leb_spec a b); try lia
    | |- context [Z.eqb ?a ?b] => destruct (Z.eqb_spec a b); try lia
    | |- context [Nat.ltb ?a ?b] => destruct (Nat.ltb_spec a b); try lia
    end.

Section ConnectionOps.
Variables (io : save_io) (d : dict value) (f : disk) (gs : dict value).
Hypothesis Hgroups : dict_get "groups" d = Some (VDict gs).

Let s := {| data := d; files := f |}.

Lemma addConnection_absent newId g name host key port mode selfHosted :
  dict_mem g gs = false ->
  addConnection io newId g name host key port mode selfHosted s = (Ret None, s).
Proof. intros H. unfold addConnection, s. now mrun. Qed.

Lemma addConnection_ok newId g name host key port mode selfHosted l :
  dict_get g gs = Some (VList l) ->
  addConnection io newId g name host key port mode selfHosted s =
    (Ret (Some newId),
     with_connections io d f gs g
       (l ++ [VDict [ ("id", VStr newId); ("name", VStr name); ("host", VStr host);
                      ("key", VStr key); ("port", VInt port); ("mode", VStr mode);
                      ("selfHosted", VBool selfHosted) ]])).
Proof.
  intros Hg. assert (Hm : dict_mem g gs = true) by (apply dict_mem_get; eauto).
  unfold addConnection, with_connections, s. now mrun.
Qed.

Section InGroup.
Variables (g connId : string) (l : list value).
Hypothesis Hg : dict_get g gs = Some (VList l).

Lemma group_present : dict_mem g gs = true.
Proof. apply dict_mem_get; eauto. Qed.

Lemma updateConnection_absent kwargs :
  find_conn connId l 0 = Ret None ->
  updateConnection io g connId kwargs s = (Ret false, s).
Proof. intros H. pose proof group_present. unfold updateConnection, s. now mrun. Qed.

Lemma deleteConnection_absent :
  find_conn connId l 0 = Ret None ->
  deleteConnection io g connId s = (Ret false, s).
Proof. intros H. pose proof group_present. unfold deleteConnection, s. now mrun. Qed.

Lemma moveConnection_absent direction :
  find_conn connId l 0 = Ret None ->
  moveConnection io g connId direction s = (Ret false, s).
Proof. intros H. pose proof group_present. unfold moveConnection, s. now mrun. Qed.

Lemma updateConnection_ok kwargs i cd :
  find_conn connId l 0 = Ret (Some i) ->
  l !! i = Some (VDict cd) ->
  updateConnection io g connId kwargs s =
    (Ret true, with_connections io d f gs g (<[i := VDict (dict_update cd kwargs)]> l)).
Proof.
  intros H Hi. pose proof group_present. pose proof (lookup_lt_Some _ _ _ Hi) as Hlt.
  unfold updateConnection, with_connections, s. mrun.
  unfold getindex. ztests. cbn [andb].
  rewrite Nat2Z.id, Hi. unfold set_connections, with_element. now mrun.
Qed.

Lemma deleteConnection_ok i c :
  find_conn connId l 0 = Ret (Some i) ->
  l !! i = Some c ->
  deleteConnection io g connId s = (Ret true, with_connections io d f gs g (delete i l)).
Proof.
  intros H Hi. pose proof group_present. pose proof (lookup_lt_Some _ _ _ Hi) as Hlt.
  unfold deleteConnection, with_connections, s. mrun.
  unfold delindex. ztests.
  unfold set_connections. now mrun.
Qed.

Lemma moveConnection_boundary direction i :
  find_conn connId l 0 = Ret (Some i) ->
  Z.of_nat i + direction < 0 \/ Z.of_nat (length l) <= Z.of_nat i + direction ->
  moveConnection io g connId direction s = (Ret false, s).
Proof.
  intros H Hout. pose proof group_present. unfold moveConnection, s. mrun.
  unfold len. repeat first [progress mrun | progress ztests]; reflexivity.
Qed.

Lemma moveConnection_ok direction i c :
  find_conn connId l 0 = Ret (Some i) ->
  l !! i = Some c ->
  0 <= Z.of_nat i + direction < Z.of_nat (length l) ->
  moveConnection io g connId direction s =
    (Ret true,
     with_connections io d f gs g (exchanged i (Z.to_nat (Z.of_nat i + direction)) l)).
Proof.
  intros H Hi Hin. pose proof group_present. pose proof (lookup_lt_Some _ _ _ Hi) as Hlt.
  unfold moveConnection, with_connections, s. mrun.
  unfold len. repeat first [progress mrun | progress ztests].
  set (j := Z.to_nat (Z.of_nat i + direction)).
  assert (Hj : (j < length l)%nat) by lia.
  destruct (lookup_lt_is_Some_2 l j Hj) as [b Hb].
  unfold swap_items, getindex. ztests. cbn [andb].
  fold j. rewrite Nat2Z.id, Hb, Hi. cbn [rbind].
  unfold set_connections, exchanged. rewrite Hi, Hb. now mrun.
Qed.
End InGroup.
End ConnectionOps.

Lemma data_saved io d f : data (saved io d f) = d.
Proof. now destruct io. Qed.

Lemma forallb_Forall {A} (p : A -> bool) l :
  forallb p l = true <-> Forall (fun x => p x = true) l.
Proof.
  rewrite forallb_forall, Forall_forall. split; intros H x Hx; apply H.
  - now apply list_elem_of_In.
  - now apply list_elem_of_In.
Qed.

Lemma groups_ok_get gs k v :
  groups_ok gs = true -> dict_get k gs = Some v -> is_connection_list v = true.
Proof.
  unfold groups_ok. induction gs as [|[k' v'] r IH]; simpl; [discriminate|].
  intros [Hv Hr]%andb_true_iff. destruct (String.eqb k' k); [congruence | now apply IH].
Qed.

Lemma groups_ok_set gs k v :
  groups_ok gs = true -> is_connection_list v = true -> groups_ok (dict_set k v gs) = true.
Proof.
  unfold groups_ok. intros Hgs Hv. induction gs as [|[k' v'] r IH]; simpl.
  - now rewrite Hv.
  - simpl in Hgs. apply andb_true_iff in Hgs as [Hv' Hr].
    destruct (String.eqb k' k); simpl.
    + now rewrite Hv, Hr.
    + now rewrite Hv', IH.
Qed.

Lemma groups_ok_del gs k : groups_ok gs = true -> groups_ok (dict_del k gs) = true.
Proof.
  unfold groups_ok, dict_del. rewrite !forallb_forall. intros H x Hx.
  apply H. apply List.filter_In in Hx. tauto.
Qed.

Lemma well_formed_iff d :
  well_formed d = true <->
  exists a gs, dict_get "active_group" d = Some a /\
               dict_mem "close_on_connect" d = true /\
               dict_get "groups" d = Some (VDict gs) /\
               dict_mem DEFAULT_GROUP gs = true /\ groups_ok gs = true.
Proof.
  unfold well_formed. split.
  - intros [[Ha Hc]%andb_true_iff Hg]%andb_true_iff. apply dict_mem_get in Ha as [a Ha].
    destruct (dict_get "groups" d) as [[| | | | |gs]|]; try discriminate.
    apply andb_true_iff in Hg as [Hd Hok]. eauto 8.
  - intros (a & gs & Ha & Hc & Hg & Hd & Hok). rewrite Hg, Hd, Hok, Hc.
    unfold dict_mem. now rewrite Ha.
Qed.

Lemma well_formed_like_refl d : well_formed d = true -> well_formed_like d d.
Proof. now split. Qed.

Lemma well_formed_like_set_groups d0 d gs' :
  well_formed_like d0 d ->
  dict_mem DEFAULT_GROUP gs' = true -> groups_ok gs' = true ->
  well_formed_like d0 (dict_set "groups" (VDict gs') d).
Proof.
  intros [(a & gs & Ha & Hc & Hg & _)%well_formed_iff Hkeys] Hd Hok. split.
  - apply well_formed_iff. exists a, gs'.
    rewrite dict_get_set_ne by discriminate. rewrite dict_mem_set, Hc.
    now rewrite dict_get_set_eq.
  - rewrite dict_keys_set_present; [exact Hkeys|]. apply dict_mem_get; eauto.
Qed.

Lemma well_formed_like_set_other d0 d k v :
  k <> "groups" -> dict_mem k d = true ->
  well_formed_like d0 d -> well_formed_like d0 (dict_set k v d).
Proof.
  intros Hk Hm [(a & gs & Ha & Hc & Hg & Hd & Hok)%well_formed_iff Hkeys]. split.
  - unfold well_formed. rewrite dict_get_set_ne by exact Hk. rewrite Hg.
    rewrite Hd, Hok, !dict_mem_set, Hc.
    unfold dict_mem. rewrite Ha. now rewrite !orb_true_r.
  - now rewrite dict_keys_set_present.
Qed.

Lemma is_connection_list_inv v :
  is_connection_list v = true ->
  exists l, v = VList l /\ forallb is_connection l = true.
Proof. destruct v; simpl; try discriminate. eauto. Qed.

Lemma is_connection_inv c :
  is_connection c = true -> exists cd, c = VDict cd /\ dict_mem "id" cd = true.
Proof. destruct c; simpl; try discriminate. eauto. Qed.

Lemma exchanged_ok i j l :
  forallb is_connection l = true -> forallb is_connection (exchanged i j l) = true.
Proof.
  unfold exchanged. intros H.
  destruct (l !! i) as [a|] eqn:Ea; [|exact H].
  destruct (l !! j) as [b|] eqn:Eb; [|exact H].
  apply forallb_Forall in H. apply forallb_Forall.
  pose proof (Forall_lookup_1 _ _ _ _ H Ea). pose proof (Forall_lookup_1 _ _ _ _ H Eb).
  now repeat apply Forall_insert.
Qed.

(** Every call keeps a well-formed store well formed, with the same
    top-level keys, and does not raise. *)
Lemma exec_well_formed io c s :
  well_formed (data s) = true ->
  exists s', exec io c s = (Ret tt, s') /\ well_formed_like (data s) (data s').
Proof.
  destruct s as [d f]. cbn [data]. intros Hwf.
  pose proof Hwf as (a & gs & Ha & Hclose & Hg & Hd & Hok)%well_formed_iff.
  assert (Hact : dict_mem "active_group" d = true) by (apply dict_mem_get; eauto).
  pose proof (well_formed_like_refl d Hwf) as Hlike.
  destruct c as [v|g|g|old new|g mv|newId g name host key port mode sh|g cid kw|g cid|g cid dir];
    unfold exec.
  - (* setCloseOnConnect *)
    unfold setCloseOnConnect. mrun. eexists. split; [reflexivity|].
    rewrite data_saved. now apply well_formed_like_set_other.
  - (* setActiveGroup *)
    rewrite (setActiveGroup_ok io d f gs Hg). eexists. split; [reflexivity|].
    destruct (dict_mem g gs); [|exact Hlike].
    rewrite data_saved. now apply well_formed_like_set_other.
  - (* createGroup *)
    rewrite bind_run, (createGroup_ok io d f gs Hg).
    destruct (dict_mem g gs) eqn:E; mrun; eexists; (split; [reflexivity|]); [exact Hlike|].
    rewrite data_saved. apply well_formed_like_set_groups; [exact Hlike| |].
    + now rewrite dict_mem_set, Hd, orb_true_r.
    + now apply groups_ok_set.
  - (* renameGroup *)
    rewrite bind_run.
    destruct (String.eqb_spec old DEFAULT_GROUP) as [Ho|Ho];
      [|destruct (dict_get old gs) as [x|] eqn:Eo;
        [destruct (dict_mem new gs) eqn:En|]].
    + rewrite (renameGroup_refused io d f gs Hg) by auto. mrun. eauto.
    + rewrite (renameGroup_refused io d f gs Hg) by auto. mrun. eauto.
    + rewrite (renameGroup_ok io d f gs Hg old new a x Ho Eo En Ha). mrun.
      eexists. split; [reflexivity|]. rewrite data_saved. cbv zeta.
      assert (Hw : well_formed_like d
                (dict_set "groups" (VDict (dict_set new x (dict_del old gs))) d)).
      { apply well_formed_like_set_groups; [exact Hlike| |].
        - rewrite dict_mem_set, dict_mem_del, Hd.
          destruct (String.eqb_spec old DEFAULT_GROUP); [congruence|].
          now rewrite orb_true_r.
        - apply groups_ok_set; [now apply groups_ok_del|].
          now apply (groups_ok_get gs old). }
      destruct (eq_str a old); [|exact Hw].
      apply well_formed_like_set_other; [discriminate| |exact Hw].
      now rewrite dict_mem_set, Hact, orb_true_r.
    + rewrite (renameGroup_refused io d f gs Hg).
      * mrun. eauto.
      * right. left. now apply dict_mem_false.
  - (* deleteGroup *)
    rewrite bind_run.
    destruct (String.eqb_spec g DEFAULT_GROUP) as [Ho|Ho];
      [|destruct (dict_get g gs) as [x|] eqn:Eo].
    + rewrite (deleteGroup_refused io d f gs Hg) by auto. mrun. eauto.
    + assert (Hm : dict_mem g gs = true) by (apply dict_mem_get; eauto).
      destruct (is_connection_list_inv x (groups_ok_get gs g x Hok Eo))
        as (items & -> & Hitems).
      apply dict_mem_get in Hd as Hd'. destruct Hd' as [dv Hdv].
      destruct (is_connection_list_inv dv (groups_ok_get gs _ dv Hok Hdv))
        as (dflt & -> & Hdflt).
      assert (Hdel : forall gs' : dict value, dict_mem DEFAULT_GROUP gs' = true ->
                dict_mem DEFAULT_GROUP (dict_del g gs') = true).
      { intros gs' H'. rewrite dict_mem_del, H'.
        destruct (String.eqb_spec g DEFAULT_GROUP); [congruence|reflexivity]. }
      destruct mv.
      * rewrite (deleteGroup_move_ok io d f gs Hg g items dflt a Ho Eo Hdv Ha). mrun.
        eexists. split; [reflexivity|]. rewrite data_saved. cbv zeta.
        match goal with |- context [dict_set "groups" ?v d] =>
          assert (Hw : well_formed_like d (dict_set "groups" v d)) end.
        { apply well_formed_like_set_groups; [exact Hlike| |].
          - apply Hdel. now rewrite dict_mem_set, String.eqb_refl.
          - apply groups_ok_del, groups_ok_set; [exact Hok|].
            cbn [is_connection_list]. rewrite forallb_app. now rewrite Hdflt, Hitems. }
        destruct (eq_str a g); [|exact Hw].
      apply well_formed_like_set_other; [discriminate| |exact Hw].
      now rewrite dict_mem_set, Hact, orb_true_r.
      * rewrite (deleteGroup_discard_ok io d f gs Hg g a Ho Hm Ha). mrun.
        eexists. split; [reflexivity|]. rewrite data_saved. cbv zeta.
        match goal with |- context [dict_set "groups" ?v d] =>
          assert (Hw : well_formed_like d (dict_set "groups" v d)) end.
        { apply well_formed_like_set_groups; [exact Hlike| |].
          - now apply Hdel.
          - now apply groups_ok_del. }
        destruct (eq_str a g); [|exact Hw].
      apply well_formed_like_set_other; [discriminate| |exact Hw].
      now rewrite dict_mem_set, Hact, orb_true_r.
    + rewrite (deleteGroup_refused io d f gs Hg).
      * mrun. eauto.
      * right. now apply dict_mem_false.
  - (* addConnection *)
    rewrite bind_run.
    destruct (dict_get g gs) as [x|] eqn:Eg.
    + destruct (is_connection_list_inv x (groups_ok_get gs g x Hok Eg)) as (l & -> & Hl).
      rewrite (addConnection_ok io d f gs Hg _ _ _ _ _ _ _ _ l Eg). mrun.
      eexists. split; [reflexivity|]. unfold with_connections. rewrite data_saved.
      apply well_formed_like_set_groups; [exact Hlike| |].
      * now rewrite dict_mem_set, Hd, orb_true_r.
      * apply groups_ok_set; [exact Hok|]. cbn [is_connection_list].
        rewrite forallb_app, Hl. reflexivity.
    + rewrite (addConnection_absent io d f gs Hg) by now apply dict_mem_false.
      mrun. eauto.
  - (* updateConnection *)
    rewrite bind_run.
    destruct (dict_get g gs) as [x|] eqn:Eg.
    + destruct (is_connection_list_inv x (groups_ok_get gs g x Hok Eg)) as (l & -> & Hl).
      destruct (find_conn_cases cid l Hl) as [[Hf _]|(i & c & Hf & Hi & _)].
      * rewrite (updateConnection_absent io d f gs Hg g cid l Eg kw Hf). mrun. eauto.
      * apply forallb_Forall in Hl as Hl'.
        destruct (is_connection_inv c (Forall_lookup_1 _ _ _ _ Hl' Hi)) as (cd & -> & Hcd).
        rewrite (updateConnection_ok io d f gs Hg g cid l Eg kw i cd Hf Hi). mrun.
        eexists. split; [reflexivity|]. unfold with_connections. rewrite data_saved.
        apply well_formed_like_set_groups; [exact Hlike| |].
        -- now rewrite dict_mem_set, Hd, orb_true_r.
        -- apply groups_ok_set; [exact Hok|]. cbn [is_connection_list].
           apply forallb_Forall, Forall_insert; [exact Hl'|].
           cbn [is_connection]. now rewrite dict_mem_update, Hcd.
    + unfold updateConnection. apply dict_mem_false in Eg. mrun. eauto.
  - (* deleteConnection *)
    rewrite bind_run.
    destruct (dict_get g gs) as [x|] eqn:Eg.
    + destruct (is_connection_list_inv x (groups_ok_get gs g x Hok Eg)) as (l & -> & Hl).
      destruct (find_conn_cases cid l Hl) as [[Hf _]|(i & c & Hf & Hi & _)].
      * rewrite (deleteConnection_absent io d f gs Hg g cid l Eg Hf). mrun. eauto.
      * rewrite (deleteConnection_ok io d f gs Hg g cid l Eg i c Hf Hi). mrun.
        eexists. split; [reflexivity|]. unfold with_connections. rewrite data_saved.
        apply well_formed_like_set_groups; [exact Hlike| |].
        -- now rewrite dict_mem_set, Hd, orb_true_r.
        -- apply groups_ok_set; [exact Hok|]. cbn [is_connection_list].
           apply forallb_Forall, Forall_delete. now apply forallb_Forall.
    + unfold deleteConnection. apply dict_mem_false in Eg. mrun. eauto.
  - (* moveConnection *)
    rewrite bind_run.
    destruct (dict_get g gs) as [x|] eqn:Eg.
    + destruct (is_connection_list_inv x (groups_ok_get gs g x Hok Eg)) as (l & -> & Hl).
      destruct (find_conn_cases cid l Hl) as [[Hf _]|(i & c & Hf & Hi & _)].
      * rewrite (moveConnection_absent io d f gs Hg g cid l Eg dir Hf). mrun. eauto.
      * destruct (Z_lt_ge_dec (Z.of_nat i + dir) 0) as [Hlo|Hlo];
          [|destruct (Z_lt_ge_dec (Z.of_nat i + dir) (Z.of_nat (length l))) as [Hhi|Hhi]].
        -- rewrite (moveConnection_boundary io d f gs Hg g cid l Eg dir i Hf) by lia.
           mrun. eauto.
        -- rewrite (moveConnection_ok io d f gs Hg g cid l Eg dir i c Hf Hi) by lia. mrun.
           eexists. split; [reflexivity|]. unfold with_connections. rewrite data_saved.
           apply well_formed_like_set_groups; [exact Hlike| |].
           ++ now rewrite dict_mem_set, Hd, orb_true_r.
           ++ apply groups_ok_set; [exact Hok|]. cbn [is_connection_list].
              now apply exchanged_ok.
        -- rewrite (moveConnection_boundary io d f gs Hg g cid l Eg dir i Hf) by lia.
           mrun. eauto.
    + unfold moveConnection. apply dict_mem_false in Eg. mrun. eauto.
Qed.

Lemma run_well_formed calls s :
  well_formed (data s) = true ->
  exists s', run calls s = (Ret tt, s') /\ well_formed_like (data s) (data s').
Proof.
  revert s. induction calls as [|[io c] rest IH]; intros s Hwf.
  - exists s. split; [reflexivity | now apply well_formed_like_refl].
  - destruct (exec_well_formed io c s Hwf) as (s1 & Hs1 & Hwf1 & Hk1).
    destruct (IH s1 Hwf1) as (s2 & Hs2 & Hwf2 & Hk2).
    exists s2. split; [|split; [exact Hwf2 | congruence]].
    cbn [run]. now rewrite bind_run, Hs1.
Qed.

End StoreFacts.

(** ** The connection store: what the operations guarantee *)

Module StoreClaims.
Import Py ConnectionManager DictFacts StoreFacts Examples.


Lemma getGroups_saved io d f gs :
  dict_get "groups" d = Some (VDict gs) ->
  fst (getGroups (saved io d f)) = Ret (dict_keys gs).
Proof.
  intros H. destruct (saved io d f) as [d' f'] eqn:E.
  assert (d' = d) as -> by (now rewrite <- (data_saved io d f), E).
  now rewrite (getGroups_ok d f' gs H).
Qed.

Lemma getConnections_saved io d f gs g :
  dict_get "groups" d = Some (VDict gs) ->
  fst (getConnections g (saved io d f)) =
    Ret (match dict_get g gs with Some l => l | None => VList [] end).
Proof.
  intros H. destruct (saved io d f) as [d' f'] eqn:E.
  assert (d' = d) as -> by (now rewrite <- (data_saved io d f), E).
  now rewrite (getConnections_ok d f' gs H).
Qed.

(** C2: from the default skeleton, whatever calls are made and however
    their saves go, no call raises and "Default" is among the groups
    afterwards; renaming or deleting "Default" returns false and changes
    nothing, in any store. *)
Theorem default_group_is_permanent :
  (forall calls fs, exists s',
     run calls {| data := _getDefaultData; files := fs |} = (Ret tt, s') /\
     exists names, getGroups s' = (Ret names, s') /\ In "Default" names) /\
  (forall io s x, renameGroup io "Default" x s = (Ret false, s)) /\
  (forall io s flag, deleteGroup io "Default" flag s = (Ret false, s)).
Proof.
  split; [|split].
  - intros calls fs.
    destruct (run_well_formed calls {| data := _getDefaultData; files := fs |} eq_refl)
      as (s' & Hrun & Hwf & _).
    exists s'. split; [exact Hrun|].
    apply well_formed_iff in Hwf as (a & gs & _ & _ & Hg & Hd & _).
    exists (dict_keys gs). destruct s' as [d' f']. split.
    + now apply getGroups_ok.
    + now apply dict_mem_keys.
  - reflexivity.
  - reflexivity.
Qed.

(** C10: a successful rename takes the group out of its place and puts it
    last: the names [getGroups] lists afterwards are the former names
    without the old one, in their order, followed by the new name, under
    which the same connections are found. *)
Theorem renameGroup_moves_group_last io d f gs a old new x :
  dict_get "groups" d = Some (VDict gs) ->
  dict_get "active_group" d = Some a ->
  old <> "Default" ->
  dict_get old gs = Some x ->
  dict_mem new gs = false ->
  exists s',
    renameGroup io old new {| data := d; files := f |} = (Ret true, s') /\
    fst (getGroups {| data := d; files := f |}) = Ret (dict_keys gs) /\
    fst (getGroups s') =
      Ret (List.filter (fun k => negb (String.eqb k old)) (dict_keys gs) ++ [new]) /\
    fst (getConnections new s') = Ret x.
Proof.
  intros Hg Ha Hne Hold Hnew.
  rewrite (renameGroup_ok io d f gs Hg old new a x Hne Hold Hnew Ha).
  eexists. split; [reflexivity|]. cbv zeta.
  assert (Hfresh : dict_mem new (dict_del old gs) = false).
  { now rewrite dict_mem_del, Hnew, andb_false_r. }
  split; [now rewrite (getGroups_ok d f gs Hg)|].
  set (gs' := dict_set new x (dict_del old gs)).
  assert (Hg' : forall d0, dict_get "groups"
            (if eq_str a old
             then dict_set "active_group" (VStr new) (dict_set "groups" (VDict gs') d0)
             else dict_set "groups" (VDict gs') d0) = Some (VDict gs')).
  { intros d0. destruct (eq_str a old).
    - rewrite dict_get_set_ne by discriminate. apply dict_get_set_eq.
    - apply dict_get_set_eq. }
  split.
  - rewrite (getGroups_saved io _ f gs' (Hg' d)). unfold gs'.
    rewrite dict_set_fresh by exact Hfresh.
    unfold dict_keys at 1. rewrite map_app. fold (dict_keys (dict_del old gs)).
    now rewrite dict_keys_del.
  - rewrite (getConnections_saved io _ f gs' new (Hg' d)). unfold gs'.
    now rewrite dict_get_set_eq.
Qed.

Lemma renameGroup_moves_group_last_witness :
  exists s',
    renameGroup SaveOk "Work" "Job" example_store = (Ret true, s') /\
    fst (getGroups example_store) = Ret ["Default"; "Work"; "Home"] /\
    fst (getGroups s') = Ret ["Default"; "Home"; "Job"] /\
    fst (getConnections "Job" s') =
      Ret (VList [VDict [("id", VStr "a1")]; VDict [("id", VStr "b2")];
                  VDict [("id", VStr "c3")]]).
Proof.
  apply (renameGroup_moves_group_last SaveOk (data example_store) (files example_store)
           [ ("Default", VList [VDict [("id", VStr "z0")]]);
             ("Work", VList [VDict [("id", VStr "a1")]; VDict [("id", VStr "b2")];
                             VDict [("id", VStr "c3")]]);
             ("Home", VList [VDict [("id", VStr "d4")]]) ]
           (VStr "Work") "Work" "Job").
  - reflexivity.
  - reflexivity.
  - discriminate.
  - reflexivity.
  - reflexivity.
Defined.


(** C4: deleting a group other than "Default" with [moveItemsToDefault]
    returns true, puts the group's connections, in their order, after
    those "Default" already had, takes the group out of [getGroups], leaves
    the other groups alone, and makes "Default" the active group when the
    deleted one was; deleting "Default" or a group that is not there
    returns false and changes nothing. *)
Theorem deleteGroup_moves_items_to_default io d f gs :
  dict_get "groups" d = Some (VDict gs) ->
  (forall g flag,
     g = "Default" \/ dict_mem g gs = false ->
     deleteGroup io g flag {| data := d; files := f |} =
       (Ret false, {| data := d; files := f |})) /\
  (forall g items dflt a,
     g <> "Default" ->
     dict_get g gs = Some (VList items) ->
     dict_get "Default" gs = Some (VList dflt) ->
     dict_get "active_group" d = Some a ->
     exists s',
       deleteGroup io g true {| data := d; files := f |} = (Ret true, s') /\
       fst (getConnections "Default" s') = Ret (VList (dflt ++ items)) /\
       length (dflt ++ items) = (length dflt + length items)%nat /\
       (exists names, fst (getGroups s') = Ret names /\ ~ In g names /\
          names = List.filter (fun k => negb (String.eqb k g)) (dict_keys gs)) /\
       (forall h, h <> g -> h <> "Default" ->
          fst (getConnections h s') = fst (getConnections h {| data := d; files := f |})) /\
       dict_get "active_group" (data s') =
         Some (if eq_str a g then VStr "Default" else a)).
Proof.
  intros Hg. split.
  - intros g flag H. now apply (deleteGroup_refused io d f gs Hg).
  - intros g items dflt a Hne Hitems Hdflt Ha.
    rewrite (deleteGroup_move_ok io d f gs Hg g items dflt a Hne Hitems Hdflt Ha).
    eexists. split; [reflexivity|]. cbv zeta.
    set (gs' := dict_del g (dict_set DEFAULT_GROUP (VList (dflt ++ items)) gs)).
    assert (Hd' : dict_mem DEFAULT_GROUP gs = true) by (apply dict_mem_get; eauto).
    assert (Hg' : dict_get "groups"
              (if eq_str a g
               then dict_set "active_group" (VStr DEFAULT_GROUP)
                      (dict_set "groups" (VDict gs') d)
               else dict_set "groups" (VDict gs') d) = Some (VDict gs')).
    { destruct (eq_str a g).
      - rewrite dict_get_set_ne by discriminate. apply dict_get_set_eq.
      - apply dict_get_set_eq. }
    assert (Hkeys : dict_keys gs' =
              List.filter (fun k => negb (String.eqb k g)) (dict_keys gs)).
    { unfold gs'. rewrite dict_keys_del. now rewrite dict_keys_set_present. }
    split; [|split; [|split; [|split]]].
    + rewrite (getConnections_saved io _ f gs' _ Hg'). unfold gs'.
      rewrite dict_get_del_ne by exact Hne. now rewrite dict_get_set_eq.
    + apply length_app.
    + exists (dict_keys gs'). split; [|split].
      * apply (getGroups_saved io _ f gs' Hg').
      * unfold gs'. apply dict_del_absent.
      * exact Hkeys.
    + intros h Hh Hhd. rewrite (getConnections_saved io _ f gs' _ Hg').
      rewrite (getConnections_ok d f gs Hg). cbn [fst]. unfold gs'.
      rewrite dict_get_del_ne by congruence.
      rewrite dict_get_set_ne by (unfold DEFAULT_GROUP; congruence). reflexivity.
    + rewrite data_saved. destruct (eq_str a g).
      * apply dict_get_set_eq.
      * rewrite dict_get_set_ne by discriminate. exact Ha.
Qed.

Lemma deleteGroup_moves_items_to_default_witness :
  (forall g flag,
     g = "Default" \/ dict_mem g
        [ ("Default", VList [VDict [("id", VStr "z0")]]);
          ("Work", VList [VDict [("id", VStr "a1")]; VDict [("id", VStr "b2")];
                          VDict [("id", VStr "c3")]]);
          ("Home", VList [VDict [("id", VStr "d4")]]) ] = false ->
     deleteGroup SaveOk g flag example_store = (Ret false, example_store)) /\
  exists s',
    deleteGroup SaveOk "Work" true example_store = (Ret true, s') /\
    fst (getConnections "Default" s') =
      Ret (VList [VDict [("id", VStr "z0")]; VDict [("id", VStr "a1")];
                  VDict [("id", VStr "b2")]; VDict [("id", VStr "c3")]]) /\
    fst (getGroups s') = Ret ["Default"; "Home"] /\
    dict_get "active_group" (data s') = Some (VStr "Default").
Proof.
  destruct (deleteGroup_moves_items_to_default SaveOk (data example_store)
              (files example_store)
              [ ("Default", VList [VDict [("id", VStr "z0")]]);
                ("Work", VList [VDict [("id", VStr "a1")]; VDict [("id", VStr "b2")];
                                VDict [("id", VStr "c3")]]);
                ("Home", VList [VDict [("id", VStr "d4")]]) ] eq_refl) as [Hno Hyes].
  split; [exact Hno|].
  destruct (Hyes "Work" [VDict [("id", VStr "a1")]; VDict [("id", VStr "b2")];
                         VDict [("id", VStr "c3")]]
              [VDict [("id", VStr "z0")]] (VStr "Work")
              ltac:(discriminate) eq_refl eq_refl eq_refl)
    as (s' & Hrun & Hdef & _ & (names & Hnames & _ & ->) & _ & Hact).
  exists s'. repeat split; assumption.
Defined.

Lemma exchanged_lookup i j l a b :
  l !! i = Some a -> l !! j = Some b ->
  length (exchanged i j l) = length l /\
  exchanged i j l !! i = Some b /\
  exchanged i j l !! j = Some a /\
  forall k, k <> i -> k <> j -> exchanged i j l !! k = l !! k.
Proof.
  intros Hi Hj. unfold exchanged. rewrite Hi, Hj.
  pose proof (lookup_lt_Some _ _ _ Hi). pose proof (lookup_lt_Some _ _ _ Hj).
  split; [now rewrite !length_insert|]. split; [|split].
  - destruct (decide (i = j)) as [->|Hij].
    + rewrite list_lookup_insert_eq by now rewrite length_insert. congruence.
    + rewrite list_lookup_insert_ne by congruence. now rewrite list_lookup_insert_eq.
  - rewrite list_lookup_insert_eq by now rewrite length_insert. reflexivity.
  - intros k Hki Hkj. now rewrite !list_lookup_insert_ne by congruence.
Qed.

(** C7: with a direction of -1 or +1, [moveConnection] returns false and
    changes nothing when the group is absent, when no connection of the
    group has the id, when the connection found is first and the
    direction is -1, or last and the direction is +1; otherwise it returns
    true and the group's list is the former one with the connection found
    and its neighbour in that direction exchanged, every other position
    as it was. *)
Theorem moveConnection_swaps_neighbours io d f gs g connId direction :
  dict_get "groups" d = Some (VDict gs) ->
  direction = -1 \/ direction = 1 ->
  (dict_mem g gs = false ->
   moveConnection io g connId direction {| data := d; files := f |} =
     (Ret false, {| data := d; files := f |})) /\
  (forall l,
     dict_get g gs = Some (VList l) -> forallb is_connection l = true ->
     ((forall c, In c l -> has_id connId c = false) ->
      moveConnection io g connId direction {| data := d; files := f |} =
        (Ret false, {| data := d; files := f |})) /\
     (forall i c,
        l !! i = Some c -> has_id connId c = true ->
        (forall j c', (j < i)%nat -> l !! j = Some c' -> has_id connId c' = false) ->
        (i = 0%nat /\ direction = -1 \/ S i = length l /\ direction = 1 ->
         moveConnection io g connId direction {| data := d; files := f |} =
           (Ret false, {| data := d; files := f |})) /\
        (~ (i = 0%nat /\ direction = -1) -> ~ (S i = length l /\ direction = 1) ->
         exists s' l' n,
           moveConnection io g connId direction {| data := d; files := f |} =
             (Ret true, s') /\
           Z.of_nat n = Z.of_nat i + direction /\
           fst (getConnections g s') = Ret (VList l') /\
           length l' = length l /\
           l' !! i = l !! n /\
           l' !! n = Some c /\
           (forall k, k <> i -> k <> n -> l' !! k = l !! k) /\
           (forall h, h <> g ->
              fst (getConnections h s') =
                fst (getConnections h {| data := d; files := f |}))))).
Proof.
  intros Hg Hdir. split.
  - intros Hm. unfold moveConnection. now mrun.
  - intros l Hl Hwf. split.
    + intros Habs. apply (moveConnection_absent io d f gs Hg g connId l Hl).
      now apply find_conn_absent.
    + intros i c Hi Hc Hfirst.
      pose proof (find_conn_found connId l 0 i c Hwf Hi Hc Hfirst) as Hfind.
      rewrite Nat.add_0_l in Hfind.
      pose proof (lookup_lt_Some _ _ _ Hi) as Hlt. split.
      * intros Hedge.
        apply (moveConnection_boundary io d f gs Hg g connId l Hl direction i Hfind). lia.
      * intros Hfst Hlst.
        assert (Hin : 0 <= Z.of_nat i + direction < Z.of_nat (length l)) by lia.
        rewrite (moveConnection_ok io d f gs Hg g connId l Hl direction i c Hfind Hi Hin).
        set (n := Z.to_nat (Z.of_nat i + direction)).
        assert (Hn : (n < length l)%nat) by lia.
        destruct (lookup_lt_is_Some_2 l n Hn) as [b Hb].
        destruct (exchanged_lookup i n l c b Hi Hb) as (Hlen & Hli & Hln & Hother).
        exists (with_connections io d f gs g (exchanged i n l)), (exchanged i n l), n.
        split; [reflexivity|]. split; [lia|].
        assert (Hg' : dict_get "groups"
                  (dict_set "groups" (VDict (dict_set g (VList (exchanged i n l)) gs)) d)
                = Some (VDict (dict_set g (VList (exchanged i n l)) gs)))
          by apply dict_get_set_eq.
        split; [|split; [exact Hlen|split; [congruence|split; [exact Hln|split]]]].
        -- unfold with_connections. rewrite (getConnections_saved io _ f _ g Hg').
           now rewrite dict_get_set_eq.
        -- exact Hother.
        -- intros h Hh. unfold with_connections.
           rewrite (getConnections_saved io _ f _ h Hg').
           rewrite dict_get_set_ne by congruence.
           now rewrite (getConnections_ok d f gs Hg).
Qed.

Lemma moveConnection_swaps_neighbours_witness :
  moveConnection SaveOk "Work" "c3" 1 example_store = (Ret false, example_store) /\
  exists s' l',
    moveConnection SaveOk "Work" "b2" (-1) example_store = (Ret true, s') /\
    fst (getConnections "Work" s') = Ret (VList l') /\
    l' !! 1%nat = Some (VDict [("id", VStr "a1")]) /\
    l' !! 0%nat = Some (VDict [("id", VStr "b2")]).
Proof.
  split.
  - destruct (moveConnection_swaps_neighbours SaveOk (data example_store)
                (files example_store)
                [ ("Default", VList [VDict [("id", VStr "z0")]]);
                  ("Work", VList [VDict [("id", VStr "a1")]; VDict [("id", VStr "b2")];
                                  VDict [("id", VStr "c3")]]);
                  ("Home", VList [VDict [("id", VStr "d4")]]) ]
                "Work" "c3" 1 eq_refl (or_intror eq_refl)) as [_ H].
    destruct (H _ eq_refl eq_refl) as [_ Hfound].
    refine (proj1 (Hfound 2%nat (VDict [("id", VStr "c3")]) eq_refl eq_refl _) _).
    + intros [|[|j]] c' Hj Hc'; [| |lia]; injection Hc' as <-; reflexivity.
    + right. split; reflexivity.
  - destruct (moveConnection_swaps_neighbours SaveOk (data example_store)
                (files example_store)
                [ ("Default", VList [VDict [("id", VStr "z0")]]);
                  ("Work", VList [VDict [("id", VStr "a1")]; VDict [("id", VStr "b2")];
                                  VDict [("id", VStr "c3")]]);
                  ("Home", VList [VDict [("id", VStr "d4")]]) ]
                "Work" "b2" (-1) eq_refl (or_introl eq_refl)) as [_ H].
    destruct (H _ eq_refl eq_refl) as [_ Hfound].
    destruct (proj2 (Hfound 1%nat (VDict [("id", VStr "b2")]) eq_refl eq_refl
                       ltac:(intros [|j] c' Hj Hc'; [injection Hc' as <-; reflexivity | lia]))
                ltac:(intros [? _]; discriminate) ltac:(intros [? _]; discriminate))
      as (s' & l' & n & Hrun & Hn & Hget & _ & Hi & Hn' & _).
    assert (n = 0%nat) as -> by lia.
    exists s', l'. repeat split; assumption.
Defined.

(** What the observers answer, from the data alone. *)
Lemma getGroups_fst s :
  fst (getGroups s) = rbind (getitem (VDict (data s)) "groups") keys.
Proof.
  unfold getGroups. mrun. cbn [getitem rbind].
  now destruct (dict_get "groups" (data s)).
Qed.

Lemma getConnections_fst g s :
  fst (getConnections g s) =
    rbind (getitem (VDict (data s)) "groups") (fun gv => get gv g (VList [])).
Proof.
  unfold getConnections. mrun. cbn [getitem rbind].
  now destruct (dict_get "groups" (data s)).
Qed.

Lemma getCloseOnConnect_fst s :
  fst (getCloseOnConnect s) =
    Ret (match dict_get "close_on_connect" (data s) with
         | Some x => x
         | None => VBool true
         end).
Proof. unfold getCloseOnConnect. now mrun. Qed.

Lemma getActiveGroup_fst s :
  fst (getActiveGroup s) =
    let group := match dict_get "active_group" (data s) with
                 | Some x => x
                 | None => VStr DEFAULT_GROUP
                 end in
    rbind (getitem (VDict (data s)) "groups") (fun gv =>
    rbind (contains group gv) (fun present =>
    Ret (if negb present then VStr DEFAULT_GROUP else group))).
Proof.
  unfold getActiveGroup. mrun. cbn [getitem rbind]. cbv zeta.
  destruct (dict_get "groups" (data s)) as [gv|]; [|reflexivity]. mrun.
  destruct (contains _ gv) as [[]|]; reflexivity.
Qed.

(** Loading a JSON object: the merge, then the check for "Default". *)
Lemma loadConfig_object d tmp o gv :
  dict_get "groups" (dict_update d o) = Some gv ->
  loadConfig {| data := d;
                files := {| config_file := Some (Parsed (DObject o)); tmp_file := tmp |} |}
  = match contains (VStr DEFAULT_GROUP) gv with
    | Ret true =>
        (Ret tt,
         {| data := dict_update d o;
            files := {| config_file := Some (Parsed (DObject o)); tmp_file := tmp |} |})
    | Ret false =>
        match setitem gv DEFAULT_GROUP (VList []) with
        | Ret gv' =>
            (Ret tt,
             {| data := dict_set "groups" gv' (dict_update d o);
                files := {| config_file := Some (Parsed (DObject o)); tmp_file := tmp |} |})
        | Raise e =>
            (Raise e,
             {| data := dict_update d o;
                files := {| config_file := Some (Parsed (DObject o)); tmp_file := tmp |} |})
        end
    | Raise e =>
        (Raise e,
         {| data := dict_update d o;
            files := {| config_file := Some (Parsed (DObject o)); tmp_file := tmp |} |})
    end.
Proof.
  intros Hg. unfold loadConfig, try_except. cbn [files config_file]. mrun.
  cbn [json_load update_from]. mrun.
  destruct (contains (VStr DEFAULT_GROUP) gv) as [[]|e] eqn:Ec; mrun.
  - reflexivity.
  - destruct gv; reflexivity.
  - destruct gv; cbn in Ec; try discriminate; now injection Ec as <-.
Qed.

(** C1, as the code has it: [loadConfig] returns normally and leaves the
    store as it was when there is no file, when the file cannot be read,
    and when its text is not JSON; when the file holds a JSON object and
    [groups] is an object once the file is merged in, it returns
    normally, the entries the file lacks keep their former value, those
    it has take the file's, and "Default" is among the groups afterwards,
    added as an empty list if it was not there. *)
Theorem loadConfig_recovers_or_merges d fs :
  (config_file fs = None \/ config_file fs = Some Unreadable \/
   config_file fs = Some Malformed ->
   loadConfig {| data := d; files := fs |} = (Ret tt, {| data := d; files := fs |})) /\
  (forall o gs,
     config_file fs = Some (Parsed (DObject o)) ->
     dict_get "groups" (dict_update d o) = Some (VDict gs) ->
     exists d',
       loadConfig {| data := d; files := fs |} = (Ret tt, {| data := d'; files := fs |}) /\
       (forall k, k <> "groups" -> dict_mem k o = false -> dict_get k d' = dict_get k d) /\
       (forall k v, k <> "groups" -> dict_wf o -> dict_get k o = Some v ->
                    dict_get k d' = Some v) /\
       dict_get "groups" d' =
         Some (VDict (if dict_mem "Default" gs then gs
                      else gs ++ [("Default", VList [])])) /\
       (dict_mem "groups" o = false -> dict_mem "Default" gs = true ->
        dict_get "groups" d' = dict_get "groups" d) /\
       exists names,
         fst (getGroups {| data := d'; files := fs |}) = Ret names /\ In "Default" names).
Proof.
  destruct fs as [cfg tmp]. cbn [config_file]. split.
  - intros [-> | [-> | ->]]; reflexivity.
  - intros o gs -> Hg. rewrite (loadConfig_object d tmp o _ Hg).
    cbn [contains setitem]. fold DEFAULT_GROUP.
    destruct (dict_mem DEFAULT_GROUP gs) eqn:Hd.
    + exists (dict_update d o). split; [reflexivity|].
      split; [|split; [|split; [|split]]].
      * intros k _ Hk. now apply dict_get_update_absent.
      * intros k v _ Hwf Hk. now apply dict_get_update_present.
      * exact Hg.
      * intros Ho _. now apply dict_get_update_absent.
      * exists (dict_keys gs). rewrite getGroups_fst. cbn [data getitem]. rewrite Hg.
        split; [reflexivity|]. now apply dict_mem_keys.
    + exists (dict_set "groups" (VDict (dict_set DEFAULT_GROUP (VList []) gs))
                (dict_update d o)).
      split; [reflexivity|]. split; [|split; [|split; [|split]]].
      * intros k Hne Hk. rewrite dict_get_set_ne by congruence.
        now apply dict_get_update_absent.
      * intros k v Hne Hwf Hk. rewrite dict_get_set_ne by congruence.
        now apply dict_get_update_present.
      * rewrite dict_get_set_eq. now rewrite dict_set_fresh.
      * discriminate.
      * exists (dict_keys (dict_set DEFAULT_GROUP (VList []) gs)).
        rewrite getGroups_fst. cbn [data getitem]. rewrite dict_get_set_eq.
        split; [reflexivity|]. apply dict_mem_keys.
        now rewrite dict_mem_set, String.eqb_refl.
Qed.

Lemma loadConfig_recovers_or_merges_witness :
  loadConfig {| data := _getDefaultData;
                files := {| config_file := Some Malformed; tmp_file := None |} |}
  = (Ret tt, {| data := _getDefaultData;
                files := {| config_file := Some Malformed; tmp_file := None |} |}) /\
  exists d',
    loadConfig
      {| data := _getDefaultData;
         files := {| config_file :=
                       Some (Parsed (DObject [("groups", VDict [("Work", VList [])])]));
                     tmp_file := None |} |}
    = (Ret tt,
       {| data := d';
          files := {| config_file :=
                        Some (Parsed (DObject [("groups", VDict [("Work", VList [])])]));
                      tmp_file := None |} |}) /\
    dict_get "active_group" d' = Some (VStr "Default") /\
    dict_get "groups" d' = Some (VDict [("Work", VList []); ("Default", VList [])]).
Proof.
  split.
  - apply (loadConfig_recovers_or_merges _getDefaultData
             {| config_file := Some Malformed; tmp_file := None |}).
    right. right. reflexivity.
  - destruct (proj2 (loadConfig_recovers_or_merges _getDefaultData
               {| config_file :=
                    Some (Parsed (DObject [("groups", VDict [("Work", VList [])])]));
                  tmp_file := None |})
               [("groups", VDict [("Work", VList [])])] [("Work", VList [])]
               eq_refl eq_refl) as (d' & Hrun & Habsent & _ & Hgroups & _).
    exists d'. split; [exact Hrun|]. split; [|exact Hgroups].
    rewrite (Habsent "active_group"); [reflexivity | discriminate | reflexivity].
Defined.

(** C1, counterexample: a file that parses, but not to the expected
    shape, makes [loadConfig] raise [TypeError] to its caller, after the
    merge has overwritten [groups]. *)
Lemma loadConfig_raises_on_unexpected_document :
  loadConfig {| data := _getDefaultData;
                files := {| config_file := Some (Parsed (DObject [("groups", VInt 5)]));
                            tmp_file := None |} |}
  = (Raise TypeError,
     {| data := [ ("active_group", VStr "Default"); ("close_on_connect", VBool true);
                  ("groups", VInt 5) ];
        files := {| config_file := Some (Parsed (DObject [("groups", VInt 5)]));
                    tmp_file := None |} |}) /\
  fst (loadConfig {| data := _getDefaultData;
                     files := {| config_file := Some (Parsed DNull);
                                 tmp_file := None |} |})
  = Raise TypeError.
Proof. split; reflexivity. Qed.

(** C3: after a save that succeeds, a fresh [ConnectionManager] over the
    written file loads without raising and holds the same entries as the
    store that was saved (the very same data when the saved data begins
    with the skeleton's keys), so that the groups and their order, the
    connections of each group, the active group and the close-on-connect
    flag are all answered alike. *)
Theorem save_then_load_round_trip d f gv :
  dict_wf d ->
  dict_get "groups" d = Some gv ->
  contains (VStr "Default") gv = Ret true ->
  exists d',
    init (files (saved SaveOk d f))
      = (Ret tt, {| data := d'; files := files (saved SaveOk d f) |}) /\
    (forall k, dict_mem k d = true -> dict_get k d' = dict_get k d) /\
    (forall extra, dict_keys d = dict_keys _getDefaultData ++ extra -> d' = d) /\
    dict_get "groups" d' = Some gv /\
    fst (getGroups {| data := d'; files := files (saved SaveOk d f) |})
      = fst (getGroups {| data := d; files := f |}) /\
    (forall g,
       fst (getConnections g {| data := d'; files := files (saved SaveOk d f) |})
         = fst (getConnections g {| data := d; files := f |})) /\
    fst (getActiveGroup {| data := d'; files := files (saved SaveOk d f) |})
      = fst (getActiveGroup {| data := d; files := f |}) /\
    fst (getCloseOnConnect {| data := d'; files := files (saved SaveOk d f) |})
      = fst (getCloseOnConnect {| data := d; files := f |}).
Proof.
  intros Hwf Hg Hdef.
  assert (Hg' : dict_get "groups" (dict_update _getDefaultData d) = Some gv)
    by now apply dict_get_update_present.
  exists (dict_update _getDefaultData d). split; [|split; [|split; [|split]]].
  - unfold init, saved. cbn [saveConfig snd files data].
    rewrite (loadConfig_object _getDefaultData None d gv Hg').
    fold DEFAULT_GROUP in Hdef. now rewrite Hdef.
  - intros k [v Hk]%dict_mem_get. rewrite Hk. now apply dict_get_update_present.
  - intros extra Hkeys.
    destruct d as [|[k1 v1] [|[k2 v2] [|[k3 v3] r]]]; try discriminate.
    cbn in Hkeys. injection Hkeys as -> -> -> _.
    change (dict_update [("active_group", v1); ("close_on_connect", v2); ("groups", v3)] r
            = [("active_group", v1); ("close_on_connect", v2); ("groups", v3)] ++ r).
    now apply dict_update_fresh.
  - exact Hg'.
  - split; [|split; [|split]].
    + rewrite !getGroups_fst. cbn [data getitem]. now rewrite Hg', Hg.
    + intros g. rewrite !getConnections_fst. cbn [data getitem]. now rewrite Hg', Hg.
    + rewrite !getActiveGroup_fst. cbn [data getitem]. cbv zeta.
      rewrite Hg', Hg, (dict_get_update _ _ d Hwf).
      now destruct (dict_get "active_group" d).
    + rewrite !getCloseOnConnect_fst. cbn [data].
      rewrite (dict_get_update _ _ d Hwf).
      now destruct (dict_get "close_on_connect" d).
Qed.

Lemma save_then_load_round_trip_witness :
  exists d',
    init (files (saved SaveOk (data example_store) (files example_store)))
      = (Ret tt, {| data := d';
                    files := files (saved SaveOk (data example_store)
                                      (files example_store)) |}) /\
    fst (getGroups {| data := d';
                      files := files (saved SaveOk (data example_store)
                                        (files example_store)) |})
      = Ret ["Default"; "Work"; "Home"].
Proof.
  destruct (save_then_load_round_trip (data example_store) (files example_store)
              (VDict [ ("Default", VList [VDict [("id", VStr "z0")]]);
                       ("Work", VList [VDict [("id", VStr "a1")];
                                       VDict [("id", VStr "b2")];
                                       VDict [("id", VStr "c3")]]);
                       ("Home", VList [VDict [("id", VStr "d4")]]) ]))
    as (d' & Hinit & _ & _ & _ & Hgroups & _).
  - unfold dict_wf. refine (bool_decide_unpack _ _). vm_compute. exact I.
  - reflexivity.
  - reflexivity.
  - exists d'. split; [exact Hinit | exact Hgroups].
Defined.
(** [saveConfig] never raises and never touches the data; a save that
    fails leaves the file as it was, one that succeeds leaves the data as
    the file and no temporary file. *)
Lemma saveConfig_outcome io s :
  exists s',
    saveConfig io s = (Ret tt, s') /\
    data s' = data s /\
    (io = SaveOk ->
     config_file (files s') = Some (Parsed (DObject (data s))) /\
     tmp_file (files s') = None) /\
    (io <> SaveOk -> config_file (files s') = config_file (files s)).
Proof.
  exists (saved io (data s) (files s)). split; [apply saveConfig_run|].
  split; [apply data_saved|].
  destruct io; cbn; split; intros H; try discriminate H; try congruence; now split.
Qed.

Lemma loadConfig_string d fs s gv :
  config_file fs = Some (Parsed (DStr s)) ->
  dict_get "groups" d = Some gv ->
  fst (loadConfig {| data := d; files := fs |}) =
    if String.eqb s "" then
      if accepts_default gv then Ret tt else Raise TypeError
    else Raise ValueError.
Proof.
  intros Hc Hg. unfold loadConfig, try_except. cbn [files]. rewrite Hc. mrun.
  cbn [json_load update_from]. mrun.
  destruct (String.eqb s ""); mrun; [|reflexivity].
  destruct gv as [| | |s'|l|gs]; cbn [contains accepts_default]; mrun;
    try reflexivity.
  - destruct (str_contains DEFAULT_GROUP s'); now mrun.
  - destruct (existsb _ l); now mrun.
  - destruct (dict_mem _ gs); now mrun.
Qed.

(** When [loadConfig] returns normally, over data that has [groups]. *)
Lemma loadConfig_returns_iff d fs :
  dict_mem "groups" d = true ->
  fst (loadConfig {| data := d; files := fs |}) = Ret tt <->
  load_returns d (config_file fs) = true.
Proof.
  intros [gv0 Hg0]%dict_mem_get. destruct fs as [[c|] tmp]; [|now split].
  destruct c as [| | |[o| | | |s]]; cbn [config_file load_returns];
    try (split; [reflexivity | discriminate]); try (now split).
  - assert (Hm : dict_mem "groups" (dict_update d o) = true).
    { rewrite dict_mem_update. unfold dict_mem at 1. now rewrite Hg0. }
    apply dict_mem_get in Hm as [gv Hg].
    rewrite (loadConfig_object d tmp o gv Hg), Hg.
    destruct gv as [| | |s'|l|gs]; cbn [contains accepts_default setitem fst];
      try (split; discriminate).
    + destruct (str_contains DEFAULT_GROUP s'); now split.
    + destruct (existsb _ l); now split.
    + destruct (dict_mem _ gs); now split.
  - rewrite (loadConfig_string d {| config_file := Some (Parsed (DStr s));
                                    tmp_file := tmp |} s gv0 eq_refl Hg0), Hg0.
    destruct (String.eqb s ""); [|now split].
    destruct (accepts_default gv0); now split.
Qed.

(** A store that [ConnectionManager()] built without raising has no key
    twice and passes the check for "Default". *)
Lemma init_establishes fs s :
  init fs = (Ret tt, s) ->
  dict_wf (data s) /\
  exists gv, dict_get "groups" (data s) = Some gv /\
             contains (VStr "Default") gv = Ret true.
Proof.
  assert (Hsk : dict_wf _getDefaultData).
  { unfold dict_wf. refine (bool_decide_unpack _ _). vm_compute. exact I. }
  assert (Hskel : dict_wf _getDefaultData /\
            exists gv, dict_get "groups" _getDefaultData = Some gv /\
                       contains (VStr "Default") gv = Ret true).
  { split; [exact Hsk|]. eexists. split; reflexivity. }
  unfold init. destruct fs as [[c|] tmp]; [|intros [= <-]; exact Hskel].
  destruct c as [| | |[o| | | |str]]; try discriminate;
    try (intros [= <-]; exact Hskel).
  - assert (Hm : dict_mem "groups" (dict_update _getDefaultData o) = true)
      by now rewrite dict_mem_update.
    apply dict_mem_get in Hm as [gv Hg].
    rewrite (loadConfig_object _getDefaultData tmp o gv Hg).
    destruct (contains (VStr DEFAULT_GROUP) gv) as [[]|] eqn:Ec; [| |discriminate].
    + intros [= <-]. cbn [data]. split; [now apply dict_wf_update|]. eauto.
    + destruct gv as [| | | | |gs]; try discriminate. cbn [setitem].
      intros [= <-]. cbn [data]. split.
      * now apply dict_wf_set, dict_wf_update.
      * eexists. split; [apply dict_get_set_eq|]. cbn [contains].
        now rewrite dict_mem_set.
  - unfold loadConfig, try_except. cbn [files config_file]. mrun.
    cbn [json_load update_from]. mrun.
    destruct (String.eqb str ""); mrun; [|discriminate].
    intros [= <-]. exact Hskel.
Qed.

(** The stores reached from the default skeleton keep its three entries,
    so the file of a successful save loads back to the very same data. *)
Lemma reachable_round_trip calls fs s :
  run calls {| data := _getDefaultData; files := fs |} = (Ret tt, s) ->
  init (files (saved SaveOk (data s) (files s)))
    = (Ret tt, {| data := data s; files := files (saved SaveOk (data s) (files s)) |}).
Proof.
  intros Hrun.
  destruct (run_well_formed calls {| data := _getDefaultData; files := fs |} eq_refl)
    as (s' & Hrun' & Hwf & Hkeys).
  rewrite Hrun in Hrun'. injection Hrun' as <-. cbn [data] in Hwf, Hkeys.
  apply well_formed_iff in Hwf as (a & gs & _ & _ & Hg & Hd & _).
  destruct s as [d f]. cbn [data files] in *.
  assert (Hwfd : dict_wf d).
  { unfold dict_wf. rewrite Hkeys. refine (bool_decide_unpack _ _). vm_compute. exact I. }
  assert (Hg' : dict_get "groups" (dict_update _getDefaultData d) = Some (VDict gs))
    by now apply dict_get_update_present.
  unfold init, saved. cbn [saveConfig snd files data].
  rewrite (loadConfig_object _getDefaultData None d _ Hg'). cbn [contains].
  rewrite Hd. do 2 f_equal.
  destruct d as [|[k1 v1] [|[k2 v2] [|[k3 v3] [|? ?]]]]; try discriminate.
  cbn in Hkeys. injection Hkeys as -> -> ->. reflexivity.
Qed.

End StoreClaims.

(** ** The remote service: what the queries answer *)

Module ServiceClaims.
Import Py RemoteService Examples.


Lemma mode_eqb_eq a b : mode_eqb a b = true <-> a = b.
Proof. destruct a, b; simpl; split; congruence. Qed.

(** C9: while the remote client is not running, the queries answer their
    defaults and none raises: not connected, no client, no connection
    info, no swap target, and the current connection is not the default. *)
Theorem queries_default_when_not_running h :
  isRunning h = false ->
  isConnected h = Ret false /\
  getClient h = None /\
  getCurrentConnectionInfo h = None /\
  getSwapTargetInfo h = (None, None) /\
  forall parser, isCurrentConnectionDefault parser h = Ret false.
Proof.
  intros H. unfold isCurrentConnectionDefault, getSwapTargetInfo,
    getCurrentConnectionInfo, getClient, isConnected. rewrite H. repeat split.
Qed.

Lemma queries_default_when_not_running_witness :
  isConnected {| remoteRunning := false; _remoteClient := None; controlServer := None |}
    = Ret false /\
  getSwapTargetInfo {| remoteRunning := false; _remoteClient := None;
                       controlServer := None |} = (None, None).
Proof.
  destruct (queries_default_when_not_running
              {| remoteRunning := false; _remoteClient := None; controlServer := None |}
              eq_refl) as (H1 & _ & _ & H4 & _).
  split; assumption.
Defined.

(** C6: without a session there is no swap target; with a leader session
    the target is a follower descriptor, with a follower session (and no
    leader session) a leader descriptor, and in both cases the target
    has the host name, port, key and insecure flag of the current
    connection info, which are those of the session and its transport. *)
Theorem getSwapTargetInfo_flips_mode h :
  (getCurrentConnectionInfo h = None -> getSwapTargetInfo h = (None, None)) /\
  (forall client s,
     getClient h = Some client -> leaderSession client = Some s ->
     exists info target,
       getCurrentConnectionInfo h = Some info /\
       getSwapTargetInfo h = (Some target, Some FOLLOWER) /\
       mode target = FOLLOWER /\ same_endpoint target info /\
       same_endpoint info
         {| hostname := hostname (getConnectionInfo s); mode := mode (getConnectionInfo s);
            key := key (getConnectionInfo s); port := port (getConnectionInfo s);
            insecure := transport_insecure s |}) /\
  (forall client s,
     getClient h = Some client -> leaderSession client = None ->
     followerSession client = Some s ->
     exists info target,
       getCurrentConnectionInfo h = Some info /\
       getSwapTargetInfo h = (Some target, Some LEADER) /\
       mode target = LEADER /\ same_endpoint target info /\
       same_endpoint info
         {| hostname := hostname (getConnectionInfo s); mode := mode (getConnectionInfo s);
            key := key (getConnectionInfo s); port := port (getConnectionInfo s);
            insecure := transport_insecure s |}).
Proof.
  unfold getSwapTargetInfo, getCurrentConnectionInfo, same_endpoint.
  split; [|split].
  - destruct (getClient h) as [client|]; [|reflexivity].
    destruct (leaderSession client); [discriminate|].
    destruct (followerSession client); [discriminate|reflexivity].
  - intros client s -> ->. eexists _, _. repeat split.
  - intros client s -> -> ->. eexists _, _. repeat split.
Qed.

Lemma getSwapTargetInfo_flips_mode_witness :
  exists info target,
    getCurrentConnectionInfo (sample_host 7000) = Some info /\
    getSwapTargetInfo (sample_host 7000) = (Some target, Some FOLLOWER) /\
    mode target = FOLLOWER /\ same_endpoint target info.
Proof.
  destruct (proj1 (proj2 (getSwapTargetInfo_flips_mode (sample_host 7000)))
              _ (sample_session 7000) eq_refl eq_refl)
    as (info & target & H1 & H2 & H3 & H4 & _).
  exists info, target. repeat split; try assumption; apply H4.
Defined.

Section WithParser.
Variable addressToHostPort : string -> option (string * Z).

(** C5: [isCurrentConnectionDefault] answers true exactly when the
    client is connected, there is a current connection info, and the
    auto-connect record stands for the same host name, port, key and
    mode; when the record is not self-hosted and its host string does
    not parse, the answer is false, whatever the session. *)
Theorem isCurrentConnectionDefault_iff h :
  (isCurrentConnectionDefault addressToHostPort h = Ret true <->
   isConnected h = Ret true /\
   exists conf info,
     getControlServerConfig h = Some conf /\
     getCurrentConnectionInfo h = Some info /\
     auto_connect_target addressToHostPort conf =
       Some (hostname info, port info, key info, mode info)) /\
  (forall connected conf host,
     isConnected h = Ret connected ->
     getControlServerConfig h = Some conf ->
     get_or (cs_selfHosted conf) false = false ->
     cs_host conf = Some host ->
     addressToHostPort host = None ->
     isCurrentConnectionDefault addressToHostPort h = Ret false).
Proof.
  unfold isCurrentConnectionDefault, getControlServerConfig.
  split.
  - destruct (isConnected h) as [[]|e]; cbn [rbind negb];
      [|split; [discriminate | intros [? _]; discriminate]..].
    destruct (controlServer h) as [conf|];
      [|split; [discriminate | intros (_ & ? & ? & ? & _); discriminate]].
    destruct (getCurrentConnectionInfo h) as [info|].
    2:{ split; [destruct (conf_truthy _); discriminate|].
        intros (_ & ? & ? & _ & ? & _); discriminate. }
    transitivity (auto_connect_target addressToHostPort conf =
                    Some (hostname info, port info, key info, mode info)).
    2:{ split.
        - intros H. split; [reflexivity|]. eauto.
        - intros (_ & c & i & [= <-] & [= <-] & H). exact H. }
    unfold auto_connect_target.
    assert (Hfinish : forall hn p,
      (rbind (subscript (cs_connectionMode conf)) (fun n =>
       rbind (toConnectionMode n) (fun configMode =>
       if negb (String.eqb (hostname info) hn) then Ret false
       else if negb (port info =? p) then Ret false
       else rbind (subscript (cs_key conf)) (fun k =>
            if negb (String.eqb (key info) k) then Ret false
            else Ret (mode_eqb (mode info) configMode)))) = Ret true) <->
      match cs_key conf, cs_connectionMode conf with
      | Some k, Some n =>
          match toConnectionMode n with
          | Ret m => Some (hn, p, k, m)
          | Raise _ => None
          end
      | _, _ => None
      end = Some (hostname info, port info, key info, mode info)).
    { intros hn p.
      destruct (cs_connectionMode conf) as [n|]; cbn [subscript rbind];
        [|split; [discriminate | destruct (cs_key conf); discriminate]].
      destruct (toConnectionMode n) as [m|e]; cbn [rbind];
        [|split; [discriminate | destruct (cs_key conf); discriminate]].
      destruct (String.eqb_spec (hostname info) hn) as [Hh|Hh]; cbn [negb].
      2:{ split; [discriminate|]. destruct (cs_key conf); [|discriminate].
          intros [= ? ? ? ?]. congruence. }
      destruct (Z.eqb_spec (port info) p) as [Hp|Hp]; cbn [negb].
      2:{ split; [discriminate|]. destruct (cs_key conf); [|discriminate].
          intros [= ? ? ? ?]. congruence. }
      destruct (cs_key conf) as [k|]; cbn [subscript rbind];
        [|split; discriminate].
      destruct (String.eqb_spec (key info) k) as [Hk|Hk]; cbn [negb].
      2:{ split; [discriminate|]. intros [= ? ? ? ?]. congruence. }
      split.
      - intros [= Hm]. apply mode_eqb_eq in Hm. congruence.
      - intros [= ? ? ? ?]. f_equal. apply mode_eqb_eq. congruence. }
    destruct (conf_truthy (Some conf)) eqn:Et; cbn [negb].
    2:{ split; [discriminate|]. intros Ht.
        assert (Hk : cs_key conf = None).
        { unfold conf_truthy in Et. repeat case_match; congruence. }
        rewrite Hk in Ht. repeat case_match; discriminate. }
    destruct (get_or (cs_selfHosted conf) false); cbn [negb].
    + rewrite Hfinish. now destruct (cs_key conf), (cs_connectionMode conf).
    + destruct (cs_host conf) as [host|]; cbn [subscript rbind];
        [|split; discriminate].
      destruct (addressToHostPort host) as [[hn p]|]; [|split; discriminate].
      rewrite Hfinish. now destruct (cs_key conf), (cs_connectionMode conf).
  - intros connected conf host -> -> Hsh Hhost Hparse.
    destruct connected; cbn [rbind negb]; [|reflexivity].
    destruct (conf_truthy (Some conf)); cbn [negb]; [|reflexivity].
    destruct (getCurrentConnectionInfo h); [|reflexivity].
    rewrite Hsh, Hhost. cbn [negb subscript rbind]. now rewrite Hparse.
Qed.
End WithParser.


Lemma isCurrentConnectionDefault_iff_witness :
  isCurrentConnectionDefault sample_addressToHostPort (sample_host 7000) = Ret true /\
  isCurrentConnectionDefault sample_addressToHostPort
    (sample_host_with "example.org:http") = Ret false.
Proof.
  split.
  - apply (proj1 (isCurrentConnectionDefault_iff sample_addressToHostPort
                    (sample_host 7000))).
    split; [reflexivity|]. eexists _, _. repeat split.
  - apply (proj2 (isCurrentConnectionDefault_iff sample_addressToHostPort
                    (sample_host_with "example.org:http"))
             true
             {| cs_autoconnect := Some true; cs_selfHosted := None;
                cs_connectionMode := Some 1; cs_host := Some "example.org:http";
                cs_port := None; cs_key := Some "abc" |}
             "example.org:http"); reflexivity.
Defined.

(** The scenario of the specification: the record and the session agree
    on [example.org:7000]; a session on port 7001 is not the default. *)
Example isCurrentConnectionDefault_scenario :
  isCurrentConnectionDefault sample_addressToHostPort (sample_host 7000) = Ret true /\
  isCurrentConnectionDefault sample_addressToHostPort (sample_host 7001) = Ret false.
Proof. split; reflexivity. Qed.

(** C8: from a connection with its fields present, [setAsAutoConnect]
    leaves a record with [autoconnect] on, the connection's self-hosted
    flag and key, and the number of its mode; a self-hosted connection
    stores its port and leaves the record's host alone, any other stores
    the host, followed by a colon and the port unless the port is 6837. *)
Theorem setAsAutoConnect_writes_record conn h section host k p m :
  controlServer h = Some section ->
  conn_host conn = Some host ->
  conn_key conn = Some k ->
  conn_port conn = Some p ->
  conn_mode conn = Some m ->
  exists section' h',
    setAsAutoConnect conn h = (Ret tt, h') /\
    controlServer h' = Some section' /\
    same_host_besides_section h h' /\
    cs_autoconnect section' = Some true /\
    cs_selfHosted section' = Some (get_or (conn_selfHosted conn) false) /\
    cs_connectionMode section' = Some (if String.eqb m "leader" then 1 else 0) /\
    rbind (subscript (cs_connectionMode section')) toConnectionMode = Ret (mode_enum m) /\
    cs_key section' = Some k /\
    (get_or (conn_selfHosted conn) false = true ->
     cs_port section' = Some p /\ cs_host section' = cs_host section) /\
    (get_or (conn_selfHosted conn) false = false ->
     cs_port section' = cs_port section /\
     cs_host section' = Some (if p =? 6837 then host else host +:+ ":" +:+ pretty p)).
Proof.
  intros Hs Hh Hk Hp Hm. unfold setAsAutoConnect, write_autoconnect. rewrite Hs.
  unfold Py.bind, lift, assign. rewrite Hm, Hk, Hp, Hh. cbn [subscript].
  unfold mode_enum, format_host_port.
  destruct (get_or (conn_selfHosted conn) false); cbn [subscript];
    eexists _, _; (split; [reflexivity|]); cbn;
    (repeat split; try discriminate; try now destruct (String.eqb m "leader")).
  now destruct (p =? 6837).
Qed.

Lemma setAsAutoConnect_writes_record_witness :
  exists section' h',
    setAsAutoConnect sample_connection (sample_host 7000) = (Ret tt, h') /\
    controlServer h' = Some section' /\
    cs_autoconnect section' = Some true /\
    cs_connectionMode section' = Some 1 /\
    cs_key section' = Some "abc" /\
    cs_host section' = Some "example.org:7000".
Proof.
  destruct (setAsAutoConnect_writes_record sample_connection (sample_host 7000)
              _ "example.org" "abc" 7000 "leader" eq_refl eq_refl eq_refl eq_refl eq_refl)
    as (section' & h' & Hrun & Hsec & _ & Hauto & _ & Hmode & _ & Hkey & _ & Hhost).
  exists section', h'. repeat split; try assumption.
  apply (proj2 (Hhost eq_refl)).
Defined.

(** A port of 6837 is left out of the host string. *)
Example setAsAutoConnect_default_port :
  controlServer
    (snd (setAsAutoConnect
            {| conn_host := Some "example.org"; conn_key := Some "abc";
               conn_port := Some 6837; conn_mode := Some "follower";
               conn_selfHosted := Some false |} (sample_host 7000)))
  = Some {| cs_autoconnect := Some true; cs_selfHosted := Some false;
            cs_connectionMode := Some 0; cs_host := Some "example.org";
            cs_port := None; cs_key := Some "abc" |}.
Proof. reflexivity. Qed.

End ServiceClaims.

(** ** The connection store: further properties of the operations *)

Module StoreExtras.
Import Py ConnectionManager DictFacts StoreFacts Examples StoreClaims StoreViews.

Lemma dict_set_same {A} k (v : A) d : dict_get k d = Some v -> dict_set k v d = d.
Proof.
  induction d as [|[k' v'] r IH]; simpl; [discriminate|].
  destruct (String.eqb k' k); [now intros [= ->]|]. intros H. now rewrite IH.
Qed.

Lemma saved_shape io d f : exists f', saved io d f = {| data := d; files := f' |}.
Proof. destruct io; eexists; reflexivity. Qed.

(** X1: [createGroup] with a new name returns true and puts the group,
    empty, after the existing ones, which keep their connections; a
    second [createGroup] with that name, or one with any name already in
    use, returns false and leaves the store as it is. *)
Theorem createGroup_appends_empty_group io d f gs g :
  dict_get "groups" d = Some (VDict gs) ->
  (dict_mem g gs = true ->
   createGroup io g {| data := d; files := f |} = (Ret false, {| data := d; files := f |})) /\
  (dict_mem g gs = false ->
   exists s',
     createGroup io g {| data := d; files := f |} = (Ret true, s') /\
     fst (getGroups s') = Ret (dict_keys gs ++ [g]) /\
     fst (getConnections g s') = Ret (VList []) /\
     (forall h, h <> g ->
        fst (getConnections h s') = fst (getConnections h {| data := d; files := f |})) /\
     forall io', createGroup io' g s' = (Ret false, s')).
Proof.
  intros Hg. rewrite (createGroup_ok io d f gs Hg). split; intros Hm; rewrite Hm.
  - reflexivity.
  - cbv iota. eexists. split; [reflexivity|].
    assert (Hg' : dict_get "groups"
              (dict_set "groups" (VDict (dict_set g (VList []) gs)) d)
            = Some (VDict (dict_set g (VList []) gs))) by apply dict_get_set_eq.
    split; [|split; [|split]].
    + rewrite (getGroups_saved io _ f _ Hg'). rewrite dict_set_fresh by exact Hm.
      unfold dict_keys. now rewrite map_app.
    + rewrite (getConnections_saved io _ f _ g Hg'). now rewrite dict_get_set_eq.
    + intros h Hh. rewrite (getConnections_saved io _ f _ h Hg').
      rewrite dict_get_set_ne by congruence. now rewrite (getConnections_ok d f gs Hg).
    + intros io'.
      destruct (saved_shape io (dict_set "groups" (VDict (dict_set g (VList []) gs)) d) f)
        as [f' ->].
      rewrite (createGroup_ok io' _ f' _ Hg').
      now rewrite dict_mem_set, String.eqb_refl.
Qed.

Lemma createGroup_appends_empty_group_witness :
  createGroup SaveOk "Default" example_store = (Ret false, example_store) /\
  exists s',
    createGroup SaveOk "Travel" example_store = (Ret true, s') /\
    fst (getGroups s') = Ret ["Default"; "Work"; "Home"; "Travel"].
Proof.
  destruct (createGroup_appends_empty_group SaveOk (data example_store)
              (files example_store)
              [ ("Default", VList [VDict [("id", VStr "z0")]]);
                ("Work", VList [VDict [("id", VStr "a1")]; VDict [("id", VStr "b2")];
                                VDict [("id", VStr "c3")]]);
                ("Home", VList [VDict [("id", VStr "d4")]]) ]
              "Default" eq_refl) as [Hno _].
  split; [exact (Hno eq_refl)|].
  destruct (createGroup_appends_empty_group SaveOk (data example_store)
              (files example_store)
              [ ("Default", VList [VDict [("id", VStr "z0")]]);
                ("Work", VList [VDict [("id", VStr "a1")]; VDict [("id", VStr "b2")];
                                VDict [("id", VStr "c3")]]);
                ("Home", VList [VDict [("id", VStr "d4")]]) ]
              "Travel" eq_refl) as [_ Hyes].
  destruct (Hyes eq_refl) as (s' & Hrun & Hgroups & _).
  exists s'. split; assumption.
Defined.


(** X2: [addConnection] on a group that is there returns the new id and
    puts the new connection, with the fields given, after the group's
    other connections; the groups and the other groups' connections stay
    as they are. On a group that is not there it returns [None] and
    changes nothing. *)
Theorem addConnection_appends_entry io d f gs newId g name host key port mode sh :
  dict_get "groups" d = Some (VDict gs) ->
  (dict_mem g gs = false ->
   addConnection io newId g name host key port mode sh {| data := d; files := f |}
     = (Ret None, {| data := d; files := f |})) /\
  (forall l,
     dict_get g gs = Some (VList l) ->
     exists s',
       addConnection io newId g name host key port mode sh {| data := d; files := f |}
         = (Ret (Some newId), s') /\
       fst (getConnections g s')
         = Ret (VList (l ++ [new_entry newId name host key port mode sh])) /\
       fst (getGroups s') = fst (getGroups {| data := d; files := f |}) /\
       (forall h, h <> g ->
          fst (getConnections h s') = fst (getConnections h {| data := d; files := f |}))).
Proof.
  intros Hg. split.
  - intros Hm. now apply (addConnection_absent io d f gs Hg).
  - intros l Hl. rewrite (addConnection_ok io d f gs Hg _ _ _ _ _ _ _ _ l Hl).
    eexists. split; [reflexivity|]. unfold with_connections.
    match goal with |- context [saved io ?d' f] =>
      assert (Hg' : dict_get "groups" d' = Some (VDict (dict_set g (VList
                (l ++ [new_entry newId name host key port mode sh])) gs)))
        by apply dict_get_set_eq end.
    assert (Hm : dict_mem g gs = true) by (apply dict_mem_get; eauto).
    split; [|split].
    + rewrite (getConnections_saved io _ f _ g Hg'). now rewrite dict_get_set_eq.
    + rewrite (getGroups_saved io _ f _ Hg'), (getGroups_ok d f gs Hg).
      now rewrite dict_keys_set_present.
    + intros h Hh. rewrite (getConnections_saved io _ f _ h Hg').
      rewrite dict_get_set_ne by congruence. now rewrite (getConnections_ok d f gs Hg).
Qed.

(** The scenario of the specification: the first connection added to a
    new store is the only one of "Default". *)
Lemma addConnection_appends_entry_witness :
  exists s',
    addConnection SaveOk "4f1c" "Default" "Home PC" "example.org" "1234567" 6837 "leader"
      false {| data := _getDefaultData; files := {| config_file := None; tmp_file := None |} |}
      = (Ret (Some "4f1c"), s') /\
    fst (getConnections "Default" s')
      = Ret (VList [new_entry "4f1c" "Home PC" "example.org" "1234567" 6837 "leader" false]).
Proof.
  destruct (proj2 (addConnection_appends_entry SaveOk _getDefaultData
                     {| config_file := None; tmp_file := None |}
                     [("Default", VList [])] "4f1c" "Default" "Home PC" "example.org"
                     "1234567" 6837 "leader" false eq_refl) [] eq_refl)
    as (s' & Hrun & Hconn & _).
  exists s'. split; assumption.
Defined.

(** X3: [updateConnection] changes the first connection of the group that
    has the id, where it stands: the list keeps its length and its other
    connections, the connection takes the values given and keeps its
    other fields, in their order. A group or an id that is not there
    gives false and no change. *)
Theorem updateConnection_merges_in_place io d f gs g connId kwargs :
  dict_get "groups" d = Some (VDict gs) ->
  (dict_mem g gs = false ->
   updateConnection io g connId kwargs {| data := d; files := f |}
     = (Ret false, {| data := d; files := f |})) /\
  (forall l,
     dict_get g gs = Some (VList l) -> forallb is_connection l = true ->
     (id_free connId l ->
      updateConnection io g connId kwargs {| data := d; files := f |}
        = (Ret false, {| data := d; files := f |})) /\
     (forall i c,
        l !! i = Some c -> has_id connId c = true ->
        (forall j c', (j < i)%nat -> l !! j = Some c' -> has_id connId c' = false) ->
        exists s' l' old new,
          updateConnection io g connId kwargs {| data := d; files := f |} = (Ret true, s') /\
          fst (getConnections g s') = Ret (VList l') /\
          c = VDict old /\ l' !! i = Some (VDict new) /\
          length l' = length l /\
          (forall j, j <> i -> l' !! j = l !! j) /\
          (forall k, dict_mem k kwargs = false -> dict_get k new = dict_get k old) /\
          (forall k v, dict_wf kwargs -> dict_get k kwargs = Some v ->
                       dict_get k new = Some v) /\
          exists added, dict_keys new = dict_keys old ++ added)).
Proof.
  intros Hg. split.
  - intros Hm. unfold updateConnection. now mrun.
  - intros l Hl Hwf. split.
    + intros Habs. apply (updateConnection_absent io d f gs Hg g connId l Hl).
      now apply find_conn_absent.
    + intros i c Hi Hc Hfirst.
      pose proof (find_conn_found connId l 0 i c Hwf Hi Hc Hfirst) as Hfind.
      rewrite Nat.add_0_l in Hfind.
      apply forallb_Forall in Hwf as Hwf'.
      destruct (is_connection_inv c (Forall_lookup_1 _ _ _ _ Hwf' Hi)) as (old & -> & _).
      rewrite (updateConnection_ok io d f gs Hg g connId l Hl kwargs i old Hfind Hi).
      pose proof (lookup_lt_Some _ _ _ Hi) as Hlt.
      exists (with_connections io d f gs g (<[i := VDict (dict_update old kwargs)]> l)),
        (<[i := VDict (dict_update old kwargs)]> l), old, (dict_update old kwargs).
      split; [reflexivity|]. split; [|split; [reflexivity|split; [|split; [|split]]]].
      * unfold with_connections.
        rewrite (getConnections_saved io _ f _ g (dict_get_set_eq _ _ _)).
        now rewrite dict_get_set_eq.
      * now apply list_lookup_insert_eq.
      * apply length_insert.
      * intros j Hj. now apply list_lookup_insert_ne.
      * split; [|split].
        -- intros k Hk. now apply dict_get_update_absent.
        -- intros k v Hkw Hk. now apply dict_get_update_present.
        -- clear. unfold dict_update. revert old.
           induction kwargs as [|[k v] r IH]; intros old; simpl.
           ++ exists []. now rewrite app_nil_r.
           ++ destruct (IH (dict_set k v old)) as [added Hadded]. rewrite Hadded.
              destruct (dict_mem k old) eqn:E.
              ** rewrite dict_keys_set_present by exact E. eauto.
              ** rewrite dict_set_fresh by exact E. unfold dict_keys at 1.
                 rewrite map_app. cbn. rewrite <- app_assoc. eauto.
Qed.

Lemma updateConnection_merges_in_place_witness :
  exists s' l' new,
    updateConnection SaveOk "Work" "b2" [("name", VStr "Office")] example_store
      = (Ret true, s') /\
    fst (getConnections "Work" s') = Ret (VList l') /\
    l' !! 1%nat = Some (VDict new) /\
    l' !! 0%nat = Some (VDict [("id", VStr "a1")]) /\
    dict_get "name" new = Some (VStr "Office") /\
    dict_get "id" new = Some (VStr "b2").
Proof.
  destruct (proj2 (updateConnection_merges_in_place SaveOk (data example_store)
                     (files example_store)
                     [ ("Default", VList [VDict [("id", VStr "z0")]]);
                       ("Work", VList [VDict [("id", VStr "a1")]; VDict [("id", VStr "b2")];
                                       VDict [("id", VStr "c3")]]);
                       ("Home", VList [VDict [("id", VStr "d4")]]) ]
                     "Work" "b2" [("name", VStr "Office")] eq_refl) _ eq_refl eq_refl)
    as [_ Hfound].
  destruct (Hfound 1%nat (VDict [("id", VStr "b2")]) eq_refl eq_refl
              ltac:(intros [|j] c' Hj Hc'; [injection Hc' as <-; reflexivity | lia]))
    as (s' & l' & old & new & Hrun & Hget & Hold & Hnew & _ & Hother & Hkeep & Htake & _).
  injection Hold as <-.
  exists s', l', new. split; [exact Hrun|]. split; [exact Hget|]. split; [exact Hnew|].
  split; [now rewrite Hother|]. split.
  - apply Htake; [|reflexivity]. unfold dict_wf. refine (bool_decide_unpack _ _).
    vm_compute. exact I.
  - now rewrite Hkeep.
Defined.


(** X4: [deleteConnection] takes out the first connection of the group
    that has the id and nothing else: the connections before it and after
    it follow one another in their order. When no other connection has
    the id, a second [deleteConnection] with it returns false. A group or
    an id that is not there gives false and no change. *)
Theorem deleteConnection_removes_first_match io d f gs g connId :
  dict_get "groups" d = Some (VDict gs) ->
  (dict_mem g gs = false ->
   deleteConnection io g connId {| data := d; files := f |}
     = (Ret false, {| data := d; files := f |})) /\
  (forall l,
     dict_get g gs = Some (VList l) -> forallb is_connection l = true ->
     (id_free connId l ->
      deleteConnection io g connId {| data := d; files := f |}
        = (Ret false, {| data := d; files := f |})) /\
     (forall i c,
        l !! i = Some c -> has_id connId c = true ->
        (forall j c', (j < i)%nat -> l !! j = Some c' -> has_id connId c' = false) ->
        exists s',
          deleteConnection io g connId {| data := d; files := f |} = (Ret true, s') /\
          fst (getConnections g s') = Ret (VList (take i l ++ drop (S i) l)) /\
          (forall h, h <> g ->
             fst (getConnections h s')
               = fst (getConnections h {| data := d; files := f |})) /\
          (id_free connId (drop (S i) l) ->
           forall io', deleteConnection io' g connId s' = (Ret false, s')))).
Proof.
  intros Hg. split.
  - intros Hm. unfold deleteConnection. now mrun.
  - intros l Hl Hwf. split.
    + intros Habs. apply (deleteConnection_absent io d f gs Hg g connId l Hl).
      now apply find_conn_absent.
    + intros i c Hi Hc Hfirst.
      pose proof (find_conn_found connId l 0 i c Hwf Hi Hc Hfirst) as Hfind.
      rewrite Nat.add_0_l in Hfind.
      rewrite (deleteConnection_ok io d f gs Hg g connId l Hl i c Hfind Hi).
      eexists. split; [reflexivity|]. unfold with_connections.
      assert (Hdel : delete i l = take i l ++ drop (S i) l) by apply delete_take_drop.
      rewrite Hdel.
      set (l' := take i l ++ drop (S i) l).
      assert (Hg' : dict_get "groups" (dict_set "groups" (VDict (dict_set g (VList l') gs)) d)
                    = Some (VDict (dict_set g (VList l') gs))) by apply dict_get_set_eq.
      split; [|split].
      * rewrite (getConnections_saved io _ f _ g Hg'). now rewrite dict_get_set_eq.
      * intros h Hh. rewrite (getConnections_saved io _ f _ h Hg').
        rewrite dict_get_set_ne by congruence. now rewrite (getConnections_ok d f gs Hg).
      * intros Hrest io'.
        destruct (saved_shape io (dict_set "groups" (VDict (dict_set g (VList l') gs)) d) f)
          as [f' ->].
        apply (deleteConnection_absent io' _ f' _ Hg' g connId l'
                 (dict_get_set_eq _ _ _)).
        apply find_conn_absent.
        -- unfold l'. rewrite forallb_app. apply andb_true_iff.
           apply forallb_Forall in Hwf.
           split; apply forallb_Forall; [now apply Forall_take | now apply Forall_drop].
        -- intros c' [Hin|Hin]%in_app_or; [|now apply Hrest].
           apply list_elem_of_In, list_elem_of_lookup in Hin as [j Hj].
           apply lookup_take_Some in Hj as [Hj Hlt]. now apply (Hfirst j).
Qed.

Lemma deleteConnection_removes_first_match_witness :
  exists s',
    deleteConnection SaveOk "Work" "b2" example_store = (Ret true, s') /\
    fst (getConnections "Work" s')
      = Ret (VList [VDict [("id", VStr "a1")]; VDict [("id", VStr "c3")]]) /\
    deleteConnection SaveOk "Work" "b2" s' = (Ret false, s').
Proof.
  destruct (proj2 (deleteConnection_removes_first_match SaveOk (data example_store)
                     (files example_store)
                     [ ("Default", VList [VDict [("id", VStr "z0")]]);
                       ("Work", VList [VDict [("id", VStr "a1")]; VDict [("id", VStr "b2")];
                                       VDict [("id", VStr "c3")]]);
                       ("Home", VList [VDict [("id", VStr "d4")]]) ]
                     "Work" "b2" eq_refl) _ eq_refl eq_refl)
    as [_ Hfound].
  destruct (Hfound 1%nat (VDict [("id", VStr "b2")]) eq_refl eq_refl
              ltac:(intros [|j] c' Hj Hc'; [injection Hc' as <-; reflexivity | lia]))
    as (s' & Hrun & Hget & _ & Hagain).
  exists s'. split; [exact Hrun|]. split; [exact Hget|].
  apply Hagain. intros c' [<-|[]]. reflexivity.
Defined.

(** X5: a connection added under an id that no connection of the group
    has is the one [deleteConnection] removes for that id: after the two
    calls the data is what it was before them. *)
Theorem addConnection_then_deleteConnection io1 io2 d f gs newId g l name host key port
    mode sh :
  dict_get "groups" d = Some (VDict gs) ->
  dict_get g gs = Some (VList l) ->
  forallb is_connection l = true ->
  id_free newId l ->
  exists s1 s2,
    addConnection io1 newId g name host key port mode sh {| data := d; files := f |}
      = (Ret (Some newId), s1) /\
    deleteConnection io2 g newId s1 = (Ret true, s2) /\
    data s2 = d.
Proof.
  intros Hg Hl Hwf Hfree.
  rewrite (addConnection_ok io1 d f gs Hg _ _ _ _ _ _ _ _ l Hl).
  fold (new_entry newId name host key port mode sh).
  set (e := new_entry newId name host key port mode sh).
  unfold with_connections.
  destruct (saved_shape io1 (dict_set "groups" (VDict (dict_set g (VList (l ++ [e])) gs)) d) f)
    as [f1 Hs1]. rewrite Hs1.
  eexists _, _. split; [reflexivity|].
  assert (Hg1 : dict_get "groups" (dict_set "groups" (VDict (dict_set g (VList (l ++ [e])) gs)) d)
                = Some (VDict (dict_set g (VList (l ++ [e])) gs))) by apply dict_get_set_eq.
  assert (Hwf1 : forallb is_connection (l ++ [e]) = true)
    by (rewrite forallb_app, Hwf; reflexivity).
  assert (Hfind : find_conn newId (l ++ [e]) 0 = Ret (Some (length l))).
  { apply (find_conn_found newId (l ++ [e]) 0 (length l) e Hwf1).
    - rewrite lookup_app_r by lia. now rewrite Nat.sub_diag.
    - unfold has_id, e. cbn. apply String.eqb_refl.
    - intros j c' Hj Hc'. rewrite lookup_app_l in Hc' by exact Hj.
      apply Hfree. apply list_elem_of_In, list_elem_of_lookup. eauto. }
  rewrite (deleteConnection_ok io2 _ f1 _ Hg1 g newId (l ++ [e])
             (dict_get_set_eq _ _ _) (length l) e Hfind).
  2:{ rewrite lookup_app_r by lia. now rewrite Nat.sub_diag. }
  split; [reflexivity|]. unfold with_connections. rewrite data_saved.
  rewrite !dict_set_set.
  assert (delete (length l) (l ++ [e]) = l) as ->.
  { rewrite delete_take_drop, take_app_length.
    rewrite drop_ge by (rewrite length_app; cbn; lia). apply app_nil_r. }
  rewrite (dict_set_same g (VList l) gs Hl). now apply dict_set_same.
Qed.

Lemma addConnection_then_deleteConnection_witness :
  exists s1 s2,
    addConnection SaveOk "e5" "Home" "Laptop" "example.org" "abc" 6837 "leader" false
      example_store = (Ret (Some "e5"), s1) /\
    deleteConnection SaveOk "Home" "e5" s1 = (Ret true, s2) /\
    data s2 = data example_store.
Proof.
  apply (addConnection_then_deleteConnection SaveOk SaveOk (data example_store)
           (files example_store)
           [ ("Default", VList [VDict [("id", VStr "z0")]]);
             ("Work", VList [VDict [("id", VStr "a1")]; VDict [("id", VStr "b2")];
                             VDict [("id", VStr "c3")]]);
             ("Home", VList [VDict [("id", VStr "d4")]]) ]
           "e5" "Home" [VDict [("id", VStr "d4")]]).
  - reflexivity.
  - reflexivity.
  - reflexivity.
  - intros c [<-|[]]. reflexivity.
Defined.

Lemma exchanged_twice i j l :
  (i < length l)%nat -> (j < length l)%nat -> exchanged j i (exchanged i j l) = l.
Proof.
  intros Hi Hj.
  destruct (lookup_lt_is_Some_2 l i Hi) as [a Ha].
  destruct (lookup_lt_is_Some_2 l j Hj) as [b Hb].
  destruct (exchanged_lookup i j l a b Ha Hb) as (Hlen & Hli & Hlj & Hother).
  destruct (exchanged_lookup j i (exchanged i j l) a b Hlj Hli) as (Hlen' & Hlj' & Hli' & Hother').
  apply list_eq. intros k.
  destruct (decide (k = i)) as [->|Hki]; [congruence|].
  destruct (decide (k = j)) as [->|Hkj]; [congruence|].
  rewrite Hother' by congruence. now apply Hother.
Qed.

(** X6: when one connection only of the group has the id, moving it by
    one place and then by one place the other way puts every connection
    back: after the two calls the data is what it was before them. *)
Theorem moveConnection_there_and_back io1 io2 d f gs g connId l i c direction :
  dict_get "groups" d = Some (VDict gs) ->
  dict_get g gs = Some (VList l) ->
  forallb is_connection l = true ->
  l !! i = Some c ->
  has_id connId c = true ->
  (forall j c', j <> i -> l !! j = Some c' -> has_id connId c' = false) ->
  direction = -1 \/ direction = 1 ->
  0 <= Z.of_nat i + direction < Z.of_nat (length l) ->
  exists s1 s2,
    moveConnection io1 g connId direction {| data := d; files := f |} = (Ret true, s1) /\
    moveConnection io2 g connId (- direction) s1 = (Ret true, s2) /\
    data s2 = d.
Proof.
  intros Hg Hl Hwf Hi Hc Huniq Hdir Hin.
  pose proof (lookup_lt_Some _ _ _ Hi) as Hlt.
  assert (Hfind : find_conn connId l 0 = Ret (Some i)).
  { rewrite <- (Nat.add_0_l i). apply (find_conn_found connId l 0 i c Hwf Hi Hc).
    intros j c' Hj Hc'. apply (Huniq j c'); [lia | exact Hc']. }
  rewrite (moveConnection_ok io1 d f gs Hg g connId l Hl direction i c Hfind Hi Hin).
  set (n := Z.to_nat (Z.of_nat i + direction)).
  assert (Hn : (n < length l)%nat) by lia.
  assert (Hni : n <> i) by lia.
  destruct (lookup_lt_is_Some_2 l n Hn) as [b Hb].
  destruct (exchanged_lookup i n l c b Hi Hb) as (Hlen & Hli & Hln & Hother).
  set (l1 := exchanged i n l) in *.
  unfold with_connections.
  destruct (saved_shape io1 (dict_set "groups" (VDict (dict_set g (VList l1) gs)) d) f)
    as [f1 Hs1]. rewrite Hs1.
  eexists _, _. split; [reflexivity|].
  assert (Hg1 : dict_get "groups" (dict_set "groups" (VDict (dict_set g (VList l1) gs)) d)
                = Some (VDict (dict_set g (VList l1) gs))) by apply dict_get_set_eq.
  assert (Hwf1 : forallb is_connection l1 = true) by now apply exchanged_ok.
  assert (Hfind1 : find_conn connId l1 0 = Ret (Some n)).
  { rewrite <- (Nat.add_0_l n). apply (find_conn_found connId l1 0 n c Hwf1 Hln Hc).
    intros j c' Hj Hc'. destruct (decide (j = i)) as [->|Hji].
    - rewrite Hli in Hc'. injection Hc' as <-. now apply (Huniq n b).
    - rewrite Hother in Hc' by lia. now apply (Huniq j c'). }
  assert (Hback : Z.to_nat (Z.of_nat n + - direction) = i) by lia.
  rewrite (moveConnection_ok io2 _ f1 _ Hg1 g connId l1 (dict_get_set_eq _ _ _)
             (- direction) n c Hfind1 Hln) by lia.
  split; [reflexivity|]. unfold with_connections. rewrite data_saved, Hback.
  rewrite !dict_set_set. unfold l1. rewrite exchanged_twice by assumption.
  rewrite (dict_set_same g (VList l) gs Hl). now apply dict_set_same.
Qed.

Lemma moveConnection_there_and_back_witness :
  exists s1 s2,
    moveConnection SaveOk "Work" "a1" 1 example_store = (Ret true, s1) /\
    moveConnection SaveOk "Work" "a1" (-1) s1 = (Ret true, s2) /\
    data s2 = data example_store.
Proof.
  apply (moveConnection_there_and_back SaveOk SaveOk (data example_store)
           (files example_store)
           [ ("Default", VList [VDict [("id", VStr "z0")]]);
             ("Work", VList [VDict [("id", VStr "a1")]; VDict [("id", VStr "b2")];
                             VDict [("id", VStr "c3")]]);
             ("Home", VList [VDict [("id", VStr "d4")]]) ]
           "Work" "a1"
           [VDict [("id", VStr "a1")]; VDict [("id", VStr "b2")]; VDict [("id", VStr "c3")]]
           0%nat (VDict [("id", VStr "a1")]) 1).
  - reflexivity.
  - reflexivity.
  - reflexivity.
  - reflexivity.
  - reflexivity.
  - intros [|[|[|j]]] c' Hj Hc'; try congruence; try discriminate;
      injection Hc' as <-; reflexivity.
  - right. reflexivity.
  - cbn. lia.
Defined.

(** A call on a well-formed store returns normally, and either leaves the
    store as it is or ends with a save of the new data. *)
Lemma exec_shape io c d f :
  well_formed d = true ->
  exists s',
    exec io c {| data := d; files := f |} = (Ret tt, s') /\
    (s' = {| data := d; files := f |} \/ exists d', s' = saved io d' f).
Proof.
  intros Hwf.
  pose proof Hwf as (a & gs & Ha & Hclose & Hg & Hd & Hok)%well_formed_iff.
  destruct c as [v|g|g|old new|g mv|newId g name host key port mode sh|g cid kw|g cid|g cid dir];
    unfold exec.
  - unfold setCloseOnConnect. mrun. eauto.
  - rewrite (setActiveGroup_ok io d f gs Hg). destruct (dict_mem g gs); eauto.
  - rewrite bind_run, (createGroup_ok io d f gs Hg).
    destruct (dict_mem g gs) eqn:E; mrun; eauto.
  - rewrite bind_run.
    destruct (String.eqb_spec old DEFAULT_GROUP) as [Ho|Ho];
      [|destruct (dict_get old gs) as [x|] eqn:Eo;
        [destruct (dict_mem new gs) eqn:En|]].
    + rewrite (renameGroup_refused io d f gs Hg) by auto. mrun. eauto.
    + rewrite (renameGroup_refused io d f gs Hg) by auto. mrun. eauto.
    + rewrite (renameGroup_ok io d f gs Hg old new a x Ho Eo En Ha). mrun. eauto.
    + rewrite (renameGroup_refused io d f gs Hg).
      * mrun. eauto.
      * right. left. now apply dict_mem_false.
  - rewrite bind_run.
    destruct (String.eqb_spec g DEFAULT_GROUP) as [Ho|Ho];
      [|destruct (dict_get g gs) as [x|] eqn:Eo].
    + rewrite (deleteGroup_refused io d f gs Hg) by auto. mrun. eauto.
    + assert (Hm : dict_mem g gs = true) by (apply dict_mem_get; eauto).
      destruct (is_connection_list_inv x (groups_ok_get gs g x Hok Eo))
        as (items & -> & Hitems).
      apply dict_mem_get in Hd as Hd'. destruct Hd' as [dv Hdv].
      destruct (is_connection_list_inv dv (groups_ok_get gs _ dv Hok Hdv))
        as (dflt & -> & Hdflt).
      destruct mv.
      * rewrite (deleteGroup_move_ok io d f gs Hg g items dflt a Ho Eo Hdv Ha). mrun. eauto.
      * rewrite (deleteGroup_discard_ok io d f gs Hg g a Ho Hm Ha). mrun. eauto.
    + rewrite (deleteGroup_refused io d f gs Hg).
      * mrun. eauto.
      * right. now apply dict_mem_false.
  - rewrite bind_run.
    destruct (dict_get g gs) as [x|] eqn:Eg.
    + destruct (is_connection_list_inv x (groups_ok_get gs g x Hok Eg)) as (l & -> & Hl).
      rewrite (addConnection_ok io d f gs Hg _ _ _ _ _ _ _ _ l Eg). mrun.
      unfold with_connections. eauto.
    + rewrite (addConnection_absent io d f gs Hg) by now apply dict_mem_false.
      mrun. eauto.
  - rewrite bind_run.
    destruct (dict_get g gs) as [x|] eqn:Eg.
    + destruct (is_connection_list_inv x (groups_ok_get gs g x Hok Eg)) as (l & -> & Hl).
      destruct (find_conn_cases cid l Hl) as [[Hf _]|(i & c & Hf & Hi & _)].
      * rewrite (updateConnection_absent io d f gs Hg g cid l Eg kw Hf). mrun. eauto.
      * apply forallb_Forall in Hl as Hl'.
        destruct (is_connection_inv c (Forall_lookup_1 _ _ _ _ Hl' Hi)) as (cd & -> & Hcd).
        rewrite (updateConnection_ok io d f gs Hg g cid l Eg kw i cd Hf Hi). mrun.
        unfold with_connections. eauto.
    + unfold updateConnection. apply dict_mem_false in Eg. mrun. eauto.
  - rewrite bind_run.
    destruct (dict_get g gs) as [x|] eqn:Eg.
    + destruct (is_connection_list_inv x (groups_ok_get gs g x Hok Eg)) as (l & -> & Hl).
      destruct (find_conn_cases cid l Hl) as [[Hf _]|(i & c & Hf & Hi & _)].
      * rewrite (deleteConnection_absent io d f gs Hg g cid l Eg Hf). mrun. eauto.
      * rewrite (deleteConnection_ok io d f gs Hg g cid l Eg i c Hf Hi). mrun.
        unfold with_connections. eauto.
    + unfold deleteConnection. apply dict_mem_false in Eg. mrun. eauto.
  - rewrite bind_run.
    destruct (dict_get g gs) as [x|] eqn:Eg.
    + destruct (is_connection_list_inv x (groups_ok_get gs g x Hok Eg)) as (l & -> & Hl).
      destruct (find_conn_cases cid l Hl) as [[Hf _]|(i & c & Hf & Hi & _)].
      * rewrite (moveConnection_absent io d f gs Hg g cid l Eg dir Hf). mrun. eauto.
      * destruct (Z_lt_ge_dec (Z.of_nat i + dir) 0) as [Hlo|Hlo];
          [|destruct (Z_lt_ge_dec (Z.of_nat i + dir) (Z.of_nat (length l))) as [Hhi|Hhi]].
        -- rewrite (moveConnection_boundary io d f gs Hg g cid l Eg dir i Hf) by lia.
           mrun. eauto.
        -- rewrite (moveConnection_ok io d f gs Hg g cid l Eg dir i c Hf Hi) by lia. mrun.
           unfold with_connections. eauto.
        -- rewrite (moveConnection_boundary io d f gs Hg g cid l Eg dir i Hf) by lia.
           mrun. eauto.
    + unfold moveConnection. apply dict_mem_false in Eg. mrun. eauto.
Qed.

(** A well-formed store with the skeleton's keys, read back from a file
    that holds its data. *)
Lemma init_of_mirror d fs :
  well_formed_like _getDefaultData d ->
  config_file fs = Some (Parsed (DObject d)) ->
  init fs = (Ret tt, {| data := d; files := fs |}).
Proof.
  intros [Hwf Hkeys] Hc. destruct fs as [cfg tmp]. cbn in Hc. subst cfg.
  apply well_formed_iff in Hwf as (a & gs & _ & _ & Hg & Hd & _).
  assert (Hwfd : dict_wf d).
  { unfold dict_wf. rewrite Hkeys. refine (bool_decide_unpack _ _). vm_compute. exact I. }
  assert (Hg' : dict_get "groups" (dict_update _getDefaultData d) = Some (VDict gs))
    by now apply dict_get_update_present.
  unfold init. rewrite (loadConfig_object _getDefaultData tmp d _ Hg'). cbn [contains].
  rewrite Hd. do 2 f_equal.
  destruct d as [|[k1 v1] [|[k2 v2] [|[k3 v3] [|? ?]]]]; try discriminate.
  cbn in Hkeys. injection Hkeys as -> -> ->. reflexivity.
Qed.

(** X7: as long as every save succeeds, the file follows the data: after
    any calls on a store started from the default skeleton, either
    nothing was ever changed or the file holds exactly the data, no
    temporary file is left, and a new [ConnectionManager] over the files
    comes up in the very same state. *)
Theorem file_mirrors_data_when_saves_succeed calls fs :
  all_saved calls ->
  exists s,
    run calls {| data := _getDefaultData; files := fs |} = (Ret tt, s) /\
    (s = {| data := _getDefaultData; files := fs |} \/
     mirrored s /\ init (files s) = (Ret tt, s)).
Proof.
  intros Hall.
  assert (Hgen : forall calls s0,
            all_saved calls ->
            well_formed_like _getDefaultData (data s0) ->
            exists s, run calls s0 = (Ret tt, s) /\
                      well_formed_like _getDefaultData (data s) /\
                      (s = s0 \/ mirrored s)).
  { clear. induction calls as [|[io c] rest IH]; intros s0 Hall Hlike.
    - exists s0. repeat split; auto; apply Hlike.
    - apply Forall_cons in Hall as [Hio Hall]. cbn in Hio. subst io.
      destruct s0 as [d f]. cbn [data] in Hlike.
      destruct (exec_well_formed SaveOk c {| data := d; files := f |} (proj1 Hlike))
        as (s1 & Hs1 & Hwf1 & Hk1).
      destruct (exec_shape SaveOk c d f (proj1 Hlike)) as (s1' & Hs1' & Hshape).
      rewrite Hs1 in Hs1'. injection Hs1' as <-. cbn [data] in Hk1.
      assert (Hlike1 : well_formed_like _getDefaultData (data s1)).
      { split; [exact Hwf1|]. rewrite Hk1. apply Hlike. }
      destruct (IH s1 Hall Hlike1) as (s & Hs & Hlike' & Hor).
      exists s. split; [cbn [run]; now rewrite bind_run, Hs1|].
      split; [exact Hlike'|].
      destruct Hor as [->|Hm]; [|now right].
      destruct Hshape as [->|[d' ->]]; [now left|]. right. now split. }
  destruct (Hgen calls {| data := _getDefaultData; files := fs |} Hall
              (well_formed_like_refl _getDefaultData eq_refl)) as (s & Hs & Hlike & Hor).
  exists s. split; [exact Hs|]. destruct Hor as [->|Hm]; [now left|]. right.
  split; [exact Hm|]. destruct s as [d f]. apply init_of_mirror; [exact Hlike | apply Hm].
Qed.

Lemma file_mirrors_data_when_saves_succeed_witness :
  exists s,
    run [(SaveOk, CreateGroup "Work");
         (SaveOk, AddConnection "a1" "Work" "PC" "example.org" "abc" 6837 "leader" false)]
      {| data := _getDefaultData; files := {| config_file := None; tmp_file := None |} |}
      = (Ret tt, s) /\
    mirrored s /\ init (files s) = (Ret tt, s).
Proof.
  destruct (file_mirrors_data_when_saves_succeed
              [(SaveOk, CreateGroup "Work");
               (SaveOk, AddConnection "a1" "Work" "PC" "example.org" "abc" 6837 "leader"
                          false)]
              {| config_file := None; tmp_file := None |})
    as (s & Hrun & Hor).
  - repeat constructor.
  - exists s. split; [exact Hrun|]. destruct Hor as [->|H]; [discriminate Hrun | exact H].
Defined.




Lemma getActiveGroup_string d f gs a :
  dict_get "groups" d = Some (VDict gs) ->
  dict_get "active_group" d = Some (VStr a) ->
  fst (getActiveGroup {| data := d; files := f |})
    = Ret (VStr (if dict_mem a gs then a else DEFAULT_GROUP)).
Proof.
  intros Hg Ha. rewrite getActiveGroup_fst. cbn [data getitem]. rewrite Ha, Hg.
  cbn. now destruct (dict_mem a gs).
Qed.

(** X9: deleting a group other than "Default" without moving its
    connections returns true and takes the group out with all it holds:
    every other group, "Default" included, keeps its connections, and
    the deleted name answers the empty list afterwards. *)
Theorem deleteGroup_discards_items io d f gs g a :
  dict_get "groups" d = Some (VDict gs) ->
  dict_get "active_group" d = Some a ->
  g <> "Default" ->
  dict_mem g gs = true ->
  exists s',
    deleteGroup io g false {| data := d; files := f |} = (Ret true, s') /\
    fst (getGroups s')
      = Ret (List.filter (fun k => negb (String.eqb k g)) (dict_keys gs)) /\
    fst (getConnections g s') = Ret (VList []) /\
    (forall h, h <> g ->
       fst (getConnections h s') = fst (getConnections h {| data := d; files := f |})) /\
    dict_get "active_group" (data s') = Some (if eq_str a g then VStr "Default" else a).
Proof.
  intros Hg Ha Hne Hm.
  rewrite (deleteGroup_discard_ok io d f gs Hg g a Hne Hm Ha).
  eexists. split; [reflexivity|]. cbv zeta.
  assert (Hg' : dict_get "groups"
            (if eq_str a g
             then dict_set "active_group" (VStr DEFAULT_GROUP)
                    (dict_set "groups" (VDict (dict_del g gs)) d)
             else dict_set "groups" (VDict (dict_del g gs)) d)
          = Some (VDict (dict_del g gs))).
  { destruct (eq_str a g).
    - rewrite dict_get_set_ne by discriminate. apply dict_get_set_eq.
    - apply dict_get_set_eq. }
  split; [|split; [|split]].
  - rewrite (getGroups_saved io _ f _ Hg'). now rewrite dict_keys_del.
  - rewrite (getConnections_saved io _ f _ g Hg'). now rewrite dict_get_del_eq.
  - intros h Hh. rewrite (getConnections_saved io _ f _ h Hg').
    rewrite dict_get_del_ne by congruence. now rewrite (getConnections_ok d f gs Hg).
  - rewrite data_saved. destruct (eq_str a g).
    + apply dict_get_set_eq.
    + rewrite dict_get_set_ne by discriminate. exact Ha.
Qed.

Lemma deleteGroup_discards_items_witness :
  exists s',
    deleteGroup SaveOk "Work" false example_store = (Ret true, s') /\
    fst (getGroups s') = Ret ["Default"; "Home"] /\
    fst (getConnections "Default" s') = Ret (VList [VDict [("id", VStr "z0")]]).
Proof.
  destruct (deleteGroup_discards_items SaveOk (data example_store) (files example_store)
              [ ("Default", VList [VDict [("id", VStr "z0")]]);
                ("Work", VList [VDict [("id", VStr "a1")]; VDict [("id", VStr "b2")];
                                VDict [("id", VStr "c3")]]);
                ("Home", VList [VDict [("id", VStr "d4")]]) ]
              "Work" (VStr "Work") eq_refl eq_refl ltac:(discriminate) eq_refl)
    as (s' & Hrun & Hgroups & _ & Hother & _).
  exists s'. split; [exact Hrun|]. split; [exact Hgroups|].
  rewrite (Hother "Default") by discriminate. reflexivity.
Defined.

(** X10: with "Default" among the groups and a name recorded as active,
    [getActiveGroup] answers that name if it is a group and "Default" if
    it is not, so always a group that exists; [setActiveGroup] with the
    name of a group makes it the answer and leaves the groups alone, and
    with any other name changes nothing. *)
Theorem getActiveGroup_names_a_group d f gs a :
  dict_get "groups" d = Some (VDict gs) ->
  dict_mem "Default" gs = true ->
  dict_get "active_group" d = Some (VStr a) ->
  (exists name,
     fst (getActiveGroup {| data := d; files := f |}) = Ret (VStr name) /\
     In name (dict_keys gs) /\
     name = if dict_mem a gs then a else "Default") /\
  (forall io g,
     dict_mem g gs = false ->
     setActiveGroup io g {| data := d; files := f |} = (Ret tt, {| data := d; files := f |})) /\
  (forall io g,
     dict_mem g gs = true ->
     exists s',
       setActiveGroup io g {| data := d; files := f |} = (Ret tt, s') /\
       fst (getActiveGroup s') = Ret (VStr g) /\
       fst (getGroups s') = fst (getGroups {| data := d; files := f |}) /\
       forall h, fst (getConnections h s')
                 = fst (getConnections h {| data := d; files := f |})).
Proof.
  intros Hg Hd Ha. split; [|split].
  - exists (if dict_mem a gs then a else "Default").
    split; [now apply getActiveGroup_string|]. split; [|reflexivity].
    apply dict_mem_keys. now destruct (dict_mem a gs) eqn:E.
  - intros io g Hm. rewrite (setActiveGroup_ok io d f gs Hg). now rewrite Hm.
  - intros io g Hm. rewrite (setActiveGroup_ok io d f gs Hg), Hm.
    eexists. split; [reflexivity|].
    assert (Hg' : dict_get "groups" (dict_set "active_group" (VStr g) d) = Some (VDict gs))
      by (now rewrite dict_get_set_ne by discriminate).
    destruct (saved_shape io (dict_set "active_group" (VStr g) d) f) as [f' ->].
    split; [|split].
    + rewrite (getActiveGroup_string _ f' gs g Hg' (dict_get_set_eq _ _ _)). now rewrite Hm.
    + now rewrite (getGroups_ok _ f' gs Hg'), (getGroups_ok d f gs Hg).
    + intros h. now rewrite (getConnections_ok _ f' gs Hg'), (getConnections_ok d f gs Hg).
Qed.

Lemma getActiveGroup_names_a_group_witness :
  fst (getActiveGroup
         {| data := [ ("active_group", VStr "Gone"); ("close_on_connect", VBool true);
                      ("groups", VDict [("Default", VList []); ("Work", VList [])]) ];
            files := {| config_file := None; tmp_file := None |} |})
    = Ret (VStr "Default") /\
  exists s',
    setActiveGroup SaveOk "Work"
      {| data := [ ("active_group", VStr "Gone"); ("close_on_connect", VBool true);
                   ("groups", VDict [("Default", VList []); ("Work", VList [])]) ];
         files := {| config_file := None; tmp_file := None |} |} = (Ret tt, s') /\
    fst (getActiveGroup s') = Ret (VStr "Work").
Proof.
  destruct (getActiveGroup_names_a_group
              [ ("active_group", VStr "Gone"); ("close_on_connect", VBool true);
                ("groups", VDict [("Default", VList []); ("Work", VList [])]) ]
              {| config_file := None; tmp_file := None |}
              [("Default", VList []); ("Work", VList [])] "Gone" eq_refl eq_refl eq_refl)
    as ((name & Hget & _ & ->) & _ & Hset).
  split; [exact Hget|].
  destruct (Hset SaveOk "Work" eq_refl) as (s' & Hrun & Hact & _).
  exists s'. split; assumption.
Defined.

(** X11: the active group follows a rename: when the group renamed was
    the active one, [getActiveGroup] answers the new name afterwards, and
    when the active group is another existing group it stays the answer. *)
Theorem renameGroup_keeps_active_group io d f gs a old new x :
  dict_get "groups" d = Some (VDict gs) ->
  dict_get "active_group" d = Some (VStr a) ->
  dict_mem a gs = true ->
  old <> "Default" ->
  dict_get old gs = Some x ->
  dict_mem new gs = false ->
  exists s',
    renameGroup io old new {| data := d; files := f |} = (Ret true, s') /\
    fst (getActiveGroup {| data := d; files := f |}) = Ret (VStr a) /\
    fst (getActiveGroup s') = Ret (VStr (if String.eqb a old then new else a)).
Proof.
  intros Hg Ha Hma Hne Hold Hnew.
  rewrite (renameGroup_ok io d f gs Hg old new (VStr a) x Hne Hold Hnew Ha).
  eexists. split; [reflexivity|]. cbv zeta.
  split; [rewrite (getActiveGroup_string d f gs a Hg Ha); now rewrite Hma|].
  set (gs' := dict_set new x (dict_del old gs)).
  cbn [eq_str].
  destruct (String.eqb_spec a old) as [->|Hao].
  - destruct (saved_shape io (dict_set "active_group" (VStr new)
                               (dict_set "groups" (VDict gs') d)) f) as [f' ->].
    rewrite (getActiveGroup_string _ f' gs' new).
    + unfold gs'. now rewrite dict_mem_set, String.eqb_refl.
    + rewrite dict_get_set_ne by discriminate. apply dict_get_set_eq.
    + apply dict_get_set_eq.
  - destruct (saved_shape io (dict_set "groups" (VDict gs') d) f) as [f' ->].
    rewrite (getActiveGroup_string _ f' gs' a).
    + unfold gs'. rewrite dict_mem_set, dict_mem_del, Hma.
      destruct (String.eqb_spec old a); [congruence|]. now rewrite orb_true_r.
    + apply dict_get_set_eq.
    + now rewrite dict_get_set_ne by discriminate.
Qed.

Lemma renameGroup_keeps_active_group_witness :
  exists s',
    renameGroup SaveOk "Work" "Job" example_store = (Ret true, s') /\
    fst (getActiveGroup example_store) = Ret (VStr "Work") /\
    fst (getActiveGroup s') = Ret (VStr "Job").
Proof.
  apply (renameGroup_keeps_active_group SaveOk (data example_store) (files example_store)
           [ ("Default", VList [VDict [("id", VStr "z0")]]);
             ("Work", VList [VDict [("id", VStr "a1")]; VDict [("id", VStr "b2")];
                             VDict [("id", VStr "c3")]]);
             ("Home", VList [VDict [("id", VStr "d4")]]) ]
           "Work" "Work" "Job"
           (VList [VDict [("id", VStr "a1")]; VDict [("id", VStr "b2")];
                   VDict [("id", VStr "c3")]])).
  - reflexivity.
  - reflexivity.
  - reflexivity.
  - discriminate.
  - reflexivity.
  - reflexivity.
Defined.


Lemma dict_del_fresh {A} k (d : dict A) : dict_mem k d = false -> dict_del k d = d.
Proof.
  unfold dict_mem, dict_del. induction d as [|[k' v'] r IH]; simpl; [reflexivity|].
  destruct (String.eqb_spec k' k) as [->|Hne]; [discriminate|].
  intros H. simpl. now rewrite IH.
Qed.

Lemma dict_del_set_eq {A} k (v : A) d : dict_del k (dict_set k v d) = dict_del k d.
Proof.
  unfold dict_del. induction d as [|[k' v'] r IH]; simpl.
  - now rewrite String.eqb_refl.
  - destruct (String.eqb_spec k' k) as [->|Hne]; simpl.
    + now rewrite String.eqb_refl.
    + destruct (String.eqb_spec k' k); [congruence|]. simpl. now rewrite IH.
Qed.

Lemma dict_del_set_ne {A} k k' (v : A) d :
  k <> k' -> dict_del k (dict_set k' v d) = dict_set k' v (dict_del k d).
Proof.
  intros Hne. unfold dict_del. induction d as [|[k0 v0] r IH]; simpl.
  - destruct (String.eqb_spec k' k); [congruence|reflexivity].
  - destruct (String.eqb_spec k0 k') as [->|Hk0]; simpl.
    + destruct (String.eqb_spec k' k); [congruence|]. simpl. now rewrite String.eqb_refl.
    + destruct (String.eqb_spec k0 k); simpl; [exact IH|].
      destruct (String.eqb_spec k0 k'); [congruence|]. now rewrite IH.
Qed.

Lemma all_connections_split gs k v :
  dict_wf gs -> dict_get k gs = Some v ->
  all_connections gs ≡ₚ connections_of v ++ all_connections (dict_del k gs).
Proof.
  unfold dict_wf, dict_keys, all_connections.
  induction gs as [|[k' v'] r IH]; intros Hwf Hk; [discriminate|].
  apply NoDup_cons in Hwf as [Hnotin Hwf]. cbn in Hk |- *.
  destruct (String.eqb_spec k' k) as [->|Hne]; cbn.
  - injection Hk as ->.
    fold (dict_del k r). rewrite dict_del_fresh; [reflexivity|].
    destruct (dict_mem k r) eqn:E; [|reflexivity]. exfalso. apply Hnotin.
    apply list_elem_of_In. now apply dict_mem_keys in E.
  - rewrite (IH Hwf Hk). fold (dict_del k r).
    rewrite !app_assoc. apply Permutation_app_tail, Permutation_app_comm.
Qed.

Lemma all_connections_set gs k v v' :
  dict_wf gs -> dict_get k gs = Some v ->
  all_connections (dict_set k v' gs) ≡ₚ connections_of v' ++ all_connections (dict_del k gs).
Proof.
  intros Hwf Hk.
  rewrite (all_connections_split (dict_set k v' gs) k v').
  - now rewrite dict_del_set_eq.
  - now apply dict_wf_set.
  - apply dict_get_set_eq.
Qed.

Lemma all_connections_append gs k v :
  all_connections (gs ++ [(k, v)]) = all_connections gs ++ connections_of v.
Proof. unfold all_connections. rewrite flat_map_app. cbn. now rewrite app_nil_r. Qed.

(** X12: no connection is lost or made up by the calls that only arrange
    things (creating, renaming and deleting groups with their connections
    moved to "Default", moving a connection, choosing the active group,
    setting the preference): after any number of them the store holds
    the connections it held before, as a rearrangement. *)
Theorem regrouping_keeps_every_connection calls s :
  well_formed (data s) = true ->
  groups_wf s ->
  Forall (fun p => regroups (snd p) = true) calls ->
  exists s',
    run calls s = (Ret tt, s') /\
    stored_connections s' ≡ₚ stored_connections s /\
    groups_wf s'.
Proof.
  revert s. induction calls as [|[io c] rest IH]; intros s Hwf Hgwf Hall.
  - exists s. split; [reflexivity|]. split; [reflexivity | exact Hgwf].
  - apply Forall_cons in Hall as [Hc Hall]. cbn [snd] in Hc.
    assert (Hstep : exists s1, exec io c s = (Ret tt, s1) /\
              well_formed (data s1) = true /\
              stored_connections s1 ≡ₚ stored_connections s /\ groups_wf s1).
    { destruct s as [d f]. cbn [data] in Hwf.
      destruct Hgwf as (gs & Hg & Hgs). cbn [data] in Hg.
      pose proof Hwf as (a & gs0 & Ha & Hclose & Hg0 & Hd & Hok)%well_formed_iff.
      rewrite Hg in Hg0. injection Hg0 as <-.
      destruct (exec_well_formed io c {| data := d; files := f |} Hwf)
        as (s1 & Hs1 & Hwf1 & _).
      exists s1. split; [exact Hs1|]. split; [exact Hwf1|].
      assert (Hsame : stored_connections {| data := d; files := f |} ≡ₚ
                      stored_connections {| data := d; files := f |} /\
                      groups_wf {| data := d; files := f |}).
      { split; [reflexivity|]. exists gs. now split. }
      assert (Hset : forall io' gs' d0,
                dict_get "groups" d0 = Some (VDict gs') ->
                all_connections gs' ≡ₚ all_connections gs -> dict_wf gs' ->
                stored_connections (saved io' d0 f) ≡ₚ
                  stored_connections {| data := d; files := f |} /\
                groups_wf (saved io' d0 f)).
      { intros io' gs' d0 Hg' Hperm Hwf'.
        unfold stored_connections, groups_wf. rewrite data_saved. cbn [data].
        rewrite Hg', Hg. split; [exact Hperm|]. exists gs'. now split. }
      destruct c as [v|g|g|old new|g mv| | | |g cid dir]; try discriminate Hc;
        unfold exec in Hs1.
      - (* setCloseOnConnect *)
        unfold setCloseOnConnect in Hs1. revert Hs1. mrun. intros [= <-].
        apply (Hset io gs); [|reflexivity|exact Hgs].
        now rewrite dict_get_set_ne by discriminate.
      - (* setActiveGroup *)
        rewrite (setActiveGroup_ok io d f gs Hg) in Hs1. injection Hs1 as <-.
        destruct (dict_mem g gs); [|exact Hsame].
        apply (Hset io gs); [|reflexivity|exact Hgs].
        now rewrite dict_get_set_ne by discriminate.
      - (* createGroup *)
        rewrite bind_run, (createGroup_ok io d f gs Hg) in Hs1.
        destruct (dict_mem g gs) eqn:E; revert Hs1; mrun; intros [= <-]; [exact Hsame|].
        apply (Hset io (dict_set g (VList []) gs));
          [apply dict_get_set_eq | | now apply dict_wf_set].
        rewrite dict_set_fresh by exact E. rewrite all_connections_append.
        cbn. now rewrite app_nil_r.
      - (* renameGroup *)
        rewrite bind_run in Hs1.
        destruct (String.eqb_spec old DEFAULT_GROUP) as [Ho|Ho];
          [|destruct (dict_get old gs) as [x|] eqn:Eo;
            [destruct (dict_mem new gs) eqn:En|]].
        + rewrite (renameGroup_refused io d f gs Hg) in Hs1 by auto.
          revert Hs1. mrun. now intros [= <-].
        + rewrite (renameGroup_refused io d f gs Hg) in Hs1 by auto.
          revert Hs1. mrun. now intros [= <-].
        + rewrite (renameGroup_ok io d f gs Hg old new a x Ho Eo En Ha) in Hs1.
          revert Hs1. mrun. intros [= <-]. cbv zeta.
          apply (Hset io (dict_set new x (dict_del old gs))).
          * destruct (eq_str a old).
            -- rewrite dict_get_set_ne by discriminate. apply dict_get_set_eq.
            -- apply dict_get_set_eq.
          * rewrite dict_set_fresh by (now rewrite dict_mem_del, En, andb_false_r).
            rewrite all_connections_append, (all_connections_split gs old x Hgs Eo).
            apply Permutation_app_comm.
          * now apply dict_wf_set, dict_wf_del.
        + rewrite (renameGroup_refused io d f gs Hg) in Hs1.
          * revert Hs1. mrun. now intros [= <-].
          * right. left. now apply dict_mem_false.
      - (* deleteGroup, moving the items *)
        destruct mv; [|discriminate Hc]. rewrite bind_run in Hs1.
        destruct (String.eqb_spec g DEFAULT_GROUP) as [Ho|Ho];
          [|destruct (dict_get g gs) as [x|] eqn:Eo].
        + rewrite (deleteGroup_refused io d f gs Hg) in Hs1 by auto.
          revert Hs1. mrun. now intros [= <-].
        + destruct (is_connection_list_inv x (groups_ok_get gs g x Hok Eo))
            as (items & -> & Hitems).
          apply dict_mem_get in Hd as Hd'. destruct Hd' as [dv Hdv].
          destruct (is_connection_list_inv dv (groups_ok_get gs _ dv Hok Hdv))
            as (dflt & -> & Hdflt).
          rewrite (deleteGroup_move_ok io d f gs Hg g items dflt a Ho Eo Hdv Ha) in Hs1.
          revert Hs1. mrun. intros [= <-]. cbv zeta.
          apply (Hset io (dict_del g (dict_set DEFAULT_GROUP (VList (dflt ++ items)) gs))).
          * destruct (eq_str a g).
            -- rewrite dict_get_set_ne by discriminate. apply dict_get_set_eq.
            -- apply dict_get_set_eq.
          * rewrite dict_del_set_ne by exact Ho.
            assert (Hdg : dict_get DEFAULT_GROUP (dict_del g gs) = Some (VList dflt))
              by (rewrite dict_get_del_ne by exact Ho; exact Hdv).
            rewrite (all_connections_set (dict_del g gs) DEFAULT_GROUP (VList dflt)
                       (VList (dflt ++ items)) (dict_wf_del _ _ Hgs) Hdg).
            rewrite (all_connections_split gs g (VList items) Hgs Eo).
            rewrite (all_connections_split (dict_del g gs) DEFAULT_GROUP (VList dflt)
                       (dict_wf_del _ _ Hgs) Hdg).
            cbn [connections_of]. rewrite <- app_assoc.
            rewrite !app_assoc. apply Permutation_app_tail, Permutation_app_comm.
          * now apply dict_wf_del, dict_wf_set.
        + rewrite (deleteGroup_refused io d f gs Hg) in Hs1.
          * revert Hs1. mrun. now intros [= <-].
          * right. now apply dict_mem_false.
      - (* moveConnection *)
        rewrite bind_run in Hs1.
        destruct (dict_get g gs) as [x|] eqn:Eg.
        + destruct (is_connection_list_inv x (groups_ok_get gs g x Hok Eg))
            as (l & -> & Hl).
          destruct (find_conn_cases cid l Hl) as [[Hf _]|(i & c & Hf & Hi & _)].
          * rewrite (moveConnection_absent io d f gs Hg g cid l Eg dir Hf) in Hs1.
            revert Hs1. mrun. now intros [= <-].
          * destruct (Z_lt_ge_dec (Z.of_nat i + dir) 0) as [Hlo|Hlo];
              [|destruct (Z_lt_ge_dec (Z.of_nat i + dir) (Z.of_nat (length l)))
                  as [Hhi|Hhi]].
            -- rewrite (moveConnection_boundary io d f gs Hg g cid l Eg dir i Hf) in Hs1
                 by lia.
               revert Hs1. mrun. now intros [= <-].
            -- rewrite (moveConnection_ok io d f gs Hg g cid l Eg dir i c Hf Hi) in Hs1
                 by lia.
               revert Hs1. mrun. intros [= <-]. unfold with_connections.
               set (n := Z.to_nat (Z.of_nat i + dir)).
               apply (Hset io (dict_set g (VList (exchanged i n l)) gs));
                 [apply dict_get_set_eq | | now apply dict_wf_set].
               rewrite (all_connections_set gs g (VList l) _ Hgs Eg).
               rewrite (all_connections_split gs g (VList l) Hgs Eg).
               cbn [connections_of]. apply Permutation_app_tail.
               unfold exchanged. rewrite Hi.
               destruct (l !! n) as [b|] eqn:Eb; [|reflexivity].
               now apply Permutation_insert_swap.
            -- rewrite (moveConnection_boundary io d f gs Hg g cid l Eg dir i Hf) in Hs1
                 by lia.
               revert Hs1. mrun. now intros [= <-].
        + unfold moveConnection in Hs1. apply dict_mem_false in Eg.
          revert Hs1. mrun. now intros [= <-]. }
    destruct Hstep as (s1 & Hs1 & Hwf1 & Hperm1 & Hgwf1).
    destruct (IH s1 Hwf1 Hgwf1 Hall) as (s' & Hs' & Hperm & Hgwf').
    exists s'. split; [cbn [run]; now rewrite bind_run, Hs1|].
    split; [now rewrite Hperm|exact Hgwf'].
Qed.

Lemma regrouping_keeps_every_connection_witness :
  exists s',
    run [(SaveOk, RenameGroup "Home" "Family"); (SaveOk, DeleteGroup "Work" true);
         (SaveOk, MoveConnection "Default" "a1" (-1))] example_store = (Ret tt, s') /\
    stored_connections s' ≡ₚ
      [VDict [("id", VStr "z0")]; VDict [("id", VStr "a1")]; VDict [("id", VStr "b2")];
       VDict [("id", VStr "c3")]; VDict [("id", VStr "d4")]].
Proof.
  destruct (regrouping_keeps_every_connection
              [(SaveOk, RenameGroup "Home" "Family"); (SaveOk, DeleteGroup "Work" true);
               (SaveOk, MoveConnection "Default" "a1" (-1))] example_store)
    as (s' & Hrun & Hperm & _).
  - reflexivity.
  - eexists. split; [reflexivity|]. unfold dict_wf.
    refine (bool_decide_unpack _ _). vm_compute. exact I.
  - repeat constructor.
  - exists s'. split; [exact Hrun | exact Hperm].
Defined.

End StoreExtras.

(** ** Further properties of the service's actions and of the handlers *)

Module ActionExtras.
Import Py RemoteService Examples DictFacts StoreFacts Actions.

Lemma client_calls_app a b :
  client_calls (a ++ b) = client_calls a ++ client_calls b.
Proof. unfold client_calls. now rewrite flat_map_app. Qed.

Lemma eqb_empty s : String.eqb s "" = false <-> s <> "".
Proof. rewrite <- String.eqb_eq. destruct (String.eqb s ""); split; congruence. Qed.

Lemma truthy_str s : truthy (AStr s) = true <-> s <> "".
Proof. cbn [truthy]. rewrite negb_true_iff. apply eqb_empty. Qed.

(** X13: [isAutoConnectConfigured] is truthy exactly when the record has
    auto-connect switched on, a key that is not empty, and a host that is
    not empty or the self-hosted flag set; it is then also enabled.  The
    answer itself need not be a boolean: with a host it is the host
    string. *)
Theorem isAutoConnectConfigured_truthy_iff h :
  (truthy (isAutoConnectConfigured h) = true <->
   exists conf,
     getControlServerConfig h = Some conf /\
     cs_autoconnect conf = Some true /\
     (exists k, cs_key conf = Some k /\ k <> "") /\
     ((exists a, cs_host conf = Some a /\ a <> "") \/ cs_selfHosted conf = Some true)) /\
  (truthy (isAutoConnectConfigured h) = true -> isAutoConnectEnabled h = true) /\
  (forall conf k a,
     getControlServerConfig h = Some conf ->
     cs_autoconnect conf = Some true ->
     cs_key conf = Some k -> k <> "" ->
     cs_host conf = Some a -> a <> "" ->
     isAutoConnectConfigured h = AStr a).
Proof.
  unfold isAutoConnectConfigured, isAutoConnectEnabled, getControlServerConfig.
  split; [|split].
  - destruct (controlServer h) as [conf|];
      [|split; [discriminate|]; intros (? & ? & _); discriminate].
    split.
    + intros H. exists conf. split; [reflexivity|].
      destruct conf as [[[]|] [[]|] [n|] [[|c a]|] [p|] [[|c' k]|]];
        cbn in H; try discriminate H; cbn;
        (split; [reflexivity|]);
        (split; [eexists; split; [reflexivity|discriminate]|]);
        first [right; reflexivity | left; eexists; split; [reflexivity|discriminate]].
    + intros (c & [= <-] & Ha & (k & Hk & Hk') & Hh).
      destruct conf as [au sh cm ho po ke]; cbn in Ha, Hk, Hh. subst au ke.
      destruct k as [|c' k]; [congruence|].
      destruct Hh as [(a & -> & Ha)| ->].
      * destruct a as [|c a]; [congruence|]. reflexivity.
      * now destruct ho as [[|c a]|].
  - destruct (controlServer h) as [conf|]; [|discriminate].
    destruct (conf_truthy (Some conf)); cbn [negb]; [|discriminate].
    now destruct (cs_autoconnect conf) as [[]|].
  - intros conf k a -> Hau Hk Hk' Ha Ha'.
    destruct conf as [au sh cm ho po ke]; cbn in Hau, Hk, Ha. subst au ke ho.
    destruct k as [|c' k]; [congruence|]. destruct a as [|c a]; [congruence|].
    reflexivity.
Qed.

Lemma configured_value h c k b :
  controlServer h = Some c ->
  cs_autoconnect c = Some true -> cs_key c = Some k -> cs_selfHosted c = Some b ->
  truthy (isAutoConnectConfigured h) =
    negb (String.eqb k "") &&
    (match cs_host c with Some a => negb (String.eqb a "") | None => false end || b).
Proof.
  unfold isAutoConnectConfigured, getControlServerConfig. intros ->.
  destruct c as [au sh cm ho po ke]. cbn. intros -> -> ->.
  now destruct k, ho as [[]|], b.
Qed.

Lemma format_host_port_not_empty a p : String.eqb (format_host_port a p) "" = false.
Proof. unfold format_host_port. now destruct a. Qed.

(** X14: once [setAsAutoConnect] has returned, auto-connect is enabled;
    the record counts as configured exactly when the connection's key is
    not empty and the connection is self-hosted, or has a port other than
    6837, or a host that is not empty. *)
Theorem setAsAutoConnect_makes_configured conn h h' :
  setAsAutoConnect conn h = (Ret tt, h') ->
  isAutoConnectEnabled h' = true /\
  exists k p,
    conn_key conn = Some k /\ conn_port conn = Some p /\
    (truthy (isAutoConnectConfigured h') = true <->
     k <> "" /\
     (get_or (conn_selfHosted conn) false = true \/ p <> 6837 \/
      conn_host conn <> Some "")).
Proof.
  unfold setAsAutoConnect. destruct (controlServer h) as [sec|]; [|discriminate].
  destruct (write_autoconnect conn sec) as [r sec'] eqn:W. intros [= -> <-].
  destruct conn as [ho [k|] [p|] [m|] sh], sec as [au0 sh0 cm0 ho0 po0 ke0];
    try (destruct sh as [[]|], ho; discriminate W).
  unfold write_autoconnect in W.
  assert (Hne : forall s : string, negb (String.eqb s "") = true <-> s <> "").
  { intros s. rewrite negb_true_iff. apply eqb_empty. }
  destruct sh as [[]|]; cbn in W.
  - injection W as <-. split; [reflexivity|]. exists k, p.
    split; [reflexivity|split; [reflexivity|]].
    erewrite configured_value with (k := k) (b := true); [|reflexivity..].
    rewrite orb_true_r, andb_true_r, Hne. cbn. intuition.
  - destruct ho as [a|]; [|discriminate W]. cbn in W. injection W as <-.
    split; [reflexivity|]. exists k, p.
    split; [reflexivity|split; [reflexivity|]].
    erewrite configured_value with (k := k) (b := false); [|reflexivity..].
    cbn [cs_host set_host get_or conn_selfHosted conn_host].
    rewrite orb_false_r, andb_true_iff, Hne.
    destruct (p =? 6837) eqn:Ep; cbn [negb].
    + rewrite Hne. apply Z.eqb_eq in Ep. intuition congruence.
    + rewrite format_host_port_not_empty. apply Z.eqb_neq in Ep. cbn. intuition.
  - destruct ho as [a|]; [|discriminate W]. cbn in W. injection W as <-.
    split; [reflexivity|]. exists k, p.
    split; [reflexivity|split; [reflexivity|]].
    erewrite configured_value with (k := k) (b := false); [|reflexivity..].
    cbn [cs_host set_host get_or conn_selfHosted conn_host].
    rewrite orb_false_r, andb_true_iff, Hne.
    destruct (p =? 6837) eqn:Ep; cbn [negb].
    + rewrite Hne. apply Z.eqb_eq in Ep. intuition congruence.
    + rewrite format_host_port_not_empty. apply Z.eqb_neq in Ep. cbn. intuition.
Qed.

Lemma setAsAutoConnect_makes_configured_witness :
  isAutoConnectEnabled
    (snd (setAsAutoConnect sample_connection (sample_host 7000))) = true /\
  truthy (isAutoConnectConfigured
            (snd (setAsAutoConnect sample_connection (sample_host 7000)))) = true.
Proof.
  destruct (setAsAutoConnect_makes_configured sample_connection (sample_host 7000)
              (snd (setAsAutoConnect sample_connection (sample_host 7000)))
              eq_refl) as (He & k & p & Hk & Hp & Hiff).
  split; [exact He|]. apply Hiff.
  injection Hk as <-. split; [discriminate|]. right; left. injection Hp as <-. lia.
Defined.

Lemma conf_truthy_key c k : cs_key c = Some k -> conf_truthy (Some c) = true.
Proof. destruct c as [[] [] [] [] [] []]; cbn; congruence. Qed.

Lemma getClient_running h client :
  getClient h = Some client -> remoteRunning h = true /\ _remoteClient h = Some client.
Proof. unfold getClient, isRunning. destruct (remoteRunning h); [auto|discriminate]. Qed.

Section Calls.
Variable addressToHostPort : string -> option (string * Z).
Variable react : client_call -> RemoteClient -> res unit * RemoteClient.

Lemma on_client_run c w client :
  getClient (remote w) = Some client ->
  on_client react c w = (fst (react c client), after_call react c client w).
Proof.
  intros H. unfold on_client, after_call. rewrite H. now destruct (react c client).
Qed.

Lemma on_client_idle c w :
  getClient (remote w) = None -> on_client react c w = (Ret tt, w).
Proof. intros H. unfold on_client. now rewrite H. Qed.

Lemma getClient_after c w client :
  getClient (remote w) = Some client ->
  getClient (remote (after_call react c client w)) = Some (snd (react c client)).
Proof.
  intros H. apply getClient_running in H as [H _].
  unfold getClient, isRunning. cbn. now rewrite H.
Qed.

(** A call on the client adds at most that call to the record and leaves
    the configuration alone. *)
Lemma on_client_trace c w :
  (trace (snd (on_client react c w)) = trace w \/
   trace (snd (on_client react c w)) = trace w ++ [Called c]) /\
  controlServer (remote (snd (on_client react c w))) = controlServer (remote w) /\
  remoteRunning (remote (snd (on_client react c w))) = remoteRunning (remote w) /\
  ui_conf (snd (on_client react c w)) = ui_conf w.
Proof.
  unfold on_client. destruct (getClient (remote w)); [|auto].
  destruct (react c r). cbn. auto.
Qed.

Lemma performAutoConnect_run w client conf hn p k m :
  client_returns react ->
  getClient (remote w) = Some client ->
  getControlServerConfig (remote w) = Some conf ->
  auto_connect_target addressToHostPort conf = Some (hn, p, k, m) ->
  let local := get_or (cs_selfHosted conf) false in
  let info := {| hostname := hn; mode := m; key := k; port := p;
                 insecure := local |} in
  performAutoConnect addressToHostPort react w =
    (Ret tt,
     if local
     then after_call react (client_connect info)
            (snd (react (client_startControlServer p k) client))
            (after_call react (client_startControlServer p k) client w)
     else after_call react (client_connect info) client w).
Proof.
  intros Hret Hc Hconf Ht. unfold performAutoConnect. rewrite Hconf.
  unfold auto_connect_target in Ht.
  destruct (cs_key conf) as [k'|] eqn:Hk.
  2:{ destruct (if get_or (cs_selfHosted conf) false then _ else _) as [[]|];
        discriminate. }
  rewrite (conf_truthy_key _ _ Hk). cbn [negb]. mrun. cbn [subscript].
  destruct (get_or (cs_selfHosted conf) false) eqn:Hsh.
  - destruct (cs_connectionMode conf) as [n|] eqn:Hn; [|discriminate].
    destruct (toConnectionMode n) as [m'|] eqn:Hm; [|discriminate].
    injection Ht as <- <- <- <-.
    unfold startLocalServer, connect. mrun.
    rewrite (on_client_run _ _ _ Hc), Hret. mrun. cbn [subscript]. mrun.
    now rewrite (on_client_run _ _ _ (getClient_after _ _ _ Hc)), Hret.
  - destruct (cs_host conf) as [a|] eqn:Ha; [|discriminate]. mrun. cbn [subscript].
    destruct (addressToHostPort a) as [[hn' p']|] eqn:Hp; [|discriminate].
    destruct (cs_connectionMode conf) as [n|] eqn:Hn; [|discriminate].
    destruct (toConnectionMode n) as [m'|] eqn:Hm; [|discriminate].
    injection Ht as <- <- <- <-.
    unfold connect. mrun. cbn [subscript]. mrun.
    now rewrite (on_client_run _ _ _ Hc), Hret.
Qed.

(** X15: with a running client whose methods return, [performAutoConnect]
    on a record that stands for a connection asks the client for exactly
    that connection: host, port, key and mode of the record's target,
    insecure exactly for a self-hosted record, after starting the local
    server on the same port and key when the record is self-hosted.
    [_performConnectToDefault] does the same, and nothing more, when the
    client is not connected and the record counts as configured. *)
Theorem performAutoConnect_connects_to_target blocking w client conf hn p k m :
  client_returns react ->
  getClient (remote w) = Some client ->
  getControlServerConfig (remote w) = Some conf ->
  auto_connect_target addressToHostPort conf = Some (hn, p, k, m) ->
  exists w',
    performAutoConnect addressToHostPort react w = (Ret tt, w') /\
    trace w' =
      trace w ++
      (if get_or (cs_selfHosted conf) false
       then [Called (client_startControlServer p k)] else []) ++
      [Called (client_connect
                 {| hostname := hn; mode := m; key := k; port := p;
                    insecure := get_or (cs_selfHosted conf) false |})] /\
    controlServer (remote w') = controlServer (remote w) /\
    (client_isConnected client = false ->
     truthy (isAutoConnectConfigured (remote w)) = true ->
     _performConnectToDefault addressToHostPort react blocking w = (Done tt, w')).
Proof.
  intros Hret Hc Hconf Ht.
  pose proof (performAutoConnect_run _ _ _ _ _ _ _ Hret Hc Hconf Ht) as E.
  cbv zeta in E. eexists. split; [exact E|].
  split; [|split].
  - destruct (get_or (cs_selfHosted conf) false); cbn [trace after_call];
      [rewrite <- app_assoc|]; reflexivity.
  - now destruct (get_or (cs_selfHosted conf) false).
  - intros Hidle Hcfg. destruct (getClient_running _ _ Hc) as [Hrun Hcl].
    unfold _performConnectToDefault, isConnected, isRunning, service.
    now rewrite Hrun, Hcfg, Hcl, Hidle, E.
Qed.

Ltac in_events H :=
  cbn in H;
  repeat match type of H with
         | _ \/ _ => destruct H as [H|H]
         | False => destruct H
         | _ = _ => first [discriminate H | injection H as <-]
         end.

Ltac settle :=
  cbn; rewrite ?app_nil_r, <- ?app_assoc;
  repeat split; try discriminate;
  try (let H := fresh in intros ? H; in_events H; fail).

(** X16: whatever the record and the client, [performAutoConnect] never
    asks the client to disconnect, and a connection it asks for is the
    one the record stands for, insecure exactly for a self-hosted
    record; without a running client it makes no call at all. *)
Theorem performAutoConnect_connects_only_to_target w :
  exists evs,
    trace (snd (performAutoConnect addressToHostPort react w)) = trace w ++ evs /\
    (forall s, ~ In (Called (client_disconnect s)) evs) /\
    (forall info, In (Called (client_connect info)) evs ->
       exists conf,
         getControlServerConfig (remote w) = Some conf /\
         auto_connect_target addressToHostPort conf =
           Some (hostname info, port info, key info, mode info) /\
         insecure info = get_or (cs_selfHosted conf) false) /\
    (getClient (remote w) = None -> client_calls evs = []).
Proof.
  unfold performAutoConnect.
  destruct (getControlServerConfig (remote w)) as [conf|] eqn:Hconf;
    [|exists []; settle].
  destruct (conf_truthy (Some conf)); cbn [negb]; [|exists []; settle].
  mrun. destruct (cs_key conf) as [k|] eqn:Hk; cbn [subscript];
    [|exists []; settle].
  destruct (get_or (cs_selfHosted conf) false) eqn:Hsh.
  - unfold startLocalServer, connect. mrun.
    destruct (getClient (remote w)) as [client|] eqn:Hc.
    + rewrite (on_client_run _ _ _ Hc).
      destruct (fst (react _ client)) as [[]|e]; [|eexists [_]; settle].
      mrun. destruct (cs_connectionMode conf) as [n|] eqn:Hn; cbn [subscript];
        [|eexists [_]; settle].
      mrun. destruct (toConnectionMode n) as [m|] eqn:Hm; [|eexists [_]; settle].
      mrun. rewrite (on_client_run _ _ _ (getClient_after _ _ _ Hc)).
      eexists [_; _]. settle.
      intros info H; in_events H. exists conf.
      unfold auto_connect_target. rewrite Hk, Hsh, Hn, Hm. auto.
    + rewrite (on_client_idle _ _ Hc). mrun.
      exists []. destruct (cs_connectionMode conf) as [n|]; cbn [subscript];
        [|settle].
      mrun. destruct (toConnectionMode n); [|settle].
      rewrite (on_client_idle _ _ Hc). settle.
  - mrun. destruct (cs_host conf) as [a|] eqn:Ha; cbn [subscript];
      [|exists []; settle].
    mrun. destruct (addressToHostPort a) as [[hn p]|] eqn:Hp;
      [|eexists [_]; settle].
    unfold connect. mrun.
    destruct (cs_connectionMode conf) as [n|] eqn:Hn; cbn [subscript];
      [|exists []; settle].
    mrun. destruct (toConnectionMode n) as [m|] eqn:Hm; [|exists []; settle].
    destruct (getClient (remote w)) as [client|] eqn:Hc.
    + rewrite (on_client_run _ _ _ Hc). eexists [_]. settle.
      intros info H; in_events H. exists conf.
      unfold auto_connect_target. rewrite Hk, Hsh, Ha, Hp, Hn, Hm. auto.
    + rewrite (on_client_idle _ _ Hc). exists []; settle.
Qed.

(** X17: [performAutoConnect] on a self-hosted record starts the local
    server before it reads the record's mode: when the mode is missing
    or is not a member of the enumeration, the server has been started,
    an exception is raised and no connection is asked for. *)
Theorem performAutoConnect_starts_server_before_reading_mode w client conf k :
  client_returns react ->
  getClient (remote w) = Some client ->
  getControlServerConfig (remote w) = Some conf ->
  get_or (cs_selfHosted conf) false = true ->
  cs_key conf = Some k ->
  (cs_connectionMode conf = None \/
   exists n, cs_connectionMode conf = Some n /\ n <> 0 /\ n <> 1) ->
  exists e w',
    performAutoConnect addressToHostPort react w = (Raise e, w') /\
    (e = KeyError \/ e = ValueError) /\
    trace w' =
      trace w ++ [Called (client_startControlServer (get_or (cs_port conf) 6837) k)].
Proof.
  intros Hret Hc Hconf Hsh Hk Hmode. unfold performAutoConnect.
  rewrite Hconf, (conf_truthy_key _ _ Hk). cbn [negb]. mrun. cbn [subscript].
  unfold startLocalServer. mrun. rewrite (on_client_run _ _ _ Hc), Hret. mrun.
  destruct Hmode as [-> | (n & -> & H0 & H1)]; cbn [subscript]; mrun.
  - eexists _, _. split; [reflexivity|]. auto.
  - unfold toConnectionMode.
    destruct (Z.eqb_spec n 1); [contradiction|].
    destruct (Z.eqb_spec n 0); [contradiction|].
    eexists _, _. split; [reflexivity|]. auto.
Qed.

Lemma emit_run e w :
  emit e w = (Ret tt, {| remote := remote w; ui_conf := ui_conf w;
                         trace := trace w ++ [e] |}).
Proof. reflexivity. Qed.

Lemma swap_target w client info :
  getClient (remote w) = Some client ->
  getCurrentConnectionInfo (remote w) = Some info ->
  fst (getSwapTargetInfo (remote w)) =
    Some {| hostname := hostname info; port := port info; key := key info;
            mode := match leaderSession client with Some _ => FOLLOWER | None => LEADER end;
            insecure := insecure info |}.
Proof.
  intros Hc Hi. unfold getSwapTargetInfo. rewrite Hc.
  unfold getCurrentConnectionInfo in *. rewrite Hc in *.
  destruct (leaderSession client); [now injection Hi as <-|].
  destruct (followerSession client); [now injection Hi as <-|discriminate].
Qed.

(** X18: swapping while connected.  With a running client whose methods
    return, a connection and a session, [_performSwap] asks for
    confirmation exactly when the current mode is follower and the
    confirmation setting is not switched off; unless that confirmation
    is refused (or a blocking dialog is open), it disconnects silently
    and then connects to the same host, port and key, with the same
    security, in the other mode. *)
Theorem _performSwap_reconnects_flipped blocking yes w client info :
  client_returns react ->
  getClient (remote w) = Some client ->
  client_isConnected client = true ->
  getCurrentConnectionInfo (remote w) = Some info ->
  let asks := mode_eqb (mode info) FOLLOWER && shouldConfirmDisconnectAsFollower w in
  let goes := negb asks || (negb blocking && yes) in
  exists target w',
    fst (getSwapTargetInfo (remote w)) = Some target /\
    same_endpoint target info /\
    mode target = match leaderSession client with Some _ => FOLLOWER | None => LEADER end /\
    _performSwap react blocking yes w = (Ret tt, w') /\
    trace w' =
      trace w ++
      (if asks
       then [if blocking then focusBlockingInstances
             else ShowModal "Confirm Disconnection"]
       else []) ++
      (if goes
       then [Called (client_disconnect true); Called (client_connect target)]
       else []).
Proof.
  intros Hret Hc Hconn Hi asks goes. subst asks goes.
  pose proof (swap_target _ _ _ Hc Hi) as Ht.
  destruct (getClient_running _ _ Hc) as [Hrun Hcl].
  eexists _. unfold _performSwap, isConnected, isRunning.
  rewrite Hrun, Hcl, Hconn. cbn [negb]. mrun. cbv zeta. mrun.
  unfold show_swap_confirmation_dialog, disconnect, connect.
  destruct (mode_eqb (mode info) FOLLOWER), (shouldConfirmDisconnectAsFollower w);
    cbn [andb negb orb]; try destruct blocking; try destruct yes;
    cbn [andb negb orb]; mrun; rewrite ?emit_run; mrun;
    try (erewrite on_client_run by exact Hc; rewrite Hret; mrun;
         erewrite on_client_run by (apply getClient_after; exact Hc);
         rewrite Hret);
    (eexists; split; [reflexivity|]; split; [repeat split|];
     split; [reflexivity|]; split; [reflexivity|]);
    cbn; rewrite ?app_nil_r, <- ?app_assoc; reflexivity.
Qed.

(** X19: swapping when there is nothing to swap.  While the client is
    not running, or is not connected, [_performSwap] only says so; with
    a connection but no session it does nothing at all; in none of
    these cases is the client called. *)
Theorem _performSwap_without_session blocking yes w :
  (isRunning (remote w) = false ->
   exists w', _performSwap react blocking yes w = (Ret tt, w') /\
     remote w' = remote w /\
     trace w' = trace w ++
       [ui_message "Action unavailable when Remote Access is disabled"]) /\
  (forall client,
     getClient (remote w) = Some client -> client_isConnected client = false ->
     exists w', _performSwap react blocking yes w = (Ret tt, w') /\
       remote w' = remote w /\
       trace w' = trace w ++ [ui_message "Not connected"]) /\
  (forall client,
     getClient (remote w) = Some client -> client_isConnected client = true ->
     leaderSession client = None -> followerSession client = None ->
     _performSwap react blocking yes w = (Ret tt, w)).
Proof.
  unfold _performSwap, isConnected. repeat split.
  - intros ->. cbn [negb]. rewrite emit_run. eauto.
  - intros client Hc Hconn. destruct (getClient_running _ _ Hc) as [Hrun Hcl].
    unfold isRunning. rewrite Hrun, Hcl, Hconn. cbn [negb]. mrun.
    rewrite emit_run. eauto.
  - intros client Hc Hconn Hl Hf. destruct (getClient_running _ _ Hc) as [Hrun Hcl].
    unfold isRunning. rewrite Hrun, Hcl, Hconn. cbn [negb]. mrun. cbv zeta.
    unfold getSwapTargetInfo, getCurrentConnectionInfo. rewrite Hc, Hl, Hf.
    reflexivity.
Qed.

(** What [show_switch_to_default_dialog] can come to. *)
Lemma show_switch_to_default_dialog_cases blocking w :
  show_switch_to_default_dialog blocking w = (Done false, w) \/
  (blocking = true /\
   show_switch_to_default_dialog blocking w =
     (Done false, {| remote := remote w; ui_conf := ui_conf w;
                     trace := trace w ++ [focusBlockingInstances] |})) \/
  exists e, show_switch_to_default_dialog blocking w = (Failed e, w).
Proof.
  unfold show_switch_to_default_dialog. destruct blocking; [right; left; auto|].
  destruct (getControlServerConfig (remote w)) as [conf|]; [|auto].
  destruct (getCurrentConnectionInfo (remote w)); [|auto].
  destruct (negb (conf_truthy (Some conf))); [auto|].
  right; right. destruct (rbind _ _); eauto.
Qed.

Lemma show_switch_to_default_dialog_unbound blocking w conf info n local :
  blocking = false ->
  getControlServerConfig (remote w) = Some conf ->
  getCurrentConnectionInfo (remote w) = Some info ->
  cs_connectionMode conf = Some n -> (n = 0 \/ n = 1) ->
  cs_selfHosted conf = Some local ->
  (local = false -> cs_host conf <> None) ->
  show_switch_to_default_dialog blocking w = (Failed (NameError "current_info"), w).
Proof.
  intros -> Hconf Hi Hn Hn' Hsh Hhost.
  unfold show_switch_to_default_dialog. rewrite Hconf, Hi.
  assert (Ht : conf_truthy (Some conf) = true).
  { destruct conf as [[] [] [] [] [] []]; cbn in *; congruence. }
  rewrite Ht, Hn, Hsh. cbn [negb subscript rbind].
  assert (Hm : exists m, toConnectionMode n = Ret m).
  { destruct Hn' as [-> | ->]; eexists; reflexivity. }
  destruct Hm as [m ->]. cbn [rbind].
  destruct local; [reflexivity|].
  destruct (cs_host conf); [reflexivity|now destruct Hhost].
Qed.

(** X20: [show_switch_to_default_dialog] never answers yes and never
    shows its dialog: it answers no (when a blocking dialog is open, or
    the record or the current connection is missing) or raises.  With a
    current connection and a record that has its mode, its self-hosted
    flag and, unless self-hosted, its host, it raises [NameError] for the
    unbound name [current_info]. *)
Theorem show_switch_to_default_dialog_never_confirms blocking w :
  fst (show_switch_to_default_dialog blocking w) <> Done true /\
  (forall title,
     In (ShowModal title) (trace (snd (show_switch_to_default_dialog blocking w))) ->
     In (ShowModal title) (trace w)) /\
  (forall conf info n local,
     blocking = false ->
     getControlServerConfig (remote w) = Some conf ->
     getCurrentConnectionInfo (remote w) = Some info ->
     cs_connectionMode conf = Some n -> (n = 0 \/ n = 1) ->
     cs_selfHosted conf = Some local ->
     (local = false -> cs_host conf <> None) ->
     show_switch_to_default_dialog blocking w =
       (Failed (NameError "current_info"), w)).
Proof.
  split; [|split].
  - destruct (show_switch_to_default_dialog_cases blocking w)
      as [-> | [[_ ->] | [e ->]]]; discriminate.
  - intros title.
    destruct (show_switch_to_default_dialog_cases blocking w)
      as [-> | [[_ ->] | [e ->]]]; cbn [snd trace]; auto.
    rewrite in_app_iff. intros [H|H]; [exact H|in_events H].
  - intros conf info n local. apply show_switch_to_default_dialog_unbound.
Qed.

(** What [performAutoConnect] adds to the record of events. *)
Lemma performAutoConnect_events w :
  exists evs,
    trace (snd (performAutoConnect addressToHostPort react w)) = trace w ++ evs /\
    (forall s, ~ In (Called (client_disconnect s)) evs) /\
    (forall title, ~ In (ShowModal title) evs).
Proof.
  unfold performAutoConnect.
  destruct (getControlServerConfig (remote w)) as [conf|]; [|exists []; settle].
  destruct (conf_truthy (Some conf)); cbn [negb]; [|exists []; settle].
  mrun. destruct (cs_key conf) as [k|]; cbn [subscript]; [|exists []; settle].
  assert (Hfin : forall hn p b w0,
    exists evs,
      trace (snd ((n <- lift (subscript (cs_connectionMode conf)) ;;
                   mode <- lift (toConnectionMode n) ;;
                   connect react {| hostname := hn; mode := mode; key := k;
                                    port := p; insecure := b |}) w0)) =
        trace w0 ++ evs /\
      (forall s, ~ In (Called (client_disconnect s)) evs) /\
      (forall title, ~ In (ShowModal title) evs)).
  { intros hn p b w0. mrun.
    destruct (cs_connectionMode conf) as [n|]; cbn [subscript]; [|exists []; settle].
    mrun. destruct (toConnectionMode n) as [m|]; [|exists []; settle].
    unfold connect.
    destruct (on_client_trace (client_connect {| hostname := hn; mode := m; key := k;
                                                 port := p; insecure := b |}) w0)
      as [[-> | ->] _]; [exists []|eexists [_]]; settle. }
  destruct (get_or (cs_selfHosted conf) false).
  - unfold startLocalServer. rewrite bind_run.
    destruct (on_client react _ w) as [r w1] eqn:E.
    pose proof (on_client_trace (client_startControlServer
                                   (get_or (cs_port conf) 6837) k) w) as [T _].
    rewrite E in T. cbn [snd] in T.
    destruct r as [[]|e].
    + destruct (Hfin "localhost" (get_or (cs_port conf) 6837) true w1)
        as (evs & -> & Hd & Hs).
      destruct T as [-> | ->]; [exists evs; auto|].
      exists (Called (client_startControlServer (get_or (cs_port conf) 6837) k) :: evs).
      rewrite <- app_assoc. split; [reflexivity|].
      split; [intros s [H|H]; [discriminate|now apply (Hd s)]
             |intros t [H|H]; [discriminate|now apply (Hs t)]].
    + cbn [snd]. destruct T as [-> | ->]; [exists []|eexists [_]]; settle.
  - mrun. destruct (cs_host conf) as [a|]; cbn [subscript]; [|exists []; settle].
    mrun. destruct (addressToHostPort a) as [[hn p]|]; [|eexists [_]; settle].
    apply Hfin.
Qed.

(** X21: [_performConnectToDefault] never takes the user away from a
    connection: whatever the state, it neither shows the confirmation
    dialog nor asks the client to disconnect.  Connected to another
    server than the default one, with a complete record and no blocking
    dialog, it ends in the [NameError] of [show_switch_to_default_dialog]
    and has done nothing. *)
Theorem _performConnectToDefault_never_switches blocking w :
  (exists evs,
     trace (snd (_performConnectToDefault addressToHostPort react blocking w)) =
       trace w ++ evs /\
     (forall s, ~ In (Called (client_disconnect s)) evs) /\
     (forall title, ~ In (ShowModal title) evs)) /\
  (forall conf info n local,
     blocking = false ->
     isRunning (remote w) = true ->
     truthy (isAutoConnectConfigured (remote w)) = true ->
     isCurrentConnectionDefault addressToHostPort (remote w) = Ret false ->
     isConnected (remote w) = Ret true ->
     getControlServerConfig (remote w) = Some conf ->
     getCurrentConnectionInfo (remote w) = Some info ->
     cs_connectionMode conf = Some n -> (n = 0 \/ n = 1) ->
     cs_selfHosted conf = Some local ->
     (local = false -> cs_host conf <> None) ->
     _performConnectToDefault addressToHostPort react blocking w =
       (Failed (NameError "current_info"), w)).
Proof.
  split.
  - unfold _performConnectToDefault, service.
    destruct (negb (isRunning (remote w))); [rewrite emit_run; eexists [_]; settle|].
    destruct (negb (truthy _)); [rewrite emit_run; eexists [_]; settle|].
    destruct (isConnected (remote w)) as [[]|e]; [| |exists []; settle].
    + destruct (isCurrentConnectionDefault _ _) as [[]|e];
        [rewrite emit_run; eexists [_]; settle| |exists []; settle].
      destruct (show_switch_to_default_dialog_cases blocking w)
        as [-> | [[_ ->] | [e ->]]]; [exists []|eexists [_]|exists []]; settle.
    + destruct (performAutoConnect_events w) as (evs & T & Hd & Hs).
      destruct (performAutoConnect _ _ w) as [[[]|e] w']; exists evs; auto.
  - intros conf info n local Hb Hrun Hcfg Hdef Hconn Hconf Hi Hn Hn' Hsh Hhost.
    unfold _performConnectToDefault. rewrite Hrun, Hcfg, Hconn, Hdef. cbn [negb].
    now rewrite (show_switch_to_default_dialog_unbound blocking w conf info
                   n local Hb Hconf Hi Hn Hn' Hsh Hhost).
Qed.

Lemma untouched_refl w : untouched w w.
Proof. split; reflexivity. Qed.

Lemma untouched_emit e w :
  match e with Called _ => False | _ => True end ->
  untouched w (snd (emit e w)).
Proof.
  intros H. split; [reflexivity|]. cbn. rewrite client_calls_app.
  destruct e; [destruct H|..]; cbn; now rewrite app_nil_r.
Qed.

Lemma getClient_stopped h : isRunning h = false -> getClient h = None.
Proof. unfold getClient. now intros ->. Qed.

Lemma performAutoConnect_idle w :
  getClient (remote w) = None ->
  untouched w (snd (performAutoConnect addressToHostPort react w)).
Proof.
  intros Hc. unfold performAutoConnect.
  destruct (getControlServerConfig (remote w)) as [conf|]; [|apply untouched_refl].
  destruct (conf_truthy (Some conf)); cbn [negb]; [|apply untouched_refl].
  mrun. destruct (cs_key conf) as [k|]; cbn [subscript]; [|apply untouched_refl].
  assert (Hfin : forall hn p b,
    untouched w
      (snd ((n <- lift (subscript (cs_connectionMode conf)) ;;
             mode <- lift (toConnectionMode n) ;;
             connect react {| hostname := hn; mode := mode; key := k;
                              port := p; insecure := b |}) w))).
  { intros hn p b. mrun.
    destruct (cs_connectionMode conf) as [n|]; cbn [subscript]; [|apply untouched_refl].
    mrun. destruct (toConnectionMode n) as [m|]; [|apply untouched_refl].
    unfold connect. rewrite (on_client_idle _ _ Hc). apply untouched_refl. }
  destruct (get_or (cs_selfHosted conf) false).
  - unfold startLocalServer. rewrite bind_run, (on_client_idle _ _ Hc). apply Hfin.
  - mrun. destruct (cs_host conf) as [a|]; cbn [subscript]; [|apply untouched_refl].
    mrun. destruct (addressToHostPort a) as [[hn p]|]; [apply Hfin|].
    now apply untouched_emit.
Qed.

Lemma _doConnect_stopped chk info conn w :
  isRunning (remote w) = false ->
  untouched w (snd (_doConnect react chk info conn w)).
Proof.
  intros Hrun. pose proof (getClient_stopped _ Hrun) as Hc.
  unfold _doConnect, isConnected. rewrite bind_run, lift_run, Hrun. cbn [negb].
  rewrite bind_run, ret_run, bind_run.
  assert (Hfin : untouched w
            (snd ((connect react info ;;;
                   (if chk then emit Close else ret tt)) w))).
  { unfold connect. rewrite bind_run, (on_client_idle _ _ Hc).
    destruct chk; [now apply untouched_emit|apply untouched_refl]. }
  destruct (get_or (conn_selfHosted conn) false); [|rewrite ret_run; exact Hfin].
  rewrite bind_run, lift_run.
  destruct (conn_port conn) as [p|]; cbn [subscript]; [|apply untouched_refl].
  rewrite bind_run, lift_run.
  destruct (conn_key conn) as [k|]; cbn [subscript]; [|apply untouched_refl].
  unfold startLocalServer. rewrite (on_client_idle _ _ Hc). exact Hfin.
Qed.

(** X22: while the remote client is not running, no handler reaches the
    client: auto-connect, the swap, connect-to-default and the manager's
    connect buttons leave the host as it is and make no client call. *)
Theorem stopped_client_is_never_called blocking yes chk conn w :
  isRunning (remote w) = false ->
  untouched w (snd (performAutoConnect addressToHostPort react w)) /\
  untouched w (snd (_performSwap react blocking yes w)) /\
  untouched w (snd (_performConnectToDefault addressToHostPort react blocking w)) /\
  untouched w (snd (on_connect react chk conn w)) /\
  untouched w (snd (on_connect_reversed react chk conn w)).
Proof.
  intros Hrun. pose proof (getClient_stopped _ Hrun) as Hc.
  split; [now apply performAutoConnect_idle|].
  split; [unfold _performSwap; rewrite Hrun; now apply untouched_emit|].
  split; [unfold _performConnectToDefault, service; rewrite Hrun;
          cbn [negb]; rewrite emit_run; now apply (untouched_emit (ui_message _))|].
  split.
  - unfold on_connect, _get_connection_info_from_selection. rewrite bind_run, lift_run.
    destruct (conn_mode conn); cbn [subscript rbind]; [|apply untouched_refl].
    destruct (conn_host conn); cbn [subscript rbind]; [|apply untouched_refl].
    destruct (conn_port conn); cbn [subscript rbind]; [|apply untouched_refl].
    destruct (conn_key conn); cbn [subscript rbind]; [|apply untouched_refl].
    now apply _doConnect_stopped.
  - unfold on_connect_reversed. rewrite bind_run, lift_run.
    destruct (conn_mode conn); cbn [subscript]; [|apply untouched_refl].
    rewrite bind_run, lift_run.
    destruct (conn_host conn); cbn [subscript]; [|apply untouched_refl].
    rewrite bind_run, lift_run.
    destruct (conn_port conn); cbn [subscript]; [|apply untouched_refl].
    rewrite bind_run, lift_run.
    destruct (conn_key conn); cbn [subscript]; [|apply untouched_refl].
    now apply _doConnect_stopped.
Qed.

Ltac secsimpl :=
  cbn [cs_autoconnect cs_selfHosted cs_connectionMode cs_host cs_port cs_key
       set_autoconnect set_selfHosted set_connectionMode set_host set_port set_key
       get_or subscript conf_truthy negb].

(** X23: set as auto-connect, then auto-connect, is the Connect button.
    After [setAsAutoConnect conn], [performAutoConnect] makes the same
    client calls, in the same order, as [on_connect] makes for [conn] on
    an idle client -- provided the host parser reads back the host string
    that was written, and a self-hosted connection has the host
    [localhost] the editor gives it. *)
Theorem autoconnect_repeats_on_connect chk conn w client h' :
  client_returns react ->
  getClient (remote w) = Some client ->
  client_isConnected client = false ->
  setAsAutoConnect conn (remote w) = (Ret tt, h') ->
  (if get_or (conn_selfHosted conn) false
   then conn_host conn = Some "localhost"
   else exists a p,
       conn_host conn = Some a /\ conn_port conn = Some p /\
       addressToHostPort (if negb (p =? 6837) then format_host_port a p else a) =
         Some (a, p)) ->
  exists w1 w2,
    performAutoConnect addressToHostPort react
      {| remote := h'; ui_conf := ui_conf w; trace := trace w |} = (Ret tt, w1) /\
    on_connect react chk conn w = (Ret tt, w2) /\
    client_calls (trace w1) = client_calls (trace w2) /\
    _remoteClient (remote w1) = _remoteClient (remote w2).
Proof.
  intros Hret Hc Hidle Hset Hhost.
  destruct (getClient_running _ _ Hc) as [Hrun Hcl].
  unfold setAsAutoConnect in Hset.
  destruct (controlServer (remote w)) as [sec|]; [|discriminate].
  destruct (write_autoconnect conn sec) as [r sec'] eqn:W.
  injection Hset as -> <-.
  destruct conn as [ho [k|] [p|] [m|] sh];
    try (destruct sh as [[]|], ho; discriminate W).
  unfold write_autoconnect in W. cbn [conn_selfHosted conn_host conn_port] in Hhost.
  assert (He : isConnected (remote w) = Ret false).
  { unfold isConnected, isRunning. now rewrite Hrun, Hcl, Hidle. }
  assert (Hm : toConnectionMode (if String.eqb m "leader" then 1 else 0) =
               Ret (if String.eqb m "leader" then LEADER else FOLLOWER)).
  { now destruct (String.eqb m "leader"). }
  unfold performAutoConnect, on_connect, _get_connection_info_from_selection,
    _doConnect, getControlServerConfig, startLocalServer, connect.
  cbn [remote controlServer negb conn_mode conn_host conn_port conn_key
       conn_selfHosted subscript rbind].
  destruct (get_or sh false) eqn:Hsh; cbn in W; rewrite Hsh in W; cbn in W.
  - injection W as <-. subst ho. secsimpl. mrun. secsimpl. mrun.
    repeat (erewrite on_client_run
              by (repeat apply getClient_after; first [exact Hc | reflexivity]);
            rewrite Hret; mrun).
    destruct chk; rewrite ?emit_run, ?ret_run;
      eexists _, _; (split; [reflexivity|]); (split; [reflexivity|]);
      cbn; rewrite !client_calls_app; cbn; rewrite ?app_nil_r; auto.
  - destruct Hhost as (a & p' & -> & [= <-] & Hparse). cbn in W. injection W as <-.
    secsimpl. mrun. secsimpl. mrun.
    repeat (erewrite on_client_run
              by (repeat apply getClient_after; first [exact Hc | reflexivity]);
            rewrite Hret; mrun).
    destruct chk; rewrite ?emit_run, ?ret_run;
      eexists _, _; (split; [reflexivity|]); (split; [reflexivity|]);
      cbn; rewrite !client_calls_app; cbn; rewrite ?app_nil_r; auto.
Qed.

(** X24: the manager's two connect buttons.  For a connection with its
    mode, host, port and key, on a running client whose methods return,
    [on_connect] disconnects silently if connected, starts the local
    server on the connection's port and key if it is self-hosted, and
    connects; [on_connect_reversed] makes the same calls, its connection
    differing in the mode only, which is the other one. *)
Theorem on_connect_reversed_flips_mode chk conn w client m a p k :
  client_returns react ->
  getClient (remote w) = Some client ->
  conn_mode conn = Some m -> conn_host conn = Some a ->
  conn_port conn = Some p -> conn_key conn = Some k ->
  let info := {| hostname := a;
                 mode := (if String.eqb m "leader" then LEADER else FOLLOWER);
                 key := k; port := p;
                 insecure := get_or (conn_selfHosted conn) false |} in
  let before :=
    (if client_isConnected client then [client_disconnect true] else []) ++
    (if get_or (conn_selfHosted conn) false
     then [client_startControlServer p k] else []) in
  exists w1 w2,
    on_connect react chk conn w = (Ret tt, w1) /\
    on_connect_reversed react chk conn w = (Ret tt, w2) /\
    client_calls (trace w1) =
      client_calls (trace w) ++ before ++ [client_connect info] /\
    client_calls (trace w2) =
      client_calls (trace w) ++ before ++ [client_connect (reversed info)].
Proof.
  intros Hret Hc Hm Ha Hp Hk info before. subst info before.
  destruct (getClient_running _ _ Hc) as [Hrun Hcl].
  assert (He : isConnected (remote w) = Ret (client_isConnected client)).
  { unfold isConnected, isRunning. now rewrite Hrun, Hcl. }
  unfold on_connect, on_connect_reversed, _get_connection_info_from_selection,
    _doConnect, startLocalServer, connect, disconnect, reversed.
  rewrite Hm, Ha, Hp, Hk. cbn [subscript rbind]. mrun.
  destruct (client_isConnected client), (get_or (conn_selfHosted conn) false);
    mrun; cbn [subscript]; mrun;
    repeat (erewrite on_client_run
              by (repeat apply getClient_after; first [exact Hc | reflexivity]);
            rewrite Hret; mrun);
    destruct chk; rewrite ?emit_run, ?ret_run;
    eexists _, _; (split; [reflexivity|]); (split; [reflexivity|]);
    cbn; rewrite !client_calls_app; cbn; rewrite ?app_nil_r, <- ?app_assoc;
    split; destruct (String.eqb m "leader"); reflexivity.
Qed.

Lemma isCurrentConnectionDefault_of_target h conf info :
  isConnected h = Ret true ->
  getControlServerConfig h = Some conf ->
  getCurrentConnectionInfo h = Some info ->
  auto_connect_target addressToHostPort conf =
    Some (hostname info, port info, key info, mode info) ->
  isCurrentConnectionDefault addressToHostPort h = Ret true.
Proof.
  intros Hconn Hconf Hi Ht. unfold isCurrentConnectionDefault.
  rewrite Hconn, Hconf, Hi. cbn [rbind negb].
  unfold auto_connect_target in Ht.
  destruct (cs_key conf) as [k|] eqn:Hk.
  2:{ destruct (if get_or (cs_selfHosted conf) false then _ else _) as [[]|];
        discriminate. }
  rewrite (conf_truthy_key _ _ Hk). cbn [negb].
  destruct (get_or (cs_selfHosted conf) false); cbn [negb].
  - destruct (cs_connectionMode conf) as [n|]; [|discriminate].
    destruct (toConnectionMode n) as [m|] eqn:Hm; [|discriminate].
    injection Ht as -> -> -> ->. cbn [subscript rbind]. rewrite Hm. cbn [rbind].
    rewrite String.eqb_refl, Z.eqb_refl, String.eqb_refl. cbn [negb].
    now destruct (mode info).
  - destruct (cs_host conf) as [a|]; [|discriminate]. cbn [subscript rbind].
    destruct (addressToHostPort a) as [[hn p]|]; [|discriminate].
    destruct (cs_connectionMode conf) as [n|]; [|discriminate].
    destruct (toConnectionMode n) as [m|] eqn:Hm; [|discriminate].
    injection Ht as -> -> -> ->. cbn [subscript rbind]. rewrite Hm. cbn [rbind].
    rewrite String.eqb_refl, Z.eqb_refl, String.eqb_refl. cbn [negb].
    now destruct (mode info).
Qed.

Lemma isAutoConnectConfigured_section h h' :
  controlServer h' = controlServer h ->
  isAutoConnectConfigured h' = isAutoConnectConfigured h.
Proof. unfold isAutoConnectConfigured, getControlServerConfig. now intros ->. Qed.

(** X25: after auto-connect the connection is the default one.  With a
    client that, asked to connect, holds a session for what it was asked,
    the connection [performAutoConnect] opens is one
    [isCurrentConnectionDefault] recognises; a configured
    [_performConnectToDefault] called then only says that the default
    server is connected already. *)
Theorem autoconnect_then_is_default blocking w client conf hn p k m :
  client_returns react ->
  connects_as_asked react ->
  getClient (remote w) = Some client ->
  getControlServerConfig (remote w) = Some conf ->
  auto_connect_target addressToHostPort conf = Some (hn, p, k, m) ->
  exists w',
    performAutoConnect addressToHostPort react w = (Ret tt, w') /\
    isCurrentConnectionDefault addressToHostPort (remote w') = Ret true /\
    (truthy (isAutoConnectConfigured (remote w)) = true ->
     _performConnectToDefault addressToHostPort react blocking w' =
       (Done tt, {| remote := remote w'; ui_conf := ui_conf w';
                    trace := trace w' ++
                      [ui_message "Already connected to default server."] |})).
Proof.
  intros Hret Hasked Hc Hconf Ht.
  pose proof (performAutoConnect_run _ _ _ _ _ _ _ Hret Hc Hconf Ht) as E.
  cbv zeta in E. eexists. split; [exact E|].
  destruct (getClient_running _ _ Hc) as [Hrun Hcl].
  set (info := {| hostname := hn; mode := m; key := k; port := p;
                  insecure := get_or (cs_selfHosted conf) false |}) in *.
  set (w' := if get_or (cs_selfHosted conf) false then _ else _) in *.
  assert (Hw : exists client0,
    remote w' = {| remoteRunning := true;
                   _remoteClient := Some (snd (react (client_connect info) client0));
                   controlServer := Some conf |}).
  { unfold getControlServerConfig in Hconf. subst w'.
    destruct (get_or (cs_selfHosted conf) false); eexists;
      cbn [remote after_call remoteRunning controlServer];
      rewrite ?Hrun, ?Hconf; reflexivity. }
  destruct Hw as [client0 Hw].
  destruct (Hasked info client0) as (Hconn & s & Hs & Hinfo).
  assert (Hdef : isCurrentConnectionDefault addressToHostPort (remote w') = Ret true).
  { apply isCurrentConnectionDefault_of_target
      with (conf := conf)
           (info := {| hostname := hn; mode := m; key := k; port := p;
                       insecure := transport_insecure s |}).
    - rewrite Hw. unfold isConnected, isRunning. cbn. now rewrite Hconn.
    - now rewrite Hw.
    - rewrite Hw. unfold getCurrentConnectionInfo, getClient, isRunning. cbn.
      unfold current_session in Hs.
      destruct (leaderSession _); [injection Hs as ->|rewrite Hs];
        now rewrite Hinfo.
    - exact Ht. }
  split; [exact Hdef|].
  intros Hcfg. unfold _performConnectToDefault, service.
  rewrite Hdef. rewrite (isAutoConnectConfigured_section (remote w) (remote w'))
    by (rewrite Hw; symmetry; exact Hconf).
  rewrite Hcfg, Hw. unfold isConnected, isRunning. cbn. rewrite Hconn.
  now rewrite Hw.
Qed.

End Calls.

Lemma performAutoConnect_connects_to_target_witness :
  trace (snd (performAutoConnect sample_addressToHostPort sample_react
                (idle_world (Some remote_record)))) =
    [Called (client_connect {| hostname := "example.org"; mode := LEADER;
                               key := "abc"; port := 7000; insecure := false |})] /\
  trace (snd (performAutoConnect sample_addressToHostPort sample_react
                (idle_world (Some (local_record (Some 0)))))) =
    [Called (client_startControlServer 7001 "abc");
     Called (client_connect {| hostname := "localhost"; mode := FOLLOWER;
                               key := "abc"; port := 7001; insecure := true |})].
Proof.
  assert (Hret : client_returns sample_react) by (intros [] ?; reflexivity).
  split.
  - destruct (performAutoConnect_connects_to_target sample_addressToHostPort
                sample_react false (idle_world (Some remote_record)) idle_client
                remote_record "example.org" 7000 "abc" LEADER
                Hret eq_refl eq_refl eq_refl) as (w' & E & T & _).
    rewrite E. exact T.
  - destruct (performAutoConnect_connects_to_target sample_addressToHostPort
                sample_react false (idle_world (Some (local_record (Some 0)))) idle_client
                (local_record (Some 0)) "localhost" 7001 "abc" FOLLOWER
                Hret eq_refl eq_refl eq_refl) as (w' & E & T & _).
    rewrite E. exact T.
Defined.

Lemma performAutoConnect_starts_server_before_reading_mode_witness :
  exists e w',
    performAutoConnect sample_addressToHostPort sample_react
      (idle_world (Some (local_record (Some 2)))) = (Raise e, w') /\
    trace w' = [Called (client_startControlServer 7001 "abc")].
Proof.
  assert (Hret : client_returns sample_react) by (intros [] ?; reflexivity).
  destruct (performAutoConnect_starts_server_before_reading_mode
              sample_addressToHostPort sample_react
              (idle_world (Some (local_record (Some 2)))) idle_client
              (local_record (Some 2)) "abc" Hret eq_refl eq_refl eq_refl eq_refl)
    as (e & w' & E & _ & T).
  - right. exists 2. repeat split; lia.
  - exists e, w'. split; [exact E|exact T].
Defined.

Lemma sample_react_returns : client_returns sample_react.
Proof. intros [] ?; reflexivity. Qed.

Lemma sample_react_connects : connects_as_asked sample_react.
Proof.
  intros info client. cbn. destruct (mode info); cbn; split; eauto.
Qed.

Lemma _performSwap_reconnects_flipped_witness :
  trace (snd (_performSwap sample_react false true
                (connected_world FOLLOWER None None))) =
    [ShowModal "Confirm Disconnection";
     Called (client_disconnect true);
     Called (client_connect {| hostname := "example.org"; mode := LEADER;
                               key := "abc"; port := 6837; insecure := false |})].
Proof.
  destruct (_performSwap_reconnects_flipped sample_react false true
              (connected_world FOLLOWER None None) _ _
              sample_react_returns eq_refl eq_refl eq_refl)
    as (t & w' & Ht & _ & _ & E & T).
  rewrite E. injection Ht as <-. exact T.
Defined.

Lemma _performSwap_without_session_witness :
  trace (snd (_performSwap sample_react false true stopped_world)) =
    [ui_message "Action unavailable when Remote Access is disabled"] /\
  trace (snd (_performSwap sample_react false true (idle_world None))) =
    [ui_message "Not connected"].
Proof.
  split.
  - destruct (proj1 (_performSwap_without_session sample_react false true
                       stopped_world) eq_refl) as (w' & E & _ & T).
    rewrite E. exact T.
  - destruct (proj1 (proj2 (_performSwap_without_session sample_react false true
                              (idle_world None))) idle_client eq_refl eq_refl)
      as (w' & E & _ & T).
    rewrite E. exact T.
Defined.

Lemma show_switch_to_default_dialog_never_confirms_witness :
  show_switch_to_default_dialog false
    (connected_world LEADER None (Some remote_record)) =
    (Failed (NameError "current_info"),
     connected_world LEADER None (Some remote_record)).
Proof.
  apply (proj2 (proj2 (show_switch_to_default_dialog_never_confirms false
                         (connected_world LEADER None (Some remote_record))))
           remote_record
           {| hostname := "example.org"; mode := LEADER; key := "abc";
              port := 6837; insecure := false |}
           1 false);
    try reflexivity; [now right|discriminate].
Defined.

Lemma _performConnectToDefault_never_switches_witness :
  _performConnectToDefault sample_addressToHostPort sample_react false
    (connected_world LEADER None (Some remote_record)) =
    (Failed (NameError "current_info"),
     connected_world LEADER None (Some remote_record)).
Proof.
  apply (proj2 (_performConnectToDefault_never_switches sample_addressToHostPort
                  sample_react false
                  (connected_world LEADER None (Some remote_record)))
           remote_record
           {| hostname := "example.org"; mode := LEADER; key := "abc";
              port := 6837; insecure := false |}
           1 false);
    try reflexivity; [now right|discriminate].
Defined.

Lemma stopped_client_is_never_called_witness :
  untouched stopped_world
    (snd (on_connect sample_react true sample_connection stopped_world)) /\
  untouched stopped_world
    (snd (performAutoConnect sample_addressToHostPort sample_react stopped_world)).
Proof.
  destruct (stopped_client_is_never_called sample_addressToHostPort sample_react
              false true true sample_connection stopped_world eq_refl)
    as (H1 & _ & _ & H4 & _).
  split; [exact H4|exact H1].
Defined.

Lemma autoconnect_repeats_on_connect_witness :
  client_calls
    (trace (snd (performAutoConnect sample_addressToHostPort sample_react
                   {| remote := snd (setAsAutoConnect sample_connection
                                       (remote (idle_world (Some remote_record))));
                      ui_conf := None; trace := [] |}))) =
  client_calls
    (trace (snd (on_connect sample_react true sample_connection
                   (idle_world (Some remote_record))))).
Proof.
  destruct (autoconnect_repeats_on_connect sample_addressToHostPort sample_react
              true sample_connection (idle_world (Some remote_record)) idle_client
              (snd (setAsAutoConnect sample_connection
                      (remote (idle_world (Some remote_record)))))
              sample_react_returns eq_refl eq_refl eq_refl)
    as (w1 & w2 & E1 & E2 & T & _).
  - exists "example.org", 7000. repeat split.
  - cbn [ui_conf trace idle_world] in E1. rewrite E1, E2. exact T.
Defined.

Lemma on_connect_reversed_flips_mode_witness :
  client_calls
    (trace (snd (on_connect_reversed sample_react false sample_connection
                   (connected_world LEADER None None)))) =
    [client_disconnect true;
     client_connect {| hostname := "example.org"; mode := FOLLOWER; key := "abc";
                       port := 7000; insecure := false |}].
Proof.
  destruct (on_connect_reversed_flips_mode sample_react false sample_connection
              (connected_world LEADER None None) _ "leader" "example.org" 7000 "abc"
              sample_react_returns eq_refl eq_refl eq_refl eq_refl eq_refl)
    as (w1 & w2 & _ & E & _ & T).
  rewrite E. exact T.
Defined.

Lemma autoconnect_then_is_default_witness :
  isCurrentConnectionDefault sample_addressToHostPort
    (remote (snd (performAutoConnect sample_addressToHostPort sample_react
                    (idle_world (Some remote_record))))) = Ret true.
Proof.
  destruct (autoconnect_then_is_default sample_addressToHostPort sample_react false
              (idle_world (Some remote_record)) idle_client remote_record
              "example.org" 7000 "abc" LEADER
              sample_react_returns sample_react_connects eq_refl eq_refl eq_refl)
    as (w' & E & H & _).
  rewrite E. exact H.
Defined.

Lemma isAutoConnectConfigured_truthy_iff_witness :
  isAutoConnectConfigured (sample_host 7000) = AStr "example.org:7000" /\
  isAutoConnectEnabled (sample_host 7000) = true.
Proof.
  destruct (isAutoConnectConfigured_truthy_iff (sample_host 7000)) as (Hiff & Hen & Hstr).
  assert (E : isAutoConnectConfigured (sample_host 7000) = AStr "example.org:7000").
  { eapply Hstr; try reflexivity; discriminate. }
  split; [exact E|]. apply Hen. now rewrite E.
Defined.

Lemma performAutoConnect_connects_only_to_target_witness :
  exists conf,
    getControlServerConfig (remote (idle_world (Some remote_record))) = Some conf /\
    auto_connect_target sample_addressToHostPort conf =
      Some ("example.org", 7000, "abc", LEADER).
Proof.
  destruct (performAutoConnect_connects_only_to_target sample_addressToHostPort
              sample_react (idle_world (Some remote_record)))
    as (evs & T & _ & H & _).
  cbn in T. subst evs.
  destruct (H {| hostname := "example.org"; mode := LEADER; key := "abc";
                 port := 7000; insecure := false |}) as (conf & Hc & Ht & _).
  - now left.
  - exists conf. split; [exact Hc|exact Ht].
Defined.

End ActionExtras.

(** ** Properties of the group manager dialog *)

Module DialogExtras.
Import Py ConnectionManager DictFacts StoreFacts Examples StoreViews StoreExtras GroupManagerDialog.

Lemma filter_twice {A} (P Q : A -> bool) l :
  List.filter P (List.filter Q l) = List.filter (fun x => Q x && P x) l.
Proof.
  induction l as [|x l IH]; [reflexivity|]. cbn.
  destruct (Q x); cbn; [destruct (P x)|]; now rewrite ?IH.
Qed.

Lemma flat_map_ext_in {A B} (f g : A -> list B) l :
  (forall x, In x l -> f x = g x) -> flat_map f l = flat_map g l.
Proof.
  induction l as [|x l IH]; intros H; [reflexivity|]. cbn.
  rewrite (H x) by now left. rewrite IH; [reflexivity|].
  intros y Hy. apply H. now right.
Qed.

Lemma delete_each_ok io l :
  forall s gs dflt,
    well_formed (data s) = true ->
    dict_get "groups" (data s) = Some (VDict gs) ->
    List.NoDup l ->
    Forall (fun g => g <> DEFAULT_GROUP) l ->
    dict_get DEFAULT_GROUP gs = Some (VList dflt) ->
    exists s' gs',
      delete_each io l s = (Ret tt, s') /\
      well_formed (data s') = true /\
      dict_get "groups" (data s') = Some (VDict gs') /\
      dict_keys gs' =
        List.filter (fun g => negb (existsb (String.eqb g) l)) (dict_keys gs) /\
      dict_get DEFAULT_GROUP gs' = Some (VList (dflt ++ flat_map (items_of gs) l)) /\
      (forall g, g <> DEFAULT_GROUP -> ~ In g l -> dict_get g gs' = dict_get g gs).
Proof.
  induction l as [|g rest IH]; intros s gs dflt Hwf Hgs Hnd Hne Hd.
  - exists s, gs. cbn. rewrite app_nil_r. repeat split; auto.
    induction (dict_keys gs) as [|k ks IHk]; [reflexivity|]. cbn. now rewrite <- IHk.
  - inversion Hnd as [|? ? Hnotin Hnd']; subst.
    inversion Hne as [|? ? Hg Hne']; subst.
    destruct s as [d f]. cbn [data] in *. cbn [delete_each]. rewrite bind_run.
    destruct (dict_get g gs) as [v|] eqn:Hv.
    + apply well_formed_iff in Hwf as Hwf'.
      destruct Hwf' as (a & gs0 & Ha & _ & Hgs0 & _ & Hok).
      rewrite Hgs in Hgs0. injection Hgs0 as <-.
      destruct (is_connection_list_inv _ (groups_ok_get _ _ _ Hok Hv))
        as (items & -> & _).
      rewrite (deleteGroup_move_ok (io g) d f gs Hgs g items dflt a Hg Hv Hd Ha).
      set (gs1 := dict_del g (dict_set DEFAULT_GROUP (VList (dflt ++ items)) gs)).
      cbv zeta.
      set (d1 := if eq_str a g then _ else _).
      destruct (saved_shape (io g) d1 f) as [f1 Hs1]. rewrite Hs1.
      assert (Hwf1 : well_formed d1 = true).
      { destruct (exec_well_formed (io g) (DeleteGroup g true) {| data := d; files := f |} Hwf)
          as (s' & E & Hwf' & _).
        unfold exec in E. rewrite bind_run in E.
        rewrite (deleteGroup_move_ok (io g) d f gs Hgs g items dflt a Hg Hv Hd Ha) in E.
        cbv zeta in E. fold gs1 d1 in E. rewrite Hs1 in E. injection E as <-.
        exact Hwf'. }
      assert (Hgs1 : dict_get "groups" d1 = Some (VDict gs1)).
      { subst d1. destruct (eq_str a g);
          [rewrite dict_get_set_ne by discriminate|]; apply dict_get_set_eq. }
      assert (Hd1 : dict_get DEFAULT_GROUP gs1 = Some (VList (dflt ++ items))).
      { subst gs1. rewrite dict_get_del_ne by congruence. apply dict_get_set_eq. }
      assert (Hsame : forall g', g' <> g -> g' <> DEFAULT_GROUP ->
                                 dict_get g' gs1 = dict_get g' gs).
      { intros g' H1 H2. subst gs1. rewrite dict_get_del_ne by congruence.
        apply dict_get_set_ne. congruence. }
      destruct (IH {| data := d1; files := f1 |} gs1 (dflt ++ items)
                  Hwf1 Hgs1 Hnd' Hne' Hd1)
        as (s' & gs' & E & Hwf' & Hgs' & Hk & Hd' & Ho).
      exists s', gs'. split; [exact E|]. split; [exact Hwf'|]. split; [exact Hgs'|].
      split; [|split].
      * rewrite Hk. subst gs1. rewrite dict_keys_del, dict_keys_set_present
          by (apply dict_mem_get; eauto).
        rewrite filter_twice. apply filter_ext. intros k. cbn [existsb].
        now rewrite negb_orb.
      * rewrite Hd'. cbn [flat_map]. unfold items_of at 2. rewrite Hv.
        cbn [connections_of]. rewrite <- app_assoc. do 4 f_equal.
        apply flat_map_ext_in. intros g' Hin. unfold items_of.
        rewrite Hsame; [reflexivity| |].
        -- intros ->. contradiction.
        -- exact (proj1 (List.Forall_forall _ _) Hne' g' Hin).
      * intros g0 H0 Hin. rewrite Ho; [|exact H0|intros H; apply Hin; now right].
        apply Hsame; [|exact H0]. intros ->. apply Hin. now left.
    + rewrite (deleteGroup_refused (io g) d f gs Hgs g true)
        by (right; now apply dict_mem_false).
      destruct (IH {| data := d; files := f |} gs dflt Hwf Hgs Hnd' Hne' Hd)
        as (s' & gs' & E & Hwf' & Hgs' & Hk & Hd' & Ho).
      exists s', gs'. split; [exact E|]. split; [exact Hwf'|]. split; [exact Hgs'|].
      split; [|split].
      * rewrite Hk. apply filter_ext_in. intros k Hin. cbn [existsb].
        destruct (String.eqb_spec k g) as [->|]; [|reflexivity].
        apply dict_mem_keys, dict_mem_get in Hin as [v Hv']. congruence.
      * rewrite Hd'. cbn [flat_map]. unfold items_of at 2. now rewrite Hv.
      * intros g0 H0 Hin. apply Ho; [exact H0|]. intros H; apply Hin; now right.
Qed.

(** X26: deleting groups in the group manager.  On a well-formed store,
    a confirmed [on_delete] returns normally; the groups left are those
    that were not selected, and "Default" in any case, in their order;
    "Default" holds its former connections followed by those of the
    deleted groups, group after group in the order of the selection;
    every other group left holds what it held.  Declined, [on_delete]
    changes nothing. *)
Theorem on_delete_moves_connections_to_default io selected s gs dflt :
  well_formed (data s) = true ->
  dict_get "groups" (data s) = Some (VDict gs) ->
  List.NoDup selected ->
  dict_get DEFAULT_GROUP gs = Some (VList dflt) ->
  on_delete io selected false s = (Ret tt, s) /\
  exists s',
    on_delete io selected true s = (Ret tt, s') /\
    fst (getGroups s') =
      Ret (List.filter
             (fun g => negb (existsb (String.eqb g) (groups_to_delete selected)))
             (dict_keys gs)) /\
    fst (getConnections DEFAULT_GROUP s') =
      Ret (VList (dflt ++ flat_map (items_of gs) (groups_to_delete selected))) /\
    (forall g, g <> DEFAULT_GROUP -> ~ In g selected ->
               fst (getConnections g s') = fst (getConnections g s)).
Proof.
  intros Hwf Hgs Hnd Hd. split.
  { unfold on_delete. now destruct (groups_to_delete selected). }
  assert (Hl : on_delete io selected true s =
               delete_each io (groups_to_delete selected) s).
  { unfold on_delete. now destruct (groups_to_delete selected). }
  assert (Hne : Forall (fun g => g <> DEFAULT_GROUP) (groups_to_delete selected)).
  { apply List.Forall_forall. intros g Hin. apply filter_In in Hin as [_ H].
    apply negb_true_iff in H. now apply String.eqb_neq. }
  destruct (delete_each_ok io (groups_to_delete selected) s gs dflt Hwf Hgs
              (List.NoDup_filter _ Hnd) Hne Hd)
    as (s' & gs' & E & _ & Hgs' & Hk & Hd' & Ho).
  exists s'. rewrite Hl. split; [exact E|].
  destruct s as [d f], s' as [d' f']. cbn [data] in *.
  rewrite (getGroups_ok d' f' gs' Hgs'), !(getConnections_ok d' f' gs' Hgs'),
    Hd', Hk.
  repeat split. intros g Hg Hin.
  rewrite (getConnections_ok d f gs Hgs), (getConnections_ok d' f' gs' Hgs').
  cbn [fst]. rewrite Ho; [reflexivity|exact Hg|].
  intros H. apply filter_In in H as [H _]. contradiction.
Qed.

Lemma on_delete_moves_connections_to_default_witness :
  exists s',
    on_delete (fun _ => SaveOk) ["Work"; "Default"; "Home"] true example_store =
      (Ret tt, s') /\
    fst (getGroups s') = Ret ["Default"] /\
    fst (getConnections "Default" s') =
      Ret (VList [VDict [("id", VStr "z0")]; VDict [("id", VStr "a1")];
                  VDict [("id", VStr "b2")]; VDict [("id", VStr "c3")];
                  VDict [("id", VStr "d4")]]).
Proof.
  destruct (on_delete_moves_connections_to_default (fun _ => SaveOk)
              ["Work"; "Default"; "Home"] example_store
              [ ("Default", VList [VDict [("id", VStr "z0")]]);
                ("Work", VList [VDict [("id", VStr "a1")];
                                VDict [("id", VStr "b2")];
                                VDict [("id", VStr "c3")]]);
                ("Home", VList [VDict [("id", VStr "d4")]]) ]
              [VDict [("id", VStr "z0")]] eq_refl eq_refl)
    as (_ & s' & E & Hg & Hc & _).
  - repeat constructor; cbn; intuition discriminate.
  - reflexivity.
  - exists s'. split; [exact E|]. split; [exact Hg|exact Hc].
Defined.

End DialogExtras.
